(** * ZIP Demographics API clients: a shallow embedding

    The repository ships the same REST client in several languages.  This
    development embeds the three bindings whose code is available:

    - [Npm]     : [src/npm/index.js] (class [zipdemographicsWrapper]);
    - [Nuget]   : [src/nuget/ZIPDemographicsAPIClient.cs], the C# client, with
                  both of its conditional-compilation variants (the
                  [HttpClient] one and the legacy [WebRequest] one);
    - [Android] : the Java client that follows the C# client.

    Every function is total and executable.  Effects are explicit: a run
    returns the trace of what it did (requests, sleeps, log lines, callback
    calls) together with its completion (a value, or what was thrown).  What
    the network and the language runtime decide is an explicit argument. *)

From Stdlib Require Import String Ascii List ZArith NArith Bool Lia Floats.
From Stdlib Require Import DecimalString.
Import ListNotations.
Local Open Scope string_scope.
Local Open Scope Z_scope.

Set Implicit Arguments.
Set Warnings "-register-all".

(* ================================================================== *)
(** * Strings *)

(** Strings are sequences of code units below 256 ([ascii]); every literal of
    the sources is in that range.  A string that holds a code unit from 256
    on is outside the development, and so is what the platforms do with one:
    [encodeURIComponent] throws a [URIError] on a lone surrogate,
    [Uri.EscapeDataString] throws or substitutes on one, and the digit class
    of a .NET pattern holds the decimal digits of every script. *)

Definition code (c : ascii) : N := N_of_ascii c.

Definition in_range (lo hi : ascii) (c : ascii) : bool :=
  (code lo <=? code c)%N && (code c <=? code hi)%N.

Definition is_digit (c : ascii) : bool := in_range "0" "9" c.
Definition is_lower (c : ascii) : bool := in_range "a" "z" c.
Definition is_upper (c : ascii) : bool := in_range "A" "Z" c.
Definition is_alnum (c : ascii) : bool := is_lower c || is_upper c || is_digit c.

Definition is_char (x : ascii) (c : ascii) : bool := Ascii.eqb x c.

Definition to_lower (c : ascii) : ascii :=
  if is_upper c then ascii_of_N (code c + 32) else c.

Fixpoint str_filter (p : ascii -> bool) (s : string) : string :=
  match s with
  | EmptyString => EmptyString
  | String c s' => if p c then String c (str_filter p s') else str_filter p s'
  end.

Fixpoint str_forall (p : ascii -> bool) (s : string) : bool :=
  match s with
  | EmptyString => true
  | String c s' => p c && str_forall p s'
  end.

(** [s.replace(/x/g, '')] and [s.replace("x", "")] for a one-character [x]. *)
Definition remove_char (x : ascii) (s : string) : string :=
  str_filter (fun c => negb (is_char x c)) s.

Definition str_len (s : string) : Z := Z.of_nat (String.length s).

Definition is_empty (s : string) : bool :=
  match s with EmptyString => true | _ => false end.

(** [xs.join(sep)] *)
Fixpoint join (sep : string) (xs : list string) : string :=
  match xs with
  | [] => ""
  | [x] => x
  | x :: rest => x ++ sep ++ join sep rest
  end.

(** Decimal form of an integer, as string interpolation prints it. *)
Definition string_of_Z (z : Z) : string := NilZero.string_of_int (Z.to_int z).
Definition string_of_nat (n : nat) : string := string_of_Z (Z.of_nat n).

Fixpoint assoc {A : Type} (k : string) (l : list (string * A)) : option A :=
  match l with
  | [] => None
  | (k', v) :: rest => if String.eqb k k' then Some v else assoc k rest
  end.

(** Append of lists, apart from the append of strings. *)
Infix "+++" := app (at level 60, right associativity).

(** [if (cond) errors.push(msg)] *)
Definition push_if (cond : bool) (msg : string) : list string :=
  if cond then [msg] else [].

(* ================================================================== *)
(** * Regular expressions

    The patterns of the sources use character classes, concatenation,
    alternation and bounded or unbounded repetition only, so matching is
    language membership; it is decided with Brzozowski derivatives. *)

Inductive regex : Type :=
| Void : regex
| Eps : regex
| Cls (p : ascii -> bool) : regex
| Seq (r1 r2 : regex) : regex
| Alt (r1 r2 : regex) : regex
| Star (r : regex) : regex.

Fixpoint nullable (r : regex) : bool :=
  match r with
  | Void => false
  | Eps => true
  | Cls _ => false
  | Seq r1 r2 => nullable r1 && nullable r2
  | Alt r1 r2 => nullable r1 || nullable r2
  | Star _ => true
  end.

Fixpoint deriv (c : ascii) (r : regex) : regex :=
  match r with
  | Void => Void
  | Eps => Void
  | Cls p => if p c then Eps else Void
  | Seq r1 r2 =>
      if nullable r1
      then Alt (Seq (deriv c r1) r2) (deriv c r2)
      else Seq (deriv c r1) r2
  | Alt r1 r2 => Alt (deriv c r1) (deriv c r2)
  | Star r1 => Seq (deriv c r1) (Star r1)
  end.

(** [matches r s]: the whole of [s] is in the language of [r] ([^r$]). *)
Fixpoint matches (r : regex) (s : string) : bool :=
  match s with
  | EmptyString => nullable r
  | String c s' => matches (deriv c r) s'
  end.

(** [r+], [r?], [r{n}], [r{lo,hi}] *)
Definition Plus (r : regex) : regex := Seq r (Star r).
Definition Opt (r : regex) : regex := Alt Eps r.

Fixpoint Rep (n : nat) (r : regex) : regex :=
  match n with
  | O => Eps
  | S n' => Seq r (Rep n' r)
  end.

Fixpoint UpTo (n : nat) (r : regex) : regex :=
  match n with
  | O => Eps
  | S n' => Opt (Seq r (UpTo n' r))
  end.

Definition RepRange (lo hi : nat) (r : regex) : regex :=
  Seq (Rep lo r) (UpTo (hi - lo) r).

Definition Chr (x : ascii) : regex := Cls (is_char x).
(** a literal character under the ignore-case flag *)
Definition ChrI (x : ascii) : regex :=
  Cls (fun c => is_char (to_lower x) (to_lower c)).
Definition AnyChar : regex := Cls (fun _ => true).

Fixpoint Lit (s : string) : regex :=
  match s with
  | EmptyString => Eps
  | String c s' => Seq (Chr c) (Lit s')
  end.

Fixpoint LitI (s : string) : regex :=
  match s with
  | EmptyString => Eps
  | String c s' => Seq (ChrI c) (LitI s')
  end.

Definition hex_digit (c : ascii) : bool :=
  is_digit c || in_range "a" "f" c || in_range "A" "F" c.

(* ================================================================== *)
(** * Completions and traces *)

(** How a statement or call ends: normally with a value, or by throwing. *)
Inductive completion (E A : Type) : Type :=
| Normal (a : A)
| Throw (e : E).
Arguments Normal {E A} a.
Arguments Throw {E A} e.

Definition is_normal {E A} (c : completion E A) : bool :=
  match c with Normal _ => true | Throw _ => false end.

(** A run: the events it produced, in order, and how it ended. *)
Definition run (Ev E A : Type) : Type := (list Ev * completion E A)%type.

Definition ret {Ev E A} (a : A) : run Ev E A := ([], Normal a).
Definition throw {Ev E A} (e : E) : run Ev E A := ([], Throw e).
Definition emit {Ev E} (ev : Ev) : run Ev E unit := ([ev], Normal tt).
Definition lift {Ev E A} (c : completion E A) : run Ev E A := ([], c).

Definition bind {Ev E A B} (m : run Ev E A) (k : A -> run Ev E B) : run Ev E B :=
  match m with
  | (t, Normal a) => let '(t', r) := k a in (t +++ t', r)
  | (t, Throw e) => (t, Throw e)
  end.

(** [try m catch (e) h] *)
Definition try_catch {Ev E A} (m : run Ev E A) (h : E -> run Ev E A) : run Ev E A :=
  match m with
  | (t, Normal a) => (t, Normal a)
  | (t, Throw e) => let '(t', r) := h e in (t +++ t', r)
  end.

Definition trace_of {Ev E A} (m : run Ev E A) : list Ev := fst m.
Definition result_of {Ev E A} (m : run Ev E A) : completion E A := snd m.

Declare Scope run_scope.
Delimit Scope run_scope with run.
Notation "x <- m ;; k" := (bind m (fun x => k))
  (at level 61, m at next level, right associativity) : run_scope.
Notation "m ;; k" := (bind m (fun _ => k))
  (at level 61, right associativity) : run_scope.

(* ================================================================== *)
(** * JavaScript values *)

Module Js.

(** Numbers are IEEE 754 binary64.  Reading a number out of a string and
    printing one are the engine's; they are taken as given. *)
Class Runtime : Type := {
  StringToNumber : string -> float;
  NumberToString : float -> string
}.

Inductive value : Type :=
| Undefined : value
| Null : value
| Boolean (b : bool) : value
| Number (n : float) : value
| Str (s : string) : value
| Array (elements : list value) : value
| Object (properties : list (string * value)) : value
  (** an [Error] instance: its [name], its [message], its other properties *)
| Error (name message : string) (properties : list (string * value)) : value.

Definition isNaN (n : float) : bool := negb (PrimFloat.eqb n n).

(** [Number.isInteger]: finite with no fractional part. *)
Definition isInteger (n : float) : bool :=
  match Prim2SF n with
  | S754_zero _ => true
  | S754_finite _ m e => (0 <=? e) || (Z.pos m mod 2 ^ (- e) =? 0)
  | S754_infinity _ => false
  | S754_nan => false
  end.

Definition float_of_nat (n : nat) : float :=
  PrimFloat.of_uint63 (Uint63.of_Z (Z.of_nat n)).

Definition typeof (v : value) : string :=
  match v with
  | Undefined => "undefined"
  | Null => "object"
  | Boolean _ => "boolean"
  | Number _ => "number"
  | Str _ => "string"
  | Array _ | Object _ | Error _ _ _ => "object"
  end.

(** ToBoolean *)
Definition truthy (v : value) : bool :=
  match v with
  | Undefined | Null => false
  | Boolean b => b
  | Number n => negb (PrimFloat.eqb n 0%float || isNaN n)
  | Str s => negb (is_empty s)
  | Array _ | Object _ | Error _ _ _ => true
  end.

Definition is_undefined (v : value) : bool :=
  match v with Undefined => true | _ => false end.
Definition is_null (v : value) : bool :=
  match v with Null => true | _ => false end.
Definition is_string (v : value) : bool :=
  match v with Str _ => true | _ => false end.
Definition is_boolean (v : value) : bool :=
  match v with Boolean _ => true | _ => false end.
(** [Array.isArray] *)
Definition isArray (v : value) : bool :=
  match v with Array _ => true | _ => false end.

(** [v === 'lit'] *)
Definition strict_eq_str (v : value) (lit : string) : bool :=
  match v with Str s => String.eqb s lit | _ => false end.

(** SameValueZero, the comparison of [Array.prototype.includes].  Objects
    compare by identity; a caller's object is never one of the objects a rule
    set holds, so two objects are never the same here. *)
Definition sameValueZero (a b : value) : bool :=
  match a, b with
  | Undefined, Undefined => true
  | Null, Null => true
  | Boolean x, Boolean y => Bool.eqb x y
  | Number x, Number y => (isNaN x && isNaN y) || PrimFloat.eqb x y
  | Str x, Str y => String.eqb x y
  | _, _ => false
  end.

Definition includes (xs : list value) (v : value) : bool :=
  existsb (fun x => sameValueZero x v) xs.

(** The values that are no objects. *)
Definition is_primitive (v : value) : bool :=
  match v with
  | Array _ | Object _ | Error _ _ _ => false
  | _ => true
  end.

(** Whether [String(v)] and [Number(v)] return.  An object converts
    through the [toString] it inherits; an own property of that name hides
    the inherited one and, not being a function (no value of this
    development is one), makes the conversion throw a [TypeError].  An array
    converts when its elements do. *)
Fixpoint converts (v : value) : bool :=
  match v with
  | Array elements => forallb converts elements
  | Object properties | Error _ _ properties =>
      negb (existsb (fun property => String.eqb (fst property) "toString") properties)
  | _ => true
  end.

Section WithRuntime.
Context {rt : Runtime}.

(** ToString, of a value that [converts] *)
Fixpoint ToString (v : value) : string :=
  match v with
  | Undefined => "undefined"
  | Null => "null"
  | Boolean true => "true"
  | Boolean false => "false"
  | Number n => NumberToString n
  | Str s => s
  | Array elements =>
      join "," (map (fun e => match e with
                              | Undefined | Null => ""
                              | _ => ToString e
                              end) elements)
  | Object _ => "[object Object]"
  | Error name message _ =>
      if is_empty message then name
      else if is_empty name then message
      else name ++ ": " ++ message
  end.

(** [Number(v)] (ToNumber), of a value that [converts] *)
Definition ToNumber (v : value) : float :=
  match v with
  | Undefined => nan
  | Null => 0%float
  | Boolean true => 1%float
  | Boolean false => 0%float
  | Number n => n
  | Str s => StringToNumber s
  | Array _ | Object _ | Error _ _ _ => StringToNumber (ToString v)
  end.

End WithRuntime.

Fixpoint index_entries (i : nat) (xs : list value) : list (string * value) :=
  match xs with
  | [] => []
  | x :: rest => (string_of_nat i, x) :: index_entries (S i) rest
  end.

Fixpoint chars (s : string) : list value :=
  match s with
  | EmptyString => []
  | String c s' => Str (String c EmptyString) :: chars s'
  end.

(** The own enumerable string-keyed properties, in the order of
    [Object.keys] and [Object.entries].  The property list of an object is
    kept in that order. *)
Definition entries (v : value) : list (string * value) :=
  match v with
  | Object properties => properties
  | Array elements => index_entries 0 elements
  | Str s => index_entries 0 (chars s)
  | Error _ _ properties => properties
  | _ => []
  end.

Definition keys (v : value) : list string := map fst (entries v).

(** the [TypeError] of a property read on [undefined] or [null] *)
Definition cannot_read (v : value) (k : string) : value :=
  Error "TypeError"
    ("Cannot read properties of " ++ (if is_null v then "null" else "undefined")
       ++ " (reading '" ++ k ++ "')") [].

(** The names a plain object inherits from [Object.prototype]: those of the
    standard and those of its annex B, which Node has. *)
Definition inherited_from_Object (k : string) : bool :=
  existsb (String.eqb k)
    ["constructor"; "__defineGetter__"; "__defineSetter__"; "hasOwnProperty";
     "__lookupGetter__"; "__lookupSetter__"; "isPrototypeOf"; "propertyIsEnumerable";
     "toString"; "valueOf"; "__proto__"; "toLocaleString"].

(** [v[k]] for a name [k] that [v] does not inherit: the own properties.
    What a value inherits from the built-in prototypes (a function for
    [toString], say) is not a value of this development, so [get] stands for
    the reads of such names only; the names the sources read from their
    arguments ([api_key], [secure], [zip], [response], [data], [message])
    are of that kind. *)
Definition get (v : value) (k : string) : completion value value :=
  match v with
  | Undefined | Null => Throw (cannot_read v k)
  | _ =>
      match assoc k (entries v) with
      | Some x => Normal x
      | None =>
          match v with
          | Array elements =>
              if String.eqb k "length"
              then Normal (Number (float_of_nat (List.length elements)))
              else Normal Undefined
          | Str s =>
              if String.eqb k "length"
              then Normal (Number (float_of_nat (String.length s)))
              else Normal Undefined
          | Error _ message _ =>
              if String.eqb k "message" then Normal (Str message)
              else Normal Undefined
          | _ => Normal Undefined
          end
      end
  end.

(** [elements.join(sep)]: [undefined] and [null] print as nothing. *)
Definition Array_join {rt : Runtime} (sep : string) (elements : list value) : string :=
  join sep (map (fun e => match e with
                          | Undefined | Null => ""
                          | _ => ToString e
                          end) elements).

(** [new Error(message)] *)
Definition new_Error (message : string) : value := Error "Error" message [].

(** [encodeURIComponent]: every code unit except
    [A-Z a-z 0-9 - _ . ! ~ * ' ( )] is replaced by the percent-escapes of its
    UTF-8 bytes (one byte below 128, two bytes from 128 to 255).  On the
    strings of this development it always returns; the [URIError] it throws
    on a lone surrogate needs a code unit that they do not hold. *)
Definition uri_unescaped (c : ascii) : bool :=
  is_alnum c
  || existsb (fun x => is_char x c)
       ["-"; "_"; "."; "!"; "~"; "*"; "'"; "("; ")"]%char.

Definition hex_char (n : N) : ascii :=
  if (n <? 10)%N then ascii_of_N (48 + n) else ascii_of_N (55 + n).

Definition percent (byte : N) : string :=
  String "%" (String (hex_char (byte / 16)) (String (hex_char (byte mod 16)) EmptyString)).

Definition utf8_escapes (c : ascii) : string :=
  let n := code c in
  if (n <? 128)%N then percent n
  else percent (192 + n / 64) ++ percent (128 + n mod 64).

Fixpoint encode_string (s : string) : string :=
  match s with
  | EmptyString => EmptyString
  | String c s' =>
      (if uri_unescaped c then String c EmptyString else utf8_escapes c)
        ++ encode_string s'
  end.

Definition encodeURIComponent {rt : Runtime} (v : value) : string :=
  encode_string (ToString v).

End Js.

(* ================================================================== *)
(** * The npm binding: [src/npm/index.js] *)

Module Npm.
Import Js.

(** One entry of [this.validationRules].  An absent property is [None]; a
    [type] outside the five the validator knows selects no type check. *)
Record Rules : Type := {
  type : string;
  required : bool;
  min : option float;
  max : option float;
  minLength : option Z;
  maxLength : option Z;
  format : option string;
  enum : option (list value)
}.

(** The fields the constructor sets on [this]. *)
Record zipdemographicsWrapper : Type := {
  APIKey : string;
  IsSecure : bool;
  baseURL : string;
  validationRules : list (string * Rules)
}.

(** [/^[a-zA-Z0-9-]+$/] *)
Definition apiKeyPattern : regex :=
  Plus (Cls (fun c => is_alnum c || is_char "-" c)).

(** [\s], on code units below 256 *)
Definition js_space (c : ascii) : bool :=
  in_range "009" "013" c || is_char " " c || is_char "160" c.

(** [.]: anything but a line terminator *)
Definition js_dot (c : ascii) : bool :=
  negb (is_char "010" c || is_char "013" c).

Definition not_space_at (c : ascii) : bool :=
  negb (js_space c || is_char "@" c).

(** [(?:25[0-5]|2[0-4][0-9]|[01]?[0-9][0-9]?)] *)
Definition octet : regex :=
  Alt (Seq (Lit "25") (Cls (in_range "0" "5")))
   (Alt (Seq (Chr "2") (Seq (Cls (in_range "0" "4")) (Cls is_digit)))
        (Seq (Opt (Cls (in_range "0" "1"))) (Seq (Cls is_digit) (Opt (Cls is_digit))))).

(** The table [formatPatterns] of [validateParams]. *)
Definition formatPatterns : list (string * regex) :=
  [ (* /^[^\s@]+@[^\s@]+\.[^\s@]+$/ *)
    ("email", Seq (Plus (Cls not_space_at))
               (Seq (Chr "@")
                 (Seq (Plus (Cls not_space_at))
                   (Seq (Chr ".") (Plus (Cls not_space_at))))));
    (* /^https?:\/\/.+/i : no end anchor, so anything may follow *)
    ("url", Seq (LitI "http")
             (Seq (Opt (ChrI "s"))
               (Seq (Lit "://") (Seq (Plus (Cls js_dot)) (Star AnyChar)))));
    (* /^(?:octet\.){3}octet$|^([0-9a-fA-F]{1,4}:){7}[0-9a-fA-F]{1,4}$/ *)
    ("ip", Alt (Seq (Rep 3 (Seq octet (Chr "."))) octet)
               (Seq (Rep 7 (Seq (RepRange 1 4 (Cls hex_digit)) (Chr ":")))
                    (RepRange 1 4 (Cls hex_digit))));
    (* /^\d{4}-\d{2}-\d{2}$/ *)
    ("date", Seq (Rep 4 (Cls is_digit))
              (Seq (Chr "-")
                (Seq (Rep 2 (Cls is_digit))
                  (Seq (Chr "-") (Rep 2 (Cls is_digit))))));
    (* /^#?([0-9a-fA-F]{3}|[0-9a-fA-F]{6})$/ *)
    ("hexColor", Seq (Opt (Chr "#"))
                  (Alt (Rep 3 (Cls hex_digit)) (Rep 6 (Cls hex_digit)))) ].

Definition docs_url : string := "https://docs.apiverve.com/ref/zipdemographics".

(** [constructor(options)] *)
Definition constructor (options : value) : completion value zipdemographicsWrapper :=
  if negb (truthy options) || negb (String.eqb (typeof options) "object") then
    Throw (new_Error ("Options object must be provided. See documentation: " ++ docs_url))
  else
    (* const { api_key, secure = true } = options; *)
    let api_key := match get options "api_key" with Normal v => v | Throw _ => Undefined end in
    let secure := match get options "secure" with
                  | Normal Undefined => Boolean true
                  | Normal v => v
                  | Throw _ => Boolean true
                  end in
    match api_key with
    | Str key =>
        if is_empty key then
          Throw (new_Error "API key must be provided as a non-empty string. Get your API key at: https://apiverve.com")
        else if negb (matches apiKeyPattern key) then
          Throw (new_Error "Invalid API key format. API key must be alphanumeric and may contain hyphens. Get your API key at: https://apiverve.com")
        else
          let trimmedKey := remove_char "-" key in
          if str_len trimmedKey <? 32 then
            Throw (new_Error "Invalid API key. API key appears to be too short. Get your API key at: https://apiverve.com")
          else
            match secure with
            | Boolean b =>
                Normal {| APIKey := key;
                          IsSecure := b;
                          baseURL := "https://api.apiverve.com/v1/zipdemographics";
                          validationRules :=
                            [("zip", {| type := "string"; required := true;
                                        min := None; max := None;
                                        minLength := Some 5; maxLength := Some 5;
                                        format := None; enum := None |})] |}
            | _ => Throw (new_Error "Secure parameter must be a boolean value.")
            end
    | _ =>
        Throw (new_Error "API key must be provided as a non-empty string. Get your API key at: https://apiverve.com")
    end.

Section WithRuntime.
Context {rt : Runtime}.

(** What one iteration of the loop of [validateParams] pushes on [errors],
    for the rule [rules] of [paramName] and [value = query[paramName]], or
    what it throws.  A [continue] ends the iteration with what was pushed so
    far.  [Number(value)] is that of a value that converts ([Js.converts]),
    [rules.enum] holds primitives. *)
Definition check_param (paramName : string) (rules : Rules) (value : value)
    : completion Js.value (list string) :=
  (* Check required *)
  if required rules && (is_undefined value || is_null value || strict_eq_str value "") then
    Normal ["Required parameter [" ++ paramName ++ "] is missing."]
  (* Skip validation if value is not provided and not required *)
  else if is_undefined value || is_null value then
    Normal []
  else
    (* Type validation: the messages pushed, and whether it [continue]s *)
    let typed : completion Js.value (list string * bool) :=
      if String.eqb (type rules) "integer" || String.eqb (type rules) "number" then
        let numValue := ToNumber value in
        if isNaN numValue then
          Normal (["Parameter [" ++ paramName ++ "] must be a valid " ++ type rules ++ "."],
                  true)
        else if String.eqb (type rules) "integer" && negb (isInteger numValue) then
          Normal (["Parameter [" ++ paramName ++ "] must be an integer."], true)
        else
          (* Min/max validation for numbers *)
          Normal
            (match min rules with
             | Some m =>
                 push_if (PrimFloat.ltb numValue m)
                   ("Parameter [" ++ paramName ++ "] must be at least " ++ NumberToString m ++ ".")
             | None => []
             end +++
             match max rules with
             | Some m =>
                 push_if (PrimFloat.ltb m numValue)
                   ("Parameter [" ++ paramName ++ "] must be at most " ++ NumberToString m ++ ".")
             | None => []
             end, false)
      else if String.eqb (type rules) "string" then
        match value with
        | Str s =>
            (* Length validation for strings *)
            let lengths :=
              match minLength rules with
              | Some n =>
                  push_if (str_len s <? n)
                    ("Parameter [" ++ paramName ++ "] must be at least " ++ string_of_Z n ++ " characters.")
              | None => []
              end +++
              match maxLength rules with
              | Some n =>
                  push_if (n <? str_len s)
                    ("Parameter [" ++ paramName ++ "] must be at most " ++ string_of_Z n ++ " characters.")
              | None => []
              end in
            (* Format validation *)
            match format rules with
            | Some f =>
                if is_empty f then Normal (lengths, false)
                else match assoc f formatPatterns with
                     | Some pattern =>
                         Normal
                           (lengths +++
                            push_if (negb (matches pattern s))
                              ("Parameter [" ++ paramName ++ "] must be a valid " ++ f ++ "."),
                            false)
                     | None =>
                         (* formatPatterns[rules.format] finds what the object
                            literal inherits too: a function, or Object.prototype
                            itself; neither has a [test] *)
                         if inherited_from_Object f then
                           Throw (Error "TypeError"
                                    "formatPatterns[rules.format].test is not a function" [])
                         else Normal (lengths, false)
                     end
            | None => Normal (lengths, false)
            end
        | _ => Normal (["Parameter [" ++ paramName ++ "] must be a string."], true)
        end
      else if String.eqb (type rules) "boolean" then
        Normal
          (push_if (negb (is_boolean value) && negb (strict_eq_str value "true")
                    && negb (strict_eq_str value "false"))
             ("Parameter [" ++ paramName ++ "] must be a boolean."), false)
      else if String.eqb (type rules) "array" then
        Normal
          (push_if (negb (isArray value))
             ("Parameter [" ++ paramName ++ "] must be an array."), false)
      else Normal ([], false) in
    match typed with
    | Throw e => Throw e
    | Normal (pushed, continues) =>
        if continues then Normal pushed
        else
          (* Enum validation *)
          Normal
            (pushed +++
             match enum rules with
             | Some allowed =>
                 push_if (negb (includes allowed value))
                   ("Parameter [" ++ paramName ++ "] must be one of: "
                      ++ Array_join ", " allowed ++ ".")
             | None => []
             end)
    end.

(** The [for ... of Object.entries(this.validationRules)] loop: [errors]
    after the remaining [rules], or what is thrown on the way: the
    [TypeError] of reading a property of a [query] that is [null] or
    [undefined], or that of a rule's check. *)
Fixpoint validate_loop (rules : list (string * Rules)) (query : value)
    (errors : list string) : completion value (list string) :=
  match rules with
  | [] => Normal errors
  | (paramName, r) :: rest =>
      match get query paramName with
      | Throw e => Throw e
      | Normal v =>
          match check_param paramName r v with
          | Throw e => Throw e
          | Normal pushed => validate_loop rest query (errors +++ pushed)
          end
      end
  end.

(** [validateParams(query)] *)
Definition validateParams (this : zipdemographicsWrapper) (query : value)
    : completion value unit :=
  match validate_loop (validationRules this) query [] with
  | Throw e => Throw e
  | Normal errors =>
      if (0 <? List.length errors)%nat then
        Throw (new_Error ("Validation failed: " ++ join " " errors
                            ++ " See documentation: " ++ docs_url))
      else Normal tt
  end.

(** [constructURL(query)], for a [query] whose values convert to strings
    ([Js.converts]); for another one [encodeURIComponent(query[key])]
    throws. *)
Definition constructURL (this : zipdemographicsWrapper) (query : value) : string :=
  let url := baseURL this in
  if truthy query && String.eqb (typeof query) "object" then
    if (0 <? List.length (keys query))%nat then
      let queryString :=
        join "&"
          (map (fun key =>
                  encode_string key ++ "=" ++
                  encodeURIComponent
                    (match get query key with Normal v => v | Throw _ => Undefined end))
               (keys query)) in
      url ++ "?" ++ queryString
    else url
  else url.

End WithRuntime.

(** ** Calling the service *)

(** The argument of [axios(...)]. *)
Record AxiosConfig : Type := {
  method : string;
  url : string;
  headers : list (string * string);
  data : value
}.

(** How the promise of [axios(...)] settles. *)
Inductive settled : Type :=
| Fulfilled (response : value)
| Rejected (reason : value).

(** A JavaScript function of two arguments, as [execute] uses its callback:
    what a call does is to return or to throw. *)
Record function : Type := { apply : value -> value -> completion value value }.

(** An argument of [execute]: a plain value or a function. *)
Inductive arg : Type :=
| Val (v : value)
| Fun (f : function).

Definition arg_truthy (a : arg) : bool :=
  match a with Val v => truthy v | Fun _ => true end.

Inductive event : Type :=
| Requested (config : AxiosConfig)
| Called (error data : value).

Definition is_request (e : event) : bool :=
  match e with Requested _ => true | Called _ _ => false end.

Local Open Scope run_scope.

(** [await axios(config)] *)
Definition await_axios (axios : AxiosConfig -> settled) (config : AxiosConfig)
    : run event value value :=
  emit (Requested config) ;;
  match axios config with
  | Fulfilled response => ret response
  | Rejected reason => throw reason
  end.

(** [callback(a, b)] *)
Definition call (callback : arg) (a b : value) : run event value unit :=
  match callback with
  | Fun f => emit (Called a b) ;; _ <- lift (apply f a b) ;; ret tt
  | Val _ => throw (Error "TypeError" "callback is not a function" [])
  end.

(** The head of [execute]: the argument patterns. *)
Definition arguments (args : list arg) : completion value (value * arg) :=
  match args with
  | [] => Normal (Object [], Val Null)
  | [Fun f] => Normal (Object [], Fun f)
  | [Val query] => Normal (query, Val Null)
  | query :: callback :: _ =>
      match query with
      | Val q =>
          if negb (truthy q) || negb (String.eqb (typeof q) "object")
          then Throw (new_Error "Query parameters must be provided as an object.")
          else Normal (q, callback)
      | Fun _ => Throw (new_Error "Query parameters must be provided as an object.")
      end
  end.

(** The [catch (error)] block of [execute], up to [apiError]. *)
Definition api_error (error : value) : completion value value :=
  match get error "response" with
  | Throw e => Throw e
  | Normal response =>
      let has_data :=
        if truthy response
        then match get response "data" with Normal d => d | Throw _ => Undefined end
        else response in
      if truthy has_data then Normal has_data
      else
        match get error "message" with
        | Throw e => Throw e
        | Normal message =>
            if truthy message
            then Normal (Object [("error", message); ("status", Str "error")])
            else Normal (Object [("error", Str "An unknown error occurred");
                                 ("status", Str "error")])
        end
  end.

(** [async execute(query, callback)], called with the arguments [args];
    [Normal v] is a promise fulfilled with [v], [Throw e] one rejected with
    [e]. *)
Definition execute {rt : Runtime} (this : zipdemographicsWrapper)
    (axios : AxiosConfig -> settled) (args : list arg) : run event value value :=
  qc <- lift (arguments args) ;;
  let '(query, callback) := qc in
  (* Validate parameters against schema rules *)
  _ <- lift (validateParams this query) ;;
  let method := "GET" in
  let url := if String.eqb method "POST" then baseURL this else constructURL this query in
  try_catch
    (response <- await_axios axios
                   {| method := method;
                      url := url;
                      headers := [("Content-Type", "application/json");
                                  ("x-api-key", APIKey this);
                                  ("auth-mode", "npm-package")];
                      data := if String.eqb method "POST" then query else Undefined |} ;;
     data <- lift (get response "data") ;;
     (if arg_truthy callback then call callback Null data else ret tt) ;;
     ret data)
    (fun error =>
       apiError <- lift (api_error error) ;;
       if arg_truthy callback then
         call callback apiError Null ;;
         ret Undefined (* Don't throw if callback is provided *)
       else throw apiError).

(** ** axios, as the binding uses it

    [execute] passes no [validateStatus], so axios applies its default:
    a response with a status from 200 to 299 fulfils the promise, any other
    response rejects it with an error that carries the response, and no
    response at all rejects it with an error that carries none. *)
Inductive exchange : Type :=
| Responded (status : Z) (body : value)
| NoResponse (message : string).

Definition axios_settle (x : exchange) : settled :=
  match x with
  | Responded status body =>
      let response := Object [("status", Number (PrimFloat.of_uint63 (Uint63.of_Z status)));
                              ("data", body)] in
      if (200 <=? status) && (status <? 300) then Fulfilled response
      else Rejected (Error "AxiosError"
                       ("Request failed with status code " ++ string_of_Z status)
                       [("response", response)])
  | NoResponse message => Rejected (Error "AxiosError" message [])
  end.

End Npm.

(* ================================================================== *)
(** * The NuGet binding: [src/nuget/ZIPDemographicsAPIClient.cs] *)

Module Nuget.

(** ** Exceptions *)

Inductive Exception : Type :=
| ArgumentException (Message : string)
| ArgumentOutOfRangeException (Message : string)
| ValidationException (Errors : list string)
| HttpRequestException (Message : string)
| OperationCanceledException (Message : string)
  (** a subclass of [OperationCanceledException] *)
| TaskCanceledException (Message : string)
  (** [Response] is the body of [e.Response], when there is one *)
| WebException (Message : string) (Response : option string)
| JsonException (Message : string)
| PlainException (Message : string).

(** [ex.Message] *)
Definition Message (ex : Exception) : string :=
  match ex with
  | ValidationException errors => "Validation failed: " ++ join "; " errors
  | ArgumentException m | ArgumentOutOfRangeException m | HttpRequestException m
  | OperationCanceledException m | TaskCanceledException m | WebException m _
  | JsonException m | PlainException m => m
  end.

(** [ex is OperationCanceledException], what [catch (OperationCanceledException)]
    catches *)
Definition is_OperationCanceledException (ex : Exception) : bool :=
  match ex with
  | OperationCanceledException _ | TaskCanceledException _ => true
  | _ => false
  end.

Definition is_HttpRequestException (ex : Exception) : bool :=
  match ex with HttpRequestException _ => true | _ => false end.
Definition is_TaskCanceledException (ex : Exception) : bool :=
  match ex with TaskCanceledException _ => true | _ => false end.
Definition is_WebException (ex : Exception) : bool :=
  match ex with WebException _ _ => true | _ => false end.

(** ** Data *)

(** [ValidationRule] *)
Record ValidationRule : Type := {
  Type_ : string;
  Required : bool;
  Min : option float;
  Max : option float;
  MinLength : option Z;
  MaxLength : option Z;
  Format : option string;
  EnumValues : option (list string)
}.

(** A boxed property value, as reflection returns it ([null] is [None]). *)
Inductive object : Type :=
| OString (s : string)
| OInt (i : Z)
| OLong (l : Z)
| ODouble (d : float)
| OFloat (f : float)
| OBool (b : bool)
  (** any other object, with what its [ToString()] returns *)
| OOther (toString : string).

(** A public property of an options object: its name, the name of its
    [JsonProperty] attribute if it has one, and its value. *)
Record Property : Type := {
  Name : string;
  JsonPropertyName : option string;
  Value : option object
}.

(** An options object, seen through reflection. *)
Definition QueryOptions : Type := list Property.

(** [class ZIPDemographicsQueryOptions { [JsonProperty("zip")] public string Zip }] *)
Definition ZIPDemographicsQueryOptions (Zip : option string) : QueryOptions :=
  [ {| Name := "Zip"; JsonPropertyName := Some "zip";
       Value := option_map OString Zip |} ].

(** Modelled from the spec: the class [ResponseObj] is not among the sources;
    it is the envelope of the spec, [status], [error] and an opaque [data]
    (here the text of its JSON). *)
Record ResponseObj : Type := {
  Status : option string;
  Error : option string;
  Data : option string
}.

(** What the platform decides: parsing and printing of doubles (they depend
    on the culture), and Newtonsoft's [JsonConvert]. *)
Class Runtime : Type := {
  double_TryParse : string -> option float;
  double_ToString : float -> string;
  DeserializeObject : string -> completion Exception (option ResponseObj);
  SerializeObject : QueryOptions -> string
}.

(** The fields of [ZIPDemographicsAPIClient]; [_logger] is the logger that
    was set, if any: an [Action<string>] that records the message under its
    number and returns. *)
Record Client : Type := {
  _apiKey : string;
  _isSecure : bool;
  _isDebug : bool;
  _maxRetries : Z;
  _retryDelayMs : Z;
  _logger : option nat;
  _customHeaders : list (string * string)
}.

Definition _apiEndpoint : string := "https://api.apiverve.com/v1/zipdemographics".
Definition _method : string := "GET".

Definition _validationRules : list (string * ValidationRule) :=
  [ ("zip", {| Type_ := "string"; Required := true; Min := None; Max := None;
               MinLength := Some 5; MaxLength := Some 5;
               Format := None; EnumValues := None |}) ].

(** ** Regular expressions of .NET *)

Definition newline : ascii := "010".

(** [$] without [RegexOptions.Multiline]: the end, or before a final newline *)
Definition Dollar (r : regex) : regex := Seq r (Opt (Chr newline)).

(** [\s] and [char.IsWhiteSpace], on code units below 256 *)
Definition is_white_space (c : ascii) : bool :=
  in_range "009" "013" c || is_char " " c || is_char "133" c || is_char "160" c.

Definition not_space_at (c : ascii) : bool :=
  negb (is_white_space c || is_char "@" c).

(** [.]: anything but a newline *)
Definition dot (c : ascii) : bool := negb (is_char newline c).

Definition octet : regex :=
  Alt (Seq (Lit "25") (Cls (in_range "0" "5")))
   (Alt (Seq (Chr "2") (Seq (Cls (in_range "0" "4")) (Cls is_digit)))
        (Seq (Opt (Cls (in_range "0" "1"))) (Seq (Cls is_digit) (Opt (Cls is_digit))))).

(** [_formatPatterns]; [IsMatch] searches, and every pattern starts with [^].
    The classes [\d] and [\s] are those of the code units below 256: the
    patterns are compiled without [RegexOptions.ECMAScript], so on other
    strings [\d] also matches the decimal digits of every script. *)
Definition _formatPatterns : list (string * regex) :=
  [ ("email", Dollar (Seq (Plus (Cls not_space_at))
                       (Seq (Chr "@")
                         (Seq (Plus (Cls not_space_at))
                           (Seq (Chr ".") (Plus (Cls not_space_at)))))));
    ("url", Seq (LitI "http")
             (Seq (Opt (ChrI "s"))
               (Seq (Lit "://") (Seq (Plus (Cls dot)) (Star AnyChar)))));
    ("ip", Alt (Dollar (Seq (Rep 3 (Seq octet (Chr "."))) octet))
               (Dollar (Seq (Rep 7 (Seq (RepRange 1 4 (Cls hex_digit)) (Chr ":")))
                            (RepRange 1 4 (Cls hex_digit)))));
    ("date", Dollar (Seq (Rep 4 (Cls is_digit))
                      (Seq (Chr "-")
                        (Seq (Rep 2 (Cls is_digit))
                          (Seq (Chr "-") (Rep 2 (Cls is_digit)))))));
    ("hexColor", Dollar (Seq (Opt (Chr "#"))
                          (Alt (Rep 3 (Cls hex_digit)) (Rep 6 (Cls hex_digit))))) ].

(** [@"^[a-zA-Z0-9_-]+$"] *)
Definition apiKeyPattern : regex :=
  Dollar (Plus (Cls (fun c => is_alnum c || is_char "_" c || is_char "-" c))).

(** ** Construction and configuration *)

(** [ValidateApiKey(apiKey)]; [apiKey.Trim()] is empty when every character
    is white space. *)
Definition ValidateApiKey (apiKey : option string) : completion Exception unit :=
  match apiKey with
  | None => Throw (ArgumentException "API key is required. Get your API key at: https://apiverve.com")
  | Some key =>
      if is_empty key || str_forall is_white_space key then
        Throw (ArgumentException "API key is required. Get your API key at: https://apiverve.com")
      else if negb (matches apiKeyPattern key) then
        Throw (ArgumentException "Invalid API key format. API key must be alphanumeric and may contain hyphens and underscores. Get your API key at: https://apiverve.com")
      else Normal tt
  end.

(** [new ZIPDemographicsAPIClient(apiKey, isSecure, isDebug)] *)
Definition new_Client (apiKey : option string) (isSecure isDebug : bool)
    : completion Exception Client :=
  match ValidateApiKey apiKey, apiKey with
  | Throw ex, _ => Throw ex
  | Normal _, None => Throw (ArgumentException "API key is required. Get your API key at: https://apiverve.com")
  | Normal _, Some key =>
      Normal {| _apiKey := key; _isSecure := isSecure; _isDebug := isDebug;
                _maxRetries := 0; _retryDelayMs := 1000;
                _logger := None; _customHeaders := [] |}
  end.

Definition SetMaxRetries (c : Client) (maxRetries : Z) : Client :=
  {| _apiKey := _apiKey c; _isSecure := _isSecure c; _isDebug := _isDebug c;
     _maxRetries := Z.max 0 (Z.min 3 maxRetries);
     _retryDelayMs := _retryDelayMs c; _logger := _logger c;
     _customHeaders := _customHeaders c |}.

Definition SetRetryDelay (c : Client) (retryDelayMs : Z) : Client :=
  {| _apiKey := _apiKey c; _isSecure := _isSecure c; _isDebug := _isDebug c;
     _maxRetries := _maxRetries c;
     _retryDelayMs := Z.max 0 retryDelayMs; _logger := _logger c;
     _customHeaders := _customHeaders c |}.

Definition SetLogger (c : Client) (logger : option nat) : Client :=
  {| _apiKey := _apiKey c; _isSecure := _isSecure c; _isDebug := _isDebug c;
     _maxRetries := _maxRetries c;
     _retryDelayMs := _retryDelayMs c; _logger := logger;
     _customHeaders := _customHeaders c |}.

(** What the frameworks word differently: the message of an
    [ArgumentException] that names its parameter, and that of an
    [ArgumentNullException]. *)
Class Framework : Type := {
  with_paramName : string -> string -> string;
  value_cannot_be_null : string -> string
}.

(** [SetApiKey(apiKey)] *)
Definition SetApiKey (c : Client) (apiKey : option string) : completion Exception Client :=
  match ValidateApiKey apiKey, apiKey with
  | Throw ex, _ => Throw ex
  | Normal _, None => Throw (ArgumentException "API key is required. Get your API key at: https://apiverve.com")
  | Normal _, Some key =>
      Normal {| _apiKey := key; _isSecure := _isSecure c; _isDebug := _isDebug c;
                _maxRetries := _maxRetries c; _retryDelayMs := _retryDelayMs c;
                _logger := _logger c; _customHeaders := _customHeaders c |}
  end.

Definition SetIsSecure (c : Client) (isSecure : bool) : Client :=
  {| _apiKey := _apiKey c; _isSecure := isSecure; _isDebug := _isDebug c;
     _maxRetries := _maxRetries c; _retryDelayMs := _retryDelayMs c;
     _logger := _logger c; _customHeaders := _customHeaders c |}.

Definition SetIsDebug (c : Client) (isDebug : bool) : Client :=
  {| _apiKey := _apiKey c; _isSecure := _isSecure c; _isDebug := isDebug;
     _maxRetries := _maxRetries c; _retryDelayMs := _retryDelayMs c;
     _logger := _logger c; _customHeaders := _customHeaders c |}.

(** [dictionary[key] = value]: the value of [key] is replaced where it is,
    a new key is added.  (The order in which a [Dictionary] enumerates is
    not specified; the list keeps the order of insertion.) *)
Fixpoint set_Item (dictionary : list (string * string)) (key value : string)
    : list (string * string) :=
  match dictionary with
  | [] => [(key, value)]
  | (k, v) :: rest =>
      if String.eqb k key then (k, value) :: rest
      else (k, v) :: set_Item rest key value
  end.

(** [dictionary.Remove(key)] *)
Definition Remove (dictionary : list (string * string)) (key : string)
    : list (string * string) :=
  filter (fun entry => negb (String.eqb (fst entry) key)) dictionary.

(** [AddCustomHeader(key, value)], for a [value] that is not [null] *)
Definition AddCustomHeader {fw : Framework} (c : Client) (key : option string)
    (value : string) : completion Exception Client :=
  match key with
  | None => Throw (ArgumentException (with_paramName "Header key cannot be empty" "key"))
  | Some k =>
      if is_empty k || str_forall is_white_space k then
        Throw (ArgumentException (with_paramName "Header key cannot be empty" "key"))
      else
        Normal {| _apiKey := _apiKey c; _isSecure := _isSecure c; _isDebug := _isDebug c;
                  _maxRetries := _maxRetries c; _retryDelayMs := _retryDelayMs c;
                  _logger := _logger c;
                  _customHeaders := set_Item (_customHeaders c) k value |}
  end.

(** [RemoveCustomHeader(key)], for a [key] that is not [null] *)
Definition RemoveCustomHeader (c : Client) (key : string) : Client :=
  {| _apiKey := _apiKey c; _isSecure := _isSecure c; _isDebug := _isDebug c;
     _maxRetries := _maxRetries c; _retryDelayMs := _retryDelayMs c;
     _logger := _logger c; _customHeaders := Remove (_customHeaders c) key |}.

(** [ClearCustomHeaders()] *)
Definition ClearCustomHeaders (c : Client) : Client :=
  {| _apiKey := _apiKey c; _isSecure := _isSecure c; _isDebug := _isDebug c;
     _maxRetries := _maxRetries c; _retryDelayMs := _retryDelayMs c;
     _logger := _logger c; _customHeaders := [] |}.

(** ** Validation *)

Definition to_upper (c : ascii) : ascii :=
  if is_lower c then ascii_of_N (code c - 32) else c.

(** an integer as a double, rounded to nearest *)
Definition float_of_Z (z : Z) : float :=
  SF2Prim (binary_normalize prec emax z 0 false).

(** [optionsType.GetProperty(name)] *)
Definition GetProperty (options : QueryOptions) (name : string) : option Property :=
  find (fun p => String.eqb (Name p) name) options.

(** The value [ValidateParams] finds for [paramName]: that of the property
    of that name, or else of the name with its first letter in upper case. *)
Definition property_value (options : option QueryOptions) (paramName : string)
    : completion Exception (option object) :=
  match options with
  | None => Normal None
  | Some o =>
      match GetProperty o paramName with
      | Some prop => Normal (Value prop)
      | None =>
          match paramName with
          | EmptyString =>
              (* paramName.Substring(0, 1) *)
              Throw (ArgumentOutOfRangeException
                       "Index and length must refer to a location within the string.")
          | String c rest =>
              match GetProperty o (String (to_upper c) rest) with
              | Some prop => Normal (Value prop)
              | None => Normal None
              end
          end
      end
  end.

Section WithRuntime.
Context {rt : Runtime}.

(** [value.ToString()] *)
Definition ToString (value : object) : string :=
  match value with
  | OString s => s
  | OInt i => string_of_Z i
  | OLong l => string_of_Z l
  | ODouble d => double_ToString d
  | OFloat f => double_ToString f
  | OBool true => "True"
  | OBool false => "False"
  | OOther toString => toString
  end.

(** What one iteration of the [foreach] of [ValidateParams] adds to
    [errors], for the rule [rule] of [paramName] and the value found. *)
Definition check_param (paramName : string) (rule : ValidationRule)
    (value : option object) : list string :=
  match value with
  | None =>
      (* Check required; then: if (value == null) continue; *)
      if Required rule then ["Required parameter [" ++ paramName ++ "] is missing"]
      else []
  | Some v =>
      if Required rule && match v with OString s => is_empty s | _ => false end then
        ["Required parameter [" ++ paramName ++ "] is missing"]
      else
        (* Type-specific validation: what is added, and whether it [continue]s *)
        let '(added, continues) :=
          if String.eqb (Type_ rule) "integer" || String.eqb (Type_ rule) "number" then
            let parsed :=
              match v with
              | ODouble d => Some d
              | OInt i => Some (float_of_Z i)
              | OLong l => Some (float_of_Z l)
              | OFloat f => Some f
              | _ => double_TryParse (ToString v)
              end in
            match parsed with
            | None =>
                (["Parameter [" ++ paramName ++ "] must be a valid " ++ Type_ rule], true)
            | Some numValue =>
                (match Min rule with
                 | Some m =>
                     push_if (PrimFloat.ltb numValue m)
                       ("Parameter [" ++ paramName ++ "] must be at least " ++ double_ToString m)
                 | None => []
                 end +++
                 match Max rule with
                 | Some m =>
                     push_if (PrimFloat.ltb m numValue)
                       ("Parameter [" ++ paramName ++ "] must be at most " ++ double_ToString m)
                 | None => []
                 end, false)
            end
          else
            match String.eqb (Type_ rule) "string", v with
            | true, OString strValue =>
                (match MinLength rule with
                 | Some n =>
                     push_if (str_len strValue <? n)
                       ("Parameter [" ++ paramName ++ "] must be at least "
                          ++ string_of_Z n ++ " characters")
                 | None => []
                 end +++
                 match MaxLength rule with
                 | Some n =>
                     push_if (n <? str_len strValue)
                       ("Parameter [" ++ paramName ++ "] must be at most "
                          ++ string_of_Z n ++ " characters")
                 | None => []
                 end +++
                 match Format rule with
                 | Some f =>
                     if is_empty f then []
                     else match assoc f _formatPatterns with
                          | Some pattern =>
                              push_if (negb (matches pattern strValue))
                                ("Parameter [" ++ paramName ++ "] must be a valid " ++ f)
                          | None => []
                          end
                 | None => []
                 end, false)
            | _, _ => ([], false)
            end in
        if continues then added
        else
          (* Enum validation *)
          added +++
          match EnumValues rule with
          | Some allowed =>
              if (0 <? List.length allowed)%nat then
                let valueStr := ToString v in
                let found := existsb (fun enumVal => String.eqb enumVal valueStr) allowed in
                push_if (negb found)
                  ("Parameter [" ++ paramName ++ "] must be one of: " ++ join ", " allowed)
              else []
          | None => []
          end
  end.

Fixpoint validate_loop (rules : list (string * ValidationRule))
    (options : option QueryOptions) (errors : list string)
    : completion Exception (list string) :=
  match rules with
  | [] => Normal errors
  | (paramName, rule) :: rest =>
      match property_value options paramName with
      | Throw ex => Throw ex
      | Normal value =>
          validate_loop rest options (errors +++ check_param paramName rule value)
      end
  end.

(** The body of [ValidateParams(options)], for a rule table [rules]. *)
Definition ValidateParamsWith (rules : list (string * ValidationRule))
    (options : option QueryOptions) : completion Exception unit :=
  if (List.length rules =? 0)%nat then Normal tt
  else
    match validate_loop rules options [] with
    | Throw ex => Throw ex
    | Normal errors =>
        if (0 <? List.length errors)%nat then Throw (ValidationException errors)
        else Normal tt
    end.

(** [ValidateParams(options)] *)
Definition ValidateParams (options : option QueryOptions) : completion Exception unit :=
  ValidateParamsWith _validationRules options.

(** ** Requests *)

(** [Uri.EscapeDataString]: everything but the unreserved characters
    [A-Z a-z 0-9 - _ . ~] becomes the percent-escapes of its UTF-8 bytes.
    (The frameworks before .NET 4.5 leave [! * ' ( )] as they are, too.)
    On the strings of this development it returns, up to the length the
    framework accepts (32766 characters on the .NET Framework); what it does
    with a lone surrogate needs a code unit that they do not hold. *)
Definition unreserved (c : ascii) : bool :=
  is_alnum c || existsb (fun x => is_char x c) ["-"; "_"; "."; "~"]%char.

Fixpoint EscapeDataString (s : string) : string :=
  match s with
  | EmptyString => EmptyString
  | String c s' =>
      (if unreserved c then String c EmptyString else Js.utf8_escapes c)
        ++ EscapeDataString s'
  end.

(** [ConstructURL(options)] *)
Definition ConstructURL (options : option QueryOptions) : string :=
  let url := _apiEndpoint in
  match options with
  | Some o =>
      if String.eqb _method "GET" then
        let queryParams :=
          flat_map
            (fun prop =>
               match Value prop with
               | Some value =>
                   let paramName :=
                     match JsonPropertyName prop with
                     | Some name => if is_empty name then Name prop else name
                     | None => Name prop
                     end in
                   [paramName ++ "=" ++ EscapeDataString (ToString value)]
               | None => []
               end) o in
        if (0 <? List.length queryParams)%nat
        then url ++ "?" ++ join "&" queryParams
        else url
      else url
  | None => url
  end.

Record HttpRequestMessage : Type := {
  Method : string;
  RequestUri : string;
  Headers : list (string * string);
  Content : option string
}.

(** What happens to a request that is sent: a response is received, with
    its status code and body, or the transport throws. *)
Inductive exchange : Type :=
| Responds (StatusCode : Z) (Body : string)
| Fails (ex : Exception).

(** The world around a call: the fate of the request of each attempt, and
    whether the cancellation token fires during the delay before it. *)
Record Network : Type := {
  send : Z -> HttpRequestMessage -> exchange;
  cancelled_in_delay : Z -> bool
}.

Inductive event : Type :=
| Logged (logger : nat) (message : string)
| ConsoleWriteLine (message : string)
| Delayed (milliseconds : Z)
| Sent (request : HttpRequestMessage).

Definition is_sent (e : event) : bool :=
  match e with Sent _ => true | _ => false end.
Definition is_delayed (e : event) : bool :=
  match e with Delayed _ => true | _ => false end.

Local Open Scope run_scope.

(** [Log(message)], in the [HttpClient] variant, for a logger that returns:
    [_logger] is code of the caller, and a logger that throws ends the call
    where it is called.  Such a logger is outside the development. *)
Definition Log (c : Client) (message : string) : run event Exception unit :=
  match _logger c with
  | Some logger => emit (Logged logger message)
  | None => if _isDebug c then emit (ConsoleWriteLine message) else ret tt
  end.

(** The headers a request leaves with: the default ones of the constructor,
    then the custom ones. *)
Definition request_headers (c : Client) : list (string * string) :=
  [("x-api-key", _apiKey c); ("auth-mode", "nuget"); ("Accept", "application/json")]
    +++ _customHeaders c.

(** [await _httpClient.SendAsync(request, cancellationToken)] followed by
    [await response.Content.ReadAsStringAsync()] *)
Definition SendAsync (net : Network) (attempt : Z) (request : HttpRequestMessage)
    : run event Exception string :=
  emit (Sent request) ;;
  match send net attempt request with
  | Responds _ body => ret body
  | Fails ex => throw ex
  end.

(** [ExecuteRequestAsync(options, cancellationToken)]; [attempt] only tells
    the network which request this is. *)
Definition ExecuteRequestAsync (c : Client) (net : Network) (attempt : Z)
    (options : option QueryOptions) : run event Exception (option ResponseObj) :=
  try_catch
    (Log c "Executing API request..." ;;
     let url := ConstructURL options in
     Log c ("URL: " ++ url) ;;
     responseString <-
       (if String.eqb _method "POST" then
          match options with
          | None => throw (ArgumentException "Options are required for this API call")
          | Some o =>
              let body := SerializeObject o in
              Log c ("Request body: " ++ body) ;;
              SendAsync net attempt
                {| Method := "POST"; RequestUri := url;
                   Headers := request_headers c; Content := Some body |}
          end
        else (* GET *)
          SendAsync net attempt
            {| Method := "GET"; RequestUri := url;
               Headers := request_headers c; Content := None |}) ;;
     Log c ("Response: " ++ responseString) ;;
     if is_empty responseString then
       throw (HttpRequestException "No response from the server")
     else
       lift (DeserializeObject responseString))
    (fun ex => Log c ("Error: " ++ Message ex) ;; throw ex).

(** [IsTransientError(ex)] *)
Definition IsTransientError (ex : Exception) : bool :=
  if is_HttpRequestException ex then
    (* Network errors are typically transient *)
    true
  else if is_TaskCanceledException ex then
    (* Timeout errors are transient *)
    true
  else false.

(** [await Task.Delay(milliseconds, cancellationToken)], for a delay that is
    not negative (the constructor and [SetRetryDelay] allow no other). *)
Definition Task_Delay (milliseconds : Z) (cancelled : bool) : run event Exception unit :=
  emit (Delayed milliseconds) ;;
  if cancelled then throw (TaskCanceledException "A task was canceled.") else ret tt.

(** The [while (attempt <= _maxRetries)] loop of [ExecuteAsync] and what
    follows it, from the state ([attempt], [lastException]).  [fuel] bounds
    the number of iterations; [None] means it did not suffice. *)
Fixpoint ExecuteAsync_loop (c : Client) (net : Network) (options : option QueryOptions)
    (fuel : nat) (attempt : Z) (lastException : option Exception)
    : option (run event Exception (option ResponseObj)) :=
  if attempt <=? _maxRetries c then
    match fuel with
    | O => None
    | S fuel' =>
        let tried :=
          (if 0 <? attempt then
             Log c ("Retry attempt " ++ string_of_Z attempt ++ " of "
                      ++ string_of_Z (_maxRetries c) ++ "...") ;;
             Task_Delay (_retryDelayMs c) (cancelled_in_delay net attempt)
           else ret tt) ;;
          ExecuteRequestAsync c net attempt options in
        match tried with
        | (t, Normal response) => Some (t, Normal response)
        | (t, Throw ex) =>
            if is_OperationCanceledException ex then
              (* Don't retry on cancellation *)
              Some (t, Throw ex)
            else
              let attempt := attempt + 1 in
              if _maxRetries c <? attempt then
                Some ((t, Normal tt) ;;
                      Log c ("Request failed after " ++ string_of_Z (_maxRetries c)
                               ++ " retries: " ++ Message ex) ;;
                      throw ex)
              else if negb (IsTransientError ex) then
                (* Only retry on transient errors *)
                Some ((t, Normal tt) ;;
                      Log c ("Non-transient error encountered, not retrying: "
                               ++ Message ex) ;;
                      throw ex)
              else
                option_map (fun rest => (t, Normal tt) ;; rest)
                  (ExecuteAsync_loop c net options fuel' attempt (Some ex))
        end
    end
  else
    (* If we got here, all retries failed *)
    Some (throw (match lastException with
                 | Some ex => ex
                 | None => HttpRequestException "Request failed"
                 end)).

(** [ExecuteAsync(options, cancellationToken)] *)
Definition ExecuteAsync (c : Client) (net : Network) (options : option QueryOptions)
    : option (run event Exception (option ResponseObj)) :=
  ExecuteAsync_loop c net options (Z.to_nat (_maxRetries c + 1)) 0 None.

(** [Execute(options)], in the [HttpClient] variant *)
Definition Execute (c : Client) (net : Network) (options : option QueryOptions)
    : option (run event Exception (option ResponseObj)) :=
  (* Validate parameters before making request *)
  match ValidateParams options with
  | Throw ex => Some (throw ex)
  | Normal _ => ExecuteAsync c net options
  end.

(** ** The legacy variant ([NET20], [NET35], [NET40]) *)

(** [Log(message)] without a logger *)
Definition Log_legacy (c : Client) (message : string) : run event Exception unit :=
  if _isDebug c then emit (ConsoleWriteLine message) else ret tt.

(** [request.GetResponse()] and the reading of its stream: a response with
    an error status is thrown as a [WebException] that carries it. *)
Definition GetResponse (net : Network) (attempt : Z) (request : HttpRequestMessage)
    : run event Exception string :=
  emit (Sent request) ;;
  match send net attempt request with
  | Responds status body =>
      if status <? 400 then ret body
      else throw (WebException ("The remote server returned an error: ("
                                  ++ string_of_Z status ++ ").") (Some body))
  | Fails ex => throw ex
  end.

(** [ExecuteWebRequestInternal(options)], for headers that
    [WebHeaderCollection] takes: the assignment [request.Headers[key] = value]
    throws an [ArgumentException] for a restricted or malformed name, before
    anything is sent. *)
Definition ExecuteWebRequestInternal (c : Client) (net : Network) (attempt : Z)
    (options : option QueryOptions) : run event Exception (option ResponseObj) :=
  try_catch
    (Log_legacy c "Executing API request..." ;;
     let url := ConstructURL options in
     Log_legacy c ("URL: " ++ url) ;;
     let headers := [("x-api-key", _apiKey c); ("auth-mode", "nuget")] +++ _customHeaders c in
     content <-
       (if String.eqb _method "POST" then
          match options with
          | None => throw (PlainException "Options are required for this call")
          | Some o =>
              let body := SerializeObject o in
              Log_legacy c ("Request body: " ++ body) ;; ret (Some body)
          end
        else ret None) ;;
     responseString <-
       try_catch
         (GetResponse net attempt
            {| Method := _method; RequestUri := url; Headers := headers; Content := content |})
         (fun e =>
            match e with
            | WebException _ (Some body) => ret body
            | _ => throw e
            end) ;;
     Log_legacy c ("Response: " ++ responseString) ;;
     if is_empty responseString then
       throw (PlainException "No response from the server")
     else
       lift (DeserializeObject responseString))
    (fun e => Log_legacy c ("Error: " ++ Message e) ;; throw e).

(** [IsTransientWebError(ex)] *)
Definition IsTransientWebError (ex : Exception) : bool :=
  if is_WebException ex then true else false.

(** [System.Threading.Thread.Sleep(milliseconds)] *)
Definition Thread_Sleep (milliseconds : Z) : run event Exception unit :=
  emit (Delayed milliseconds).

(** The loop of [ExecuteWithWebRequest] and what follows it. *)
Fixpoint ExecuteWithWebRequest_loop (c : Client) (net : Network)
    (options : option QueryOptions) (fuel : nat) (attempt : Z)
    (lastException : option Exception)
    : option (run event Exception (option ResponseObj)) :=
  if attempt <=? _maxRetries c then
    match fuel with
    | O => None
    | S fuel' =>
        let tried :=
          (if 0 <? attempt then
             Log_legacy c ("Retry attempt " ++ string_of_Z attempt ++ " of "
                             ++ string_of_Z (_maxRetries c) ++ "...") ;;
             Thread_Sleep (_retryDelayMs c)
           else ret tt) ;;
          ExecuteWebRequestInternal c net attempt options in
        match tried with
        | (t, Normal response) => Some (t, Normal response)
        | (t, Throw ex) =>
            let attempt := attempt + 1 in
            if _maxRetries c <? attempt then
              Some ((t, Normal tt) ;;
                    Log_legacy c ("Request failed after " ++ string_of_Z (_maxRetries c)
                                    ++ " retries: " ++ Message ex) ;;
                    throw ex)
            else if negb (IsTransientWebError ex) then
              Some ((t, Normal tt) ;;
                    Log_legacy c ("Non-transient error encountered, not retrying: "
                                    ++ Message ex) ;;
                    throw ex)
            else
              option_map (fun rest => (t, Normal tt) ;; rest)
                (ExecuteWithWebRequest_loop c net options fuel' attempt (Some ex))
        end
    end
  else
    Some (throw (match lastException with
                 | Some ex => ex
                 | None => PlainException "Request failed"
                 end)).

(** [ExecuteWithWebRequest(options)] *)
Definition ExecuteWithWebRequest (c : Client) (net : Network)
    (options : option QueryOptions)
    : option (run event Exception (option ResponseObj)) :=
  ExecuteWithWebRequest_loop c net options (Z.to_nat (_maxRetries c + 1)) 0 None.

(** [Execute(options)], in the legacy variant *)
Definition Execute_legacy (c : Client) (net : Network) (options : option QueryOptions)
    : option (run event Exception (option ResponseObj)) :=
  match ValidateParams options with
  | Throw ex => Some (throw ex)
  | Normal _ => ExecuteWithWebRequest c net options
  end.

(** ** The callback pattern *)

(** An [ExecuteAsyncCallback]: a call of it returns or throws. *)
Record ExecuteAsyncCallback : Type := {
  Invoke : option ResponseObj -> completion Exception unit
}.

(** What a work item does: what the call it wraps does, and the calls of
    the callback. *)
Inductive work_event : Type :=
| Did (e : event)
| Invoked (result : option ResponseObj).

Definition did {A : Type} (executed : run event Exception A) : run work_event Exception A :=
  (map Did (trace_of executed), result_of executed).

(** [callback(result)] *)
Definition invoke (callback : ExecuteAsyncCallback) (result : option ResponseObj)
    : run work_event Exception unit :=
  emit (Invoked result) ;; lift (Invoke callback result).

(** The work item that [ExecuteAsync(callback, options)] queues, in both
    variants, around the call [executed] of [ExecuteAsync(options)] or of
    [Execute(options)]. *)
Definition work_item (callback : ExecuteAsyncCallback)
    (executed : run event Exception (option ResponseObj))
    : run work_event Exception unit :=
  try_catch
    (result <- did executed ;;
     invoke callback result)
    (fun ex =>
       invoke callback
         (Some {| Status := Some "error"; Error := Some (Message ex); Data := None |})).

(** [ExecuteAsync(callback, options)] over [Task.Run]: what it throws at
    once (an [ArgumentNullException], which is an [ArgumentException]), or
    the work item it starts. *)
Definition ExecuteAsync_callback {fw : Framework} (c : Client) (net : Network)
    (callback : option ExecuteAsyncCallback) (options : option QueryOptions)
    : completion Exception (option (run work_event Exception unit)) :=
  match callback with
  | None => Throw (ArgumentException (value_cannot_be_null "callback"))
  | Some cb => Normal (option_map (work_item cb) (ExecuteAsync c net options))
  end.

(** [ExecuteAsync(callback, options)] over the thread pool, in the legacy
    variant *)
Definition ExecuteAsync_callback_legacy {fw : Framework} (c : Client) (net : Network)
    (callback : option ExecuteAsyncCallback) (options : option QueryOptions)
    : completion Exception (option (run work_event Exception unit)) :=
  match callback with
  | None => Throw (ArgumentException (value_cannot_be_null "callback"))
  | Some cb => Normal (option_map (work_item cb) (Execute_legacy c net options))
  end.

End WithRuntime.

End Nuget.

(* ================================================================== *)
(** * The Android binding: the Java client *)

Module Android.

(** [APIException(message, statusCode)] and [APIException(message, cause)] *)
Record APIException : Type := {
  getMessage : string;
  getStatusCode : option Z
}.

(** Modelled from the spec: the class [APIResponse] is not among the
    sources; it holds the envelope read from the body of the response. *)
Record APIResponse : Type := { getBody : string }.

Record ZIPDemographicsAPIClient : Type := {
  apiKey : string;
  baseURL : string
}.

(** [apiKey.matches("^[a-zA-Z0-9_-]+$")]: the whole key *)
Definition apiKeyPattern : regex :=
  Plus (Cls (fun c => is_alnum c || is_char "_" c || is_char "-" c)).

(** [s.trim().isEmpty()]: [trim] removes the code units up to the space *)
Definition trim_isEmpty (s : string) : bool :=
  str_forall (fun c => (code c <=? 32)%N) s.

(** [new ZIPDemographicsAPIClient(apiKey)], throwing
    [IllegalArgumentException(message)] *)
Definition constructor (key : option string) : completion string ZIPDemographicsAPIClient :=
  match key with
  | None => Throw "API key must be provided. Get your API key at: https://apiverve.com"
  | Some k =>
      if trim_isEmpty k then
        Throw "API key must be provided. Get your API key at: https://apiverve.com"
      else if negb (matches apiKeyPattern k) then
        Throw "Invalid API key format. API key must be alphanumeric and may contain hyphens and underscores"
      else
        let trimmedKey := remove_char "_" (remove_char "-" k) in
        if str_len trimmedKey <? 32 then
          Throw "Invalid API key. API key appears to be too short"
        else
          Normal {| apiKey := k;
                    baseURL := "https://api.apiverve.com/v1/zipdemographics" |}
  end.

(** What [handleResponse] reads from an [HttpURLConnection]:
    [getResponseCode()] (or the message of the [IOException] it throws), the
    text of [getInputStream()], and the text of [getErrorStream()], which is
    [null] when the server sent no body with its error. *)
Record HttpURLConnection : Type := {
  getResponseCode : completion string Z;
  getInputStream : completion string string;
  getErrorStream : option string
}.

(** The [readLine] loop: the lines of the text, appended with no separator. *)
Definition read_lines (text : string) : string :=
  str_filter (fun c => negb (is_char "010" c || is_char "013" c)) text.

(** [handleResponse(conn)] *)
Definition handleResponse (conn : HttpURLConnection) : completion APIException APIResponse :=
  let failed (message : string) :=
    Throw {| getMessage := "Failed to process response: " ++ message;
             getStatusCode := None |} in
  match getResponseCode conn with
  | Throw message => failed message
  | Normal statusCode =>
      let reader :=
        if statusCode =? 200 then getInputStream conn
        else match getErrorStream conn with
             | Some text => Normal text
             | None => Throw "null" (* NullPointerException *)
             end in
      match reader with
      | Throw message => failed message
      | Normal text =>
          let responseBody := read_lines text in
          if negb (statusCode =? 200) then
            Throw {| getMessage := "HTTP error " ++ string_of_Z statusCode ++ ": " ++ responseBody;
                     getStatusCode := Some statusCode |}
          else Normal {| getBody := responseBody |}
      end
  end.

(** ** Validation and the request *)

(** A value of the parameter map, as far as the client looks at it: a
    [String], a [Number] with its [doubleValue()], or another object; each
    with its [toString()]. *)
Inductive Object : Type :=
| JString (s : string)
| JNumber (doubleValue : float) (toString : string)
| JOther (toString : string).

(** [value.toString()] *)
Definition Object_toString (value : Object) : string :=
  match value with
  | JString s => s
  | JNumber _ s => s
  | JOther s => s
  end.

(** [ValidationRule], with [null] as [None] *)
Record ValidationRule : Type := {
  getType : string;
  isRequired : bool;
  getMin : option float;
  getMax : option float;
  getMinLength : option Z;
  getMaxLength : option Z;
  getFormat : option string;
  getEnumValues : option (list string)
}.

(** What the platform decides: [Double.parseDouble] ([None] for a
    [NumberFormatException]), [Double.toString], and the message of the
    [NullPointerException] of a call on [null]. *)
Class Runtime : Type := {
  parseDouble : string -> option float;
  Double_toString : float -> string;
  NullPointerException_getMessage : string
}.

(** [VALIDATION_RULES] *)
Definition VALIDATION_RULES : list (string * ValidationRule) :=
  [ ("zip", {| getType := "string"; isRequired := true; getMin := None; getMax := None;
               getMinLength := Some 5; getMaxLength := Some 5;
               getFormat := None; getEnumValues := None |}) ].

(** [\s] of [java.util.regex] *)
Definition java_space (c : ascii) : bool :=
  in_range "009" "013" c || is_char " " c.

(** [.]: anything but a line terminator *)
Definition java_dot (c : ascii) : bool :=
  negb (is_char "010" c || is_char "013" c || is_char "133" c).

Definition not_space_at (c : ascii) : bool :=
  negb (java_space c || is_char "@" c).

Definition octet : regex :=
  Alt (Seq (Lit "25") (Cls (in_range "0" "5")))
   (Alt (Seq (Chr "2") (Seq (Cls (in_range "0" "4")) (Cls is_digit)))
        (Seq (Opt (Cls (in_range "0" "1"))) (Seq (Cls is_digit) (Opt (Cls is_digit))))).

(** [FORMAT_PATTERNS]; they are used with [matcher(...).matches()], which
    asks for the whole string. *)
Definition FORMAT_PATTERNS : list (string * regex) :=
  [ ("email", Seq (Plus (Cls not_space_at))
               (Seq (Chr "@")
                 (Seq (Plus (Cls not_space_at))
                   (Seq (Chr ".") (Plus (Cls not_space_at))))));
    ("url", Seq (Lit "http")
             (Seq (Opt (Chr "s")) (Seq (Lit "://") (Plus (Cls java_dot)))));
    ("ip", Alt (Seq (Rep 3 (Seq octet (Chr "."))) octet)
               (Seq (Rep 7 (Seq (RepRange 1 4 (Cls hex_digit)) (Chr ":")))
                    (RepRange 1 4 (Cls hex_digit))));
    ("date", Seq (Rep 4 (Cls is_digit))
              (Seq (Chr "-")
                (Seq (Rep 2 (Cls is_digit))
                  (Seq (Chr "-") (Rep 2 (Cls is_digit))))));
    ("hexColor", Seq (Opt (Chr "#"))
                  (Alt (Rep 3 (Cls hex_digit)) (Rep 6 (Cls hex_digit)))) ].

(** A parameter map, in the order in which [entrySet()] enumerates it; a
    value may be [null]. *)
Definition Parameters : Type := list (string * option Object).

(** [params.get(paramName)] *)
Definition Map_get (params : Parameters) (paramName : string) : option Object :=
  match assoc paramName params with
  | Some value => value
  | None => None
  end.

(** What [execute] throws: a [ValidationException], or an [APIException]
    that is none. *)
Inductive Thrown : Type :=
| ValidationException (getErrors : list string)
| OtherAPIException (e : APIException).

(** [e.getMessage()] *)
Definition Thrown_getMessage (e : Thrown) : string :=
  match e with
  | ValidationException errors => "Validation failed: " ++ join "; " errors
  | OtherAPIException e => getMessage e
  end.

Section WithRuntime.
Context {rt : Runtime}.

(** What one iteration of the loop of [validateParams] adds to [errors]. *)
Definition check_param (paramName : string) (rule : ValidationRule)
    (value : option Object) : list string :=
  match value with
  | None =>
      (* Check required; then: if (value == null) continue; *)
      if isRequired rule then ["Required parameter [" ++ paramName ++ "] is missing"]
      else []
  | Some v =>
      if isRequired rule && match v with JString s => is_empty s | _ => false end then
        ["Required parameter [" ++ paramName ++ "] is missing"]
      else
        (* Type-specific validation *)
        let type := getType rule in
        (if String.eqb type "integer" || String.eqb type "number" then
           match (match v with
                  | JNumber d _ => Some d
                  | _ => parseDouble (Object_toString v)
                  end) with
           | Some numValue =>
               match getMin rule with
               | Some m =>
                   push_if (PrimFloat.ltb numValue m)
                     ("Parameter [" ++ paramName ++ "] must be at least " ++ Double_toString m)
               | None => []
               end +++
               match getMax rule with
               | Some m =>
                   push_if (PrimFloat.ltb m numValue)
                     ("Parameter [" ++ paramName ++ "] must be at most " ++ Double_toString m)
               | None => []
               end
           | None =>
               (* catch (NumberFormatException e) *)
               ["Parameter [" ++ paramName ++ "] must be a valid " ++ type]
           end
         else
           match String.eqb type "string", v with
           | true, JString strValue =>
               match getMinLength rule with
               | Some n =>
                   push_if (str_len strValue <? n)
                     ("Parameter [" ++ paramName ++ "] must be at least "
                        ++ string_of_Z n ++ " characters")
               | None => []
               end +++
               match getMaxLength rule with
               | Some n =>
                   push_if (n <? str_len strValue)
                     ("Parameter [" ++ paramName ++ "] must be at most "
                        ++ string_of_Z n ++ " characters")
               | None => []
               end +++
               match getFormat rule with
               | Some f =>
                   match assoc f FORMAT_PATTERNS with
                   | Some pattern =>
                       push_if (negb (matches pattern strValue))
                         ("Parameter [" ++ paramName ++ "] must be a valid " ++ f)
                   | None => []
                   end
               | None => []
               end
           | _, _ => []
           end) +++
        (* Enum validation *)
        match getEnumValues rule with
        | Some allowed =>
            if negb (0 <? List.length allowed)%nat then []
            else
              push_if (negb (existsb (String.eqb (Object_toString v)) allowed))
                ("Parameter [" ++ paramName ++ "] must be one of: " ++ join ", " allowed)
        | None => []
        end
  end.

(** The body of [validateParams(parameters)], for a rule table [rules]. *)
Definition validateParamsWith (rules : list (string * ValidationRule))
    (parameters : option Parameters) : completion Thrown unit :=
  if (List.length rules =? 0)%nat then Normal tt
  else
    let params := match parameters with Some p => p | None => [] end in
    let errors :=
      flat_map (fun entry => check_param (fst entry) (snd entry) (Map_get params (fst entry)))
        rules in
    if negb (List.length errors =? 0)%nat then Throw (ValidationException errors)
    else Normal tt.

(** [validateParams(parameters)] *)
Definition validateParams (parameters : option Parameters) : completion Thrown unit :=
  validateParamsWith VALIDATION_RULES parameters.

(** [URLEncoder.encode(s, "UTF-8")]: letters, digits and [. - * _] stay, a
    space becomes [+], everything else the percent-escapes of its UTF-8
    bytes. *)
Definition dont_need_encoding (c : ascii) : bool :=
  is_alnum c || existsb (fun x => is_char x c) ["."; "-"; "*"; "_"]%char.

Fixpoint URLEncoder_encode (s : string) : string :=
  match s with
  | EmptyString => EmptyString
  | String c s' =>
      (if dont_need_encoding c then String c EmptyString
       else if is_char " " c then "+"
       else Js.utf8_escapes c)
        ++ URLEncoder_encode s'
  end.

(** The loop of [executeGet] over [parameters.entrySet()]: the query string
    after the remaining entries, or the message of the
    [NullPointerException] of [entry.getValue().toString()]. *)
Fixpoint append_entries (entries : Parameters) (queryString : string) (first : bool)
    : completion string string :=
  match entries with
  | [] => Normal queryString
  | (key, value) :: rest =>
      let queryString := if negb first then queryString ++ "&" else queryString in
      let queryString := queryString ++ URLEncoder_encode key in
      let queryString := queryString ++ "=" in
      match value with
      | None => Throw NullPointerException_getMessage
      | Some v =>
          append_entries rest (queryString ++ URLEncoder_encode (Object_toString v)) false
      end
  end.

(** The connection as [executeGet] sets it up. *)
Record Request : Type := {
  URL : string;
  getRequestMethod : string;
  getRequestProperties : list (string * string)
}.

(** The URL that [executeGet] builds, or the message of the exception that
    building it throws. *)
Definition urlString (this : ZIPDemographicsAPIClient) (parameters : option Parameters)
    : completion string string :=
  match parameters with
  | Some ((_ :: _) as entries) =>
      match append_entries entries "?" true with
      | Normal queryString => Normal (baseURL this ++ queryString)
      | Throw message => Throw message
      end
  | _ => Normal (baseURL this)
  end.

(** [executeGet(parameters)]; [connect] is what the network makes of the
    connection once [handleResponse] uses it. *)
Definition executeGet (this : ZIPDemographicsAPIClient) (connect : Request -> HttpURLConnection)
    (parameters : option Parameters) : completion Thrown APIResponse :=
  let network_error (message : string) :=
    Throw (OtherAPIException {| getMessage := "Network error: " ++ message;
                                getStatusCode := None |}) in
  match urlString this parameters with
  | Throw message => network_error message
  | Normal url =>
      let conn := connect {| URL := url;
                             getRequestMethod := "GET";
                             getRequestProperties := [("x-api-key", apiKey this);
                                                      ("auth-mode", "android-package")] |} in
      match handleResponse conn with
      | Normal response => Normal response
      | Throw e => network_error (getMessage e)
      end
  end.

(** [execute(parameters)]; [execute()] is [execute(null)]. *)
Definition execute (this : ZIPDemographicsAPIClient) (connect : Request -> HttpURLConnection)
    (parameters : option Parameters) : completion Thrown APIResponse :=
  (* Validate parameters before making request *)
  match validateParams parameters with
  | Throw e => Throw e
  | Normal _ => executeGet this connect parameters
  end.

End WithRuntime.

End Android.

(* ================================================================== *)
(** * Notions the statements use *)

(** ** The language of a regular expression *)

Inductive lang : regex -> string -> Prop :=
| lang_Eps : lang Eps ""
| lang_Cls p c : p c = true -> lang (Cls p) (String c "")
| lang_Seq r1 r2 s1 s2 : lang r1 s1 -> lang r2 s2 -> lang (Seq r1 r2) (s1 ++ s2)
| lang_Alt_l r1 r2 s : lang r1 s -> lang (Alt r1 r2) s
| lang_Alt_r r1 r2 s : lang r2 s -> lang (Alt r1 r2) s
| lang_Star_nil r : lang (Star r) ""
| lang_Star_app r s1 s2 : lang r s1 -> lang (Star r) s2 -> lang (Star r) (s1 ++ s2).

(** ** API keys, as the specification words them *)

(** [[a-zA-Z0-9_-]] *)
Definition key_char (c : ascii) : bool :=
  is_alnum c || is_char "_" c || is_char "-" c.

(** The key matches [^[a-zA-Z0-9_-]+$] and has at least 32 characters once
    hyphens and underscores are removed. *)
Definition key_as_specified (key : string) : bool :=
  negb (is_empty key) && str_forall key_char key
  && (32 <=? str_len (remove_char "_" (remove_char "-" key))).

Definition has_underscore (key : string) : bool :=
  negb (str_forall (fun c => negb (is_char "_" c)) key).

(** [key] without one final newline, if it ends with one *)
Fixpoint chomp (key : string) : string :=
  match key with
  | EmptyString => EmptyString
  | String c EmptyString => if is_char "010" c then EmptyString else key
  | String c rest => String c (chomp rest)
  end.

(** ** Reading a query string back

    The inverse the specification has in mind: the standard decoding of
    percent-escapes (UTF-8, here for code units below 256) and the splitting
    of a query string at [&] and [=]. *)

Definition hex_value (c : ascii) : option N :=
  if is_digit c then Some (code c - 48)%N
  else if in_range "A" "F" c then Some (code c - 55)%N
  else if in_range "a" "f" c then Some (code c - 87)%N
  else None.

Definition escaped_byte (h l : ascii) : option N :=
  match hex_value h, hex_value l with
  | Some a, Some b => Some (16 * a + b)%N
  | _, _ => None
  end.

Fixpoint decodeURIComponent (s : string) : option string :=
  match s with
  | EmptyString => Some EmptyString
  | String c rest =>
      if is_char "%" c then
        match rest with
        | String h (String l rest') =>
            match escaped_byte h l with
            | Some byte =>
                if (byte <? 128)%N then
                  option_map (String (ascii_of_N byte)) (decodeURIComponent rest')
                else if (194 <=? byte)%N && (byte <=? 195)%N then
                  (* the first of two bytes: a code unit from 128 to 255 *)
                  match rest' with
                  | String p (String h2 (String l2 rest'')) =>
                      if is_char "%" p then
                        match escaped_byte h2 l2 with
                        | Some byte2 =>
                            if (128 <=? byte2)%N && (byte2 <=? 191)%N then
                              option_map
                                (String (ascii_of_N ((byte - 192) * 64 + (byte2 - 128))))
                                (decodeURIComponent rest'')
                            else None
                        | None => None
                        end
                      else None
                  | _ => None
                  end
                else None
            | None => None
            end
        | _ => None
        end
      else option_map (String c) (decodeURIComponent rest)
  end.

(** [s] up to the first [x], and what follows that [x] if there is one *)
Fixpoint split_first (x : ascii) (s : string) : string * option string :=
  match s with
  | EmptyString => (EmptyString, None)
  | String c rest =>
      if is_char x c then (EmptyString, Some rest)
      else let '(before, after) := split_first x rest in (String c before, after)
  end.

(** [s.split(x)] *)
Fixpoint split_all (x : ascii) (s : string) : list string :=
  match s with
  | EmptyString => [EmptyString]
  | String c rest =>
      if is_char x c then EmptyString :: split_all x rest
      else match split_all x rest with
           | [] => [String c EmptyString]
           | first :: others => String c first :: others
           end
  end.

Fixpoint sequence {A : Type} (xs : list (option A)) : option (list A) :=
  match xs with
  | [] => Some []
  | Some x :: rest => option_map (cons x) (sequence rest)
  | None :: _ => None
  end.

(** The decoded [(name, value)] pairs of the query string of [url]. *)
Definition parse_query (url : string) : option (list (string * string)) :=
  match split_first "?" url with
  | (_, None) => Some []
  | (_, Some query) =>
      if is_empty query then Some []
      else
        sequence
          (map (fun pair =>
                  let '(name, value) := split_first "=" pair in
                  match decodeURIComponent name,
                        decodeURIComponent (match value with Some v => v | None => "" end) with
                  | Some n, Some v => Some (n, v)
                  | _, _ => None
                  end)
               (split_all "&" query))
  end.

(** ** The validator *)

(** A value is present when it is none of what the specification counts as
    absent: missing or undefined, null, the empty string. *)
Definition js_present (v : Js.value) : bool :=
  negb (Js.is_undefined v || Js.is_null v || Js.strict_eq_str v "").

(** The type check of [Npm.check_param] fails in a way that ends the
    iteration ([continue]): a number that does not parse or is not whole, a
    string that is not one. *)
Definition js_type_check_stops {rt : Js.Runtime} (rules : Npm.Rules) (v : Js.value) : bool :=
  if String.eqb (Npm.type rules) "integer" || String.eqb (Npm.type rules) "number" then
    Js.isNaN (Js.ToNumber v)
    || (String.eqb (Npm.type rules) "integer" && negb (Js.isInteger (Js.ToNumber v)))
  else if String.eqb (Npm.type rules) "string" then negb (Js.is_string v)
  else false.

Definition js_enum_violation {rt : Js.Runtime} (paramName : string)
    (allowed : list Js.value) : string :=
  "Parameter [" ++ paramName ++ "] must be one of: "
    ++ Js.Array_join ", " allowed ++ ".".

(** The format check of [Npm.check_param] throws: under a string rule, for
    a string, when the format names what [formatPatterns] inherits. *)
Definition js_format_lookup_throws (rules : Npm.Rules) (v : Js.value) : bool :=
  negb (String.eqb (Npm.type rules) "integer" || String.eqb (Npm.type rules) "number")
  && String.eqb (Npm.type rules) "string"
  && Js.is_string v
  && match Npm.format rules with
     | Some f => Js.inherited_from_Object f
     | None => false
     end.

(** What that check throws. *)
Definition js_not_a_function : Js.value :=
  Js.Error "TypeError" "formatPatterns[rules.format].test is not a function" [].

(** The same for [Nuget.check_param]: only a number that does not parse
    ends the iteration. *)
Definition cs_present (v : option Nuget.object) : bool :=
  match v with
  | None => false
  | Some (Nuget.OString s) => negb (is_empty s)
  | Some _ => true
  end.

Definition cs_type_check_stops {rt : Nuget.Runtime} (rule : Nuget.ValidationRule)
    (v : Nuget.object) : bool :=
  if String.eqb (Nuget.Type_ rule) "integer" || String.eqb (Nuget.Type_ rule) "number" then
    match v with
    | Nuget.ODouble _ | Nuget.OInt _ | Nuget.OLong _ | Nuget.OFloat _ => false
    | _ => match Nuget.double_TryParse (Nuget.ToString v) with
           | Some _ => false
           | None => true
           end
    end
  else false.

Definition cs_enum_violation (paramName : string) (allowed : list string) : string :=
  "Parameter [" ++ paramName ++ "] must be one of: " ++ join ", " allowed.

(** ** The retry loop *)

(** The sleeps and the requests of a trace, in order. *)
Definition pace (t : list Nuget.event) : list Nuget.event :=
  filter (fun e => Nuget.is_sent e || Nuget.is_delayed e) t.

Definition sleeps (t : list Nuget.event) : nat :=
  List.length (filter Nuget.is_delayed t).

Definition requests (t : list Nuget.event) : nat :=
  List.length (filter Nuget.is_sent t).

(** After a request: nothing, or one sleep of [delay] and then (unless the
    sleep was cancelled) the next request, and so on. *)
Fixpoint retries_paced (delay : Z) (es : list Nuget.event) : bool :=
  match es with
  | [] => true
  | Nuget.Delayed ms :: rest =>
      (ms =? delay)
      && match rest with
         | [] => true
         | Nuget.Sent _ :: rest' => retries_paced delay rest'
         | _ => false
         end
  | _ => false
  end.

(** A first request with no sleep before it, then paced retries. *)
Definition well_paced (delay : Z) (t : list Nuget.event) : bool :=
  match pace t with
  | Nuget.Sent _ :: rest => retries_paced delay rest
  | _ => false
  end.

(** What the loop of [ExecuteAsync] retries: an exception that is not
    rethrown as a cancellation and that [IsTransientError] accepts. *)
Definition retried (ex : Nuget.Exception) : bool :=
  negb (Nuget.is_OperationCanceledException ex) && Nuget.IsTransientError ex.

(** The requests of an npm trace. *)
Definition js_requests (t : list Npm.event) : list Npm.event :=
  filter Npm.is_request t.

(** ** Requests and attempts *)

(** The request [Npm.execute] makes for [query]. *)
Definition npm_request {rt : Js.Runtime} (this : Npm.zipdemographicsWrapper)
    (query : Js.value) : Npm.AxiosConfig :=
  {| Npm.method := "GET";
     Npm.url := Npm.constructURL this query;
     Npm.headers := [("Content-Type", "application/json");
                     ("x-api-key", Npm.APIKey this);
                     ("auth-mode", "npm-package")];
     Npm.data := Js.Undefined |}.

(** The request [Nuget.ExecuteRequestAsync] sends for [options]. *)
Definition cs_request {rt : Nuget.Runtime} (c : Nuget.Client)
    (options : option Nuget.QueryOptions) : Nuget.HttpRequestMessage :=
  {| Nuget.Method := "GET";
     Nuget.RequestUri := Nuget.ConstructURL options;
     Nuget.Headers := Nuget.request_headers c;
     Nuget.Content := None |}.

(** How the request of attempt [attempt] ends. *)
Definition cs_outcome {rt : Nuget.Runtime} (net : Nuget.Network) (attempt : Z)
    (request : Nuget.HttpRequestMessage)
    : completion Nuget.Exception (option Nuget.ResponseObj) :=
  match Nuget.send net attempt request with
  | Nuget.Fails ex => Throw ex
  | Nuget.Responds _ body =>
      if is_empty body then Throw (Nuget.HttpRequestException "No response from the server")
      else Nuget.DeserializeObject body
  end.

(** One pass through the [try] block of the loop of [Nuget.ExecuteAsync]:
    for a retry the log line and the delay, then the request. *)
Definition cs_tried {rt : Nuget.Runtime} (c : Nuget.Client) (net : Nuget.Network)
    (options : option Nuget.QueryOptions) (attempt : Z)
    : run Nuget.event Nuget.Exception (option Nuget.ResponseObj) :=
  bind (if 0 <? attempt then
          bind (Nuget.Log c ("Retry attempt " ++ string_of_Z attempt ++ " of "
                               ++ string_of_Z (Nuget._maxRetries c) ++ "..."))
            (fun _ => Nuget.Task_Delay (Nuget._retryDelayMs c)
                        (Nuget.cancelled_in_delay net attempt))
        else ret tt)
    (fun _ => Nuget.ExecuteRequestAsync c net attempt options).

(** Whether the delay before [attempt] is cut short by a cancellation. *)
Definition cs_cancelled (net : Nuget.Network) (attempt : Z) : bool :=
  (0 <? attempt) && Nuget.cancelled_in_delay net attempt.

(** From attempt [attempt] on, the sleeps and the requests come in the
    order the loop prescribes: a retry starts with its sleep, the first
    attempt with its request. *)
Definition paced_from {rt : Nuget.Runtime} (c : Nuget.Client)
    (options : option Nuget.QueryOptions) (attempt : Z) (es : list Nuget.event) : Prop :=
  if 0 <? attempt
  then retries_paced (Nuget._retryDelayMs c) es = true /\ es <> []
  else exists more,
         es = Nuget.Sent (cs_request c options) :: more
         /\ retries_paced (Nuget._retryDelayMs c) more = true.

(** ** Sample data *)

Definition hex32 : string := "0123456789abcdef0123456789abcdef".

Definition rt_any : Js.Runtime :=
  {| Js.StringToNumber := fun _ => nan; Js.NumberToString := fun _ => "NaN" |}.

Definition cs_rt_any : Nuget.Runtime :=
  {| Nuget.double_TryParse := fun _ => None;
     Nuget.double_ToString := fun _ => "NaN";
     Nuget.DeserializeObject :=
       fun body => Normal (Some {| Nuget.Status := Some "ok"; Nuget.Error := None;
                                  Nuget.Data := Some body |});
     Nuget.SerializeObject := fun _ => "{}" |}.

Definition state_rule : Npm.Rules :=
  {| Npm.type := "string"; Npm.required := false; Npm.min := None; Npm.max := None;
     Npm.minLength := Some 2; Npm.maxLength := None; Npm.format := None;
     Npm.enum := Some [Js.Str "CA"; Js.Str "NY"] |}.

(** A string rule whose format is a name that every object inherits. *)
Definition inherited_format_rule : Npm.Rules :=
  {| Npm.type := "string"; Npm.required := false; Npm.min := None; Npm.max := None;
     Npm.minLength := None; Npm.maxLength := None; Npm.format := Some "toString";
     Npm.enum := Some [Js.Str "CA"; Js.Str "NY"] |}.

Definition flag_rule : Npm.Rules :=
  {| Npm.type := "boolean"; Npm.required := false; Npm.min := None; Npm.max := None;
     Npm.minLength := None; Npm.maxLength := None; Npm.format := None;
     Npm.enum := Some [Js.Str "true"; Js.Str "false"] |}.

Definition cs_state_rule : Nuget.ValidationRule :=
  {| Nuget.Type_ := "string"; Nuget.Required := false; Nuget.Min := None;
     Nuget.Max := None; Nuget.MinLength := Some 2; Nuget.MaxLength := None;
     Nuget.Format := None; Nuget.EnumValues := Some ["CA"; "NY"] |}.

(** A client as [new ZIPDemographicsAPIClient(key)] leaves it. *)
Definition sample_client : Nuget.Client :=
  {| Nuget._apiKey := hex32; Nuget._isSecure := true; Nuget._isDebug := false;
     Nuget._maxRetries := 0; Nuget._retryDelayMs := 1000;
     Nuget._logger := None; Nuget._customHeaders := [] |}.

(** A server that answers every request with [status] and [body]. *)
Definition answering (status : Z) (body : string) : Nuget.Network :=
  {| Nuget.send := fun _ _ => Nuget.Responds status body;
     Nuget.cancelled_in_delay := fun _ => false |}.

(** A connection that fails twice, then a server that answers. *)
Definition flaky : Nuget.Network :=
  {| Nuget.send := fun attempt _ =>
                     if attempt <? 2
                     then Nuget.Fails (Nuget.HttpRequestException "Connection refused")
                     else Nuget.Responds 200 "{}";
     Nuget.cancelled_in_delay := fun _ => false |}.

(** A server that refuses the request. *)
Definition refusing : Nuget.Network :=
  {| Nuget.send := fun _ _ => Nuget.Fails (Nuget.ArgumentException "Invalid URI");
     Nuget.cancelled_in_delay := fun _ => false |}.

Definition zip_options (zip : string) : option Nuget.QueryOptions :=
  Some (Nuget.ZIPDemographicsQueryOptions (Some zip)).

(** The npm client that [new zipdemographicsWrapper({ api_key })] builds. *)
Definition sample_this : Npm.zipdemographicsWrapper :=
  {| Npm.APIKey := hex32;
     Npm.IsSecure := true;
     Npm.baseURL := "https://api.apiverve.com/v1/zipdemographics";
     Npm.validationRules :=
       [("zip", {| Npm.type := "string"; Npm.required := true;
                   Npm.min := None; Npm.max := None;
                   Npm.minLength := Some 5; Npm.maxLength := Some 5;
                   Npm.format := None; Npm.enum := None |})] |}.

Definition zip_query (zip : string) : Js.value := Js.Object [("zip", Js.Str zip)].

Definition not_found : Js.value :=
  Js.Object [("status", Js.Str "error"); ("error", Js.Str "ZIP code not found");
             ("data", Js.Null)].

(** A callback that returns. *)
Definition quiet_callback : Npm.function :=
  {| Npm.apply := fun _ _ => Normal Js.Undefined |}.


(** The error object the [catch] block of [execute] makes of a response
    whose status axios refuses and whose body is not truthy. *)
Definition js_status_error (status : Z) : Js.value :=
  Js.Object [("error", Js.Str ("Request failed with status code " ++ string_of_Z status));
             ("status", Js.Str "error")].

(** What [execute] resolves to once the callback was handed an error. *)
Definition after_callback (returned : completion Js.value Js.value)
    : completion Js.value Js.value :=
  match returned with
  | Normal _ => Normal Js.Undefined
  | Throw thrown => Throw thrown
  end.

(** ** More notions for the retry loops *)

(** [c] with no logger and with debug mode off: it logs nothing. *)
Definition quiet (c : Nuget.Client) : Nuget.Client :=
  {| Nuget._apiKey := Nuget._apiKey c; Nuget._isSecure := Nuget._isSecure c;
     Nuget._isDebug := false;
     Nuget._maxRetries := Nuget._maxRetries c;
     Nuget._retryDelayMs := Nuget._retryDelayMs c; Nuget._logger := None;
     Nuget._customHeaders := Nuget._customHeaders c |}.

(** [n] retries: each a sleep of [delay], then the request. *)
Fixpoint retries (delay : Z) (request : Nuget.HttpRequestMessage) (n : nat)
    : list Nuget.event :=
  match n with
  | O => []
  | S n' => Nuget.Delayed delay :: Nuget.Sent request :: retries delay request n'
  end.

(** The request [Nuget.ExecuteWebRequestInternal] makes for [options]. *)
Definition legacy_request {rt : Nuget.Runtime} (c : Nuget.Client)
    (options : option Nuget.QueryOptions) : Nuget.HttpRequestMessage :=
  {| Nuget.Method := "GET";
     Nuget.RequestUri := Nuget.ConstructURL options;
     Nuget.Headers := [("x-api-key", Nuget._apiKey c); ("auth-mode", "nuget")]
                        +++ Nuget._customHeaders c;
     Nuget.Content := None |}.

(** What the legacy variant makes of a body it has read. *)
Definition legacy_body {rt : Nuget.Runtime} (body : string)
    : completion Nuget.Exception (option Nuget.ResponseObj) :=
  if is_empty body then Throw (Nuget.PlainException "No response from the server")
  else Nuget.DeserializeObject body.

(** The sleeps and requests of a call are of one kind: this request after
    this delay. *)
Definition only_these {rt : Nuget.Runtime} (c : Nuget.Client)
    (options : option Nuget.QueryOptions) (es : list Nuget.event) : Prop :=
  Forall (fun e => e = Nuget.Sent (cs_request c options)
                   \/ e = Nuget.Delayed (Nuget._retryDelayMs c)) es.

(** A host that cannot be reached. *)
Definition unreachable : Nuget.Network :=
  {| Nuget.send := fun _ _ => Nuget.Fails (Nuget.HttpRequestException "Connection refused");
     Nuget.cancelled_in_delay := fun _ => false |}.

(** A server that is too slow twice, so that the client times out, and
    then answers. *)
Definition slow_start : Nuget.Network :=
  {| Nuget.send := fun attempt _ =>
                     if attempt <? 2
                     then Nuget.Fails (Nuget.TaskCanceledException "A task was canceled.")
                     else Nuget.Responds 200 "{}";
     Nuget.cancelled_in_delay := fun _ => false |}.

(** A server that lets every request time out. *)
Definition timing_out : Nuget.Network :=
  {| Nuget.send := fun _ _ => Nuget.Fails (Nuget.TaskCanceledException "The operation was canceled.");
     Nuget.cancelled_in_delay := fun _ => false |}.

(** A host that cannot be reached, and a caller who cancels during the
    first delay. *)
Definition cancelled_while_waiting : Nuget.Network :=
  {| Nuget.send := fun _ _ => Nuget.Fails (Nuget.HttpRequestException "Connection refused");
     Nuget.cancelled_in_delay := fun attempt => attempt =? 1 |}.

(** How the request of attempt [attempt] ends in the legacy variant: the
    body of an answer is read whatever its status is. *)
Definition legacy_outcome {rt : Nuget.Runtime} (net : Nuget.Network) (attempt : Z)
    (request : Nuget.HttpRequestMessage)
    : completion Nuget.Exception (option Nuget.ResponseObj) :=
  match Nuget.send net attempt request with
  | Nuget.Responds _ body => legacy_body body
  | Nuget.Fails (Nuget.WebException _ (Some body)) => legacy_body body
  | Nuget.Fails ex => Throw ex
  end.

(** One pass through the [try] block of the loop of
    [Nuget.ExecuteWithWebRequest]. *)
Definition legacy_tried {rt : Nuget.Runtime} (c : Nuget.Client) (net : Nuget.Network)
    (options : option Nuget.QueryOptions) (attempt : Z)
    : run Nuget.event Nuget.Exception (option Nuget.ResponseObj) :=
  bind (if 0 <? attempt then
          bind (Nuget.Log_legacy c ("Retry attempt " ++ string_of_Z attempt ++ " of "
                                      ++ string_of_Z (Nuget._maxRetries c) ++ "..."))
            (fun _ => Nuget.Thread_Sleep (Nuget._retryDelayMs c))
        else ret tt)
    (fun _ => Nuget.ExecuteWebRequestInternal c net attempt options).

(** ** More notions for the validators *)

(** [query.zip] is a string of five code units. *)
Definition zip_of_five (query : Js.value) : bool :=
  match Js.get query "zip" with
  | Normal (Js.Str s) => str_len s =? 5
  | _ => false
  end.

(** [options.Zip] is a string of five characters. *)
Definition five_characters (zip : option string) : bool :=
  match zip with
  | Some s => str_len s =? 5
  | None => false
  end.


(** [query[key]], for a [query] that has properties. *)
Definition js_lookup (query : Js.value) (key : string) : Js.value :=
  match Js.get query key with
  | Normal v => v
  | Throw _ => Js.Undefined
  end.

(** Every message the rules of [this] have for [query], in the order of the
    rule table. *)
Definition violations {rt : Js.Runtime} (this : Npm.zipdemographicsWrapper)
    (query : Js.value) : list string :=
  flat_map (fun rule =>
              match Npm.check_param (fst rule) (snd rule) (js_lookup query (fst rule)) with
              | Normal pushed => pushed
              | Throw _ => []
              end)
    (Npm.validationRules this).

(** The iteration of the validator for [rule] returns on [query]: the
    parameter's name is none that [query] inherits, the format lookup does
    not throw, the value converts to a string and the allowed values are
    primitives. *)
Definition js_check_returns {rt : Js.Runtime} (query : Js.value)
    (rule : string * Npm.Rules) : bool :=
  negb (Js.inherited_from_Object (fst rule))
  && negb (js_format_lookup_throws (snd rule) (js_lookup query (fst rule)))
  && Js.converts (js_lookup query (fst rule))
  && match Npm.enum (snd rule) with
     | Some allowed => forallb Js.is_primitive allowed
     | None => true
     end.

(** [Uri.EscapeDataString(s)] returns on every framework the client is
    built for: the .NET Framework refuses a string of more than 32766
    characters. *)
Definition escapable (s : string) : bool := str_len s <=? 32766.

Definition escapable_zip (zip : option string) : bool :=
  match zip with
  | Some s => escapable s
  | None => true
  end.

(** [constructURL(query)] returns: the values it writes convert to a
    string. *)
Definition url_is_built (query : Js.value) : bool :=
  forallb (fun property => Js.converts (snd property)) (Js.entries query).

(** A client of the same template for an API with two optional parameters. *)
Definition two_rules_this : Npm.zipdemographicsWrapper :=
  {| Npm.APIKey := hex32;
     Npm.IsSecure := true;
     Npm.baseURL := "https://api.apiverve.com/v1/zipdemographics";
     Npm.validationRules := [("state", state_rule); ("flag", flag_rule)] |}.

(** An optional parameter that has to be a colour. *)
Definition color_rule : Nuget.ValidationRule :=
  {| Nuget.Type_ := "string"; Nuget.Required := false; Nuget.Min := None;
     Nuget.Max := None; Nuget.MinLength := None; Nuget.MaxLength := None;
     Nuget.Format := Some "hexColor"; Nuget.EnumValues := None |}.

Definition js_color_rule : Npm.Rules :=
  {| Npm.type := "string"; Npm.required := false; Npm.min := None; Npm.max := None;
     Npm.minLength := None; Npm.maxLength := None; Npm.format := Some "hexColor";
     Npm.enum := None |}.

(** ** Configured clients *)

(** The clients a program can hold: made by the constructor, then changed
    by the setters only (the fields are private). *)
Inductive configured {fw : Nuget.Framework} : Nuget.Client -> Prop :=
| by_constructor apiKey isSecure isDebug c :
    Nuget.new_Client apiKey isSecure isDebug = Normal c -> configured c
| by_SetApiKey c apiKey c' :
    configured c -> Nuget.SetApiKey c apiKey = Normal c' -> configured c'
| by_SetIsSecure c isSecure : configured c -> configured (Nuget.SetIsSecure c isSecure)
| by_SetIsDebug c isDebug : configured c -> configured (Nuget.SetIsDebug c isDebug)
| by_SetMaxRetries c maxRetries :
    configured c -> configured (Nuget.SetMaxRetries c maxRetries)
| by_SetRetryDelay c retryDelayMs :
    configured c -> configured (Nuget.SetRetryDelay c retryDelayMs)
| by_SetLogger c logger : configured c -> configured (Nuget.SetLogger c logger)
| by_AddCustomHeader c key value c' :
    configured c -> Nuget.AddCustomHeader c key value = Normal c' -> configured c'
| by_RemoveCustomHeader c key :
    configured c -> configured (Nuget.RemoveCustomHeader c key)
| by_ClearCustomHeaders c : configured c -> configured (Nuget.ClearCustomHeaders c).

(** A framework of the .NET Core line. *)
Definition fw_core : Nuget.Framework :=
  {| Nuget.with_paramName := fun message paramName =>
                               message ++ " (Parameter '" ++ paramName ++ "')";
     Nuget.value_cannot_be_null := fun paramName =>
                                     "Value cannot be null. (Parameter '" ++ paramName ++ "')" |}.

(** What every configured client satisfies. *)
Definition kept (c : Nuget.Client) : Prop :=
  0 <= Nuget._maxRetries c <= 3
  /\ 0 <= Nuget._retryDelayMs c
  /\ Nuget.ValidateApiKey (Some (Nuget._apiKey c)) = Normal tt
  /\ NoDup (map fst (Nuget._customHeaders c))
  /\ Forall (fun key => is_empty key || str_forall Nuget.is_white_space key = false)
       (map fst (Nuget._customHeaders c)).

(** A client set up the way the README does, and more. *)
Definition tuned_client : Nuget.Client :=
  Nuget.RemoveCustomHeader
    (match Nuget.AddCustomHeader (fw := fw_core)
             (Nuget.SetRetryDelay (Nuget.SetMaxRetries sample_client 7) (-5))
             (Some "X-Trace") "on" with
     | Normal c => c
     | Throw _ => sample_client
     end)
    "X-Other".

(** ** The callback pattern of the C# client *)

(** The envelope the work item makes of an exception. *)
Definition error_envelope (ex : Nuget.Exception) : option Nuget.ResponseObj :=
  Some {| Nuget.Status := Some "error"; Nuget.Error := Some (Nuget.Message ex);
          Nuget.Data := None |}.

(** What the callback is told about the outcome of the call. *)
Definition told (outcome : completion Nuget.Exception (option Nuget.ResponseObj))
    : option Nuget.ResponseObj :=
  match outcome with
  | Normal response => response
  | Throw ex => error_envelope ex
  end.

(** The calls of the callback in the trace of a work item. *)
Definition invocations (t : list Nuget.work_event) : list (option Nuget.ResponseObj) :=
  flat_map (fun e => match e with Nuget.Invoked result => [result] | Nuget.Did _ => [] end) t.

(** A callback that returns whatever it is told. *)
Definition listening : Nuget.ExecuteAsyncCallback :=
  {| Nuget.Invoke := fun _ => Normal tt |}.

(** A callback that cannot cope with an answer without data. *)
Definition brittle : Nuget.ExecuteAsyncCallback :=
  {| Nuget.Invoke := fun result =>
       match result with
       | Some {| Nuget.Data := Some _ |} => Normal tt
       | _ => Throw (Nuget.PlainException "Object reference not set to an instance of an object.")
       end |}.

(** A runtime whose deserializer reads every body as [null]. *)
Definition cs_rt_null : Nuget.Runtime :=
  {| Nuget.double_TryParse := fun _ => None;
     Nuget.double_ToString := fun _ => "NaN";
     Nuget.DeserializeObject := fun _ => Normal None;
     Nuget.SerializeObject := fun _ => "{}" |}.

(** ** The Android client *)

(** What the validator of the Android client asks of [zip]: a value, and
    five characters if that value is a [String]. *)
Definition zip_passes (value : option Android.Object) : bool :=
  match value with
  | Some (Android.JString s) => str_len s =? 5
  | Some _ => true
  | None => false
  end.

(** The request of the Android client for a URL. *)
Definition android_request (this : Android.ZIPDemographicsAPIClient) (url : string)
    : Android.Request :=
  {| Android.URL := url;
     Android.getRequestMethod := "GET";
     Android.getRequestProperties := [("x-api-key", Android.apiKey this);
                                      ("auth-mode", "android-package")] |}.

Definition java_rt_any : Android.Runtime :=
  {| Android.parseDouble := fun _ => None;
     Android.Double_toString := fun _ => "NaN";
     Android.NullPointerException_getMessage := "null" |}.

Definition android_sample : Android.ZIPDemographicsAPIClient :=
  {| Android.apiKey := hex32;
     Android.baseURL := "https://api.apiverve.com/v1/zipdemographics" |}.

(** A server that answers every request with [status] and, as the error
    stream, [body]. *)
Definition android_answering (status : Z) (body : string)
    : Android.Request -> Android.HttpURLConnection :=
  fun _ => {| Android.getResponseCode := Normal status;
              Android.getInputStream := Normal body;
              Android.getErrorStream := Some body |}.

(** The message of the enum check of the Android client. *)
Definition android_enum_violation (paramName : string) (allowed : list string) : string :=
  "Parameter [" ++ paramName ++ "] must be one of: " ++ join ", " allowed.

(** A number that has to be one of two. *)
Definition android_level_rule : Android.ValidationRule :=
  {| Android.getType := "number"; Android.isRequired := false;
     Android.getMin := None; Android.getMax := None;
     Android.getMinLength := None; Android.getMaxLength := None;
     Android.getFormat := None; Android.getEnumValues := Some ["1"; "2"] |}.

(* ================================================================== *)
(** * The matcher decides the language *)

Ltac inv H := inversion H; subst; clear H.

Ltac ascii_cases c :=
  destruct c as [[ | ] [ | ] [ | ] [ | ] [ | ] [ | ] [ | ] [ | ]].

Section Regex.

Lemma append_nil_inv (s1 s2 : string) : s1 ++ s2 = "" -> s1 = "" /\ s2 = "".
Proof.
  destruct s1; simpl; intros H; [split; [reflexivity | exact H] | discriminate H].
Qed.

Lemma append_nil_r (s : string) : s ++ "" = s.
Proof. induction s; simpl; [reflexivity | now rewrite IHs]. Qed.

Lemma append_inv_head (p x y : string) : p ++ x = p ++ y -> x = y.
Proof.
  induction p; simpl; intros H; [exact H | injection H as H; auto].
Qed.

Lemma nullable_lang (r : regex) : nullable r = true <-> lang r "".
Proof.
  split.
  - induction r; simpl; intros H; try discriminate H.
    + constructor.
    + apply andb_true_iff in H as [H1 H2].
      change "" with ("" ++ ""). constructor; auto.
    + apply orb_true_iff in H as [H | H]; [apply lang_Alt_l | apply lang_Alt_r]; auto.
    + constructor.
  - intros H. remember "" as w eqn:Hw.
    induction H; simpl; try reflexivity; try discriminate Hw.
    + apply append_nil_inv in Hw as [-> ->].
      rewrite IHlang1, IHlang2; reflexivity.
    + rewrite (IHlang Hw); reflexivity.
    + rewrite (IHlang Hw). apply orb_true_r.
Qed.

Lemma lang_deriv (c : ascii) (r : regex) (s : string) :
  lang (deriv c r) s -> lang r (String c s).
Proof.
  revert s. induction r; simpl; intros s H.
  - inv H.
  - inv H.
  - destruct (p c) eqn:Hp; inv H. now constructor.
  - assert (HS : forall w, lang (Seq (deriv c r1) r2) w -> lang (Seq r1 r2) (String c w)).
    { intros w Hw. inv Hw.
      match goal with
      | |- lang _ (String c (?a ++ ?b)) => change (String c (a ++ b)) with (String c a ++ b)
      end.
      constructor; auto. }
    destruct (nullable r1) eqn:Hn; [ | now apply HS].
    inv H; [now apply HS | ].
    change (String c s) with ("" ++ String c s).
    constructor; [now apply nullable_lang | auto].
  - inv H; [apply lang_Alt_l | apply lang_Alt_r]; auto.
  - inv H.
    match goal with
    | |- lang _ (String c (?a ++ ?b)) => change (String c (a ++ b)) with (String c a ++ b)
    end.
    constructor; auto.
Qed.

Lemma deriv_lang (c : ascii) (r : regex) (s : string) :
  lang r (String c s) -> lang (deriv c r) s.
Proof.
  intros H. remember (String c s) as w eqn:Hw. revert s Hw.
  induction H as [ | p c0 Hp | r1 r2 s1 s2 H1 IH1 H2 IH2 | r1 r2 w H1 IH1
                 | r1 r2 w H2 IH2 | r | r s1 s2 H1 IH1 H2 IH2 ];
    intros t Hw; simpl.
  - discriminate Hw.
  - injection Hw as -> <-. rewrite Hp. constructor.
  - destruct s1 as [ | c1 s1'].
    + simpl in Hw. subst s2.
      apply nullable_lang in H1. rewrite H1.
      apply lang_Alt_r. now apply IH2.
    + simpl in Hw. injection Hw as -> <-.
      assert (HS : lang (Seq (deriv c r1) r2) (s1' ++ s2))
        by (constructor; [now apply IH1 | assumption]).
      destruct (nullable r1); [now apply lang_Alt_l | assumption].
  - apply lang_Alt_l. now apply IH1.
  - apply lang_Alt_r. now apply IH2.
  - discriminate Hw.
  - destruct s1 as [ | c1 s1'].
    + simpl in Hw. now apply IH2.
    + simpl in Hw. injection Hw as -> <-.
      constructor; [now apply IH1 | assumption].
Qed.

Theorem matches_lang (r : regex) (s : string) : matches r s = true <-> lang r s.
Proof.
  revert r. induction s as [ | c s IH]; intros r; simpl.
  - apply nullable_lang.
  - rewrite IH. split; [apply lang_deriv | apply deriv_lang].
Qed.

Lemma matches_eq (r : regex) (s : string) (b : bool) :
  (lang r s <-> b = true) -> matches r s = b.
Proof.
  intros H. destruct (matches r s) eqn:Hm.
  - symmetry. apply H, matches_lang, Hm.
  - destruct b; [ | reflexivity].
    rewrite <- Hm. apply matches_lang, H. reflexivity.
Qed.

Lemma lang_Star_Cls (p : ascii -> bool) (s : string) :
  lang (Star (Cls p)) s <-> str_forall p s = true.
Proof.
  split.
  - intros H. remember (Star (Cls p)) as r eqn:Hr.
    induction H; try discriminate Hr; [reflexivity | ].
    injection Hr as ->.
    inv H. simpl.
    match goal with Hp : p _ = true |- _ => rewrite Hp end.
    simpl. now apply IHlang2.
  - induction s as [ | c s IH]; simpl; intros H.
    + constructor.
    + apply andb_true_iff in H as [Hc Hs].
      change (String c s) with (String c "" ++ s).
      constructor; [now constructor | auto].
Qed.

Lemma lang_Plus_Cls (p : ascii -> bool) (s : string) :
  lang (Plus (Cls p)) s <-> negb (is_empty s) && str_forall p s = true.
Proof.
  unfold Plus. split.
  - intros H. inv H.
    match goal with H1 : lang (Cls p) _ |- _ => inv H1 end.
    simpl.
    match goal with Hp : p _ = true |- _ => rewrite Hp end.
    simpl. now apply lang_Star_Cls.
  - destruct s as [ | c s]; simpl; intros H; [discriminate H | ].
    apply andb_true_iff in H as [Hc Hs].
    change (String c s) with (String c "" ++ s).
    constructor; [now constructor | now apply lang_Star_Cls].
Qed.

Lemma matches_Plus_Cls (p : ascii -> bool) (s : string) :
  matches (Plus (Cls p)) s = negb (is_empty s) && str_forall p s.
Proof. apply matches_eq, lang_Plus_Cls. Qed.

End Regex.

(* ================================================================== *)
(** * Runs *)

Section Runs.
Context {Ev E : Type}.

Lemma bind_ret {A B : Type} (a : A) (k : A -> run Ev E B) : bind (ret a) k = k a.
Proof. unfold bind, ret. destruct (k a). reflexivity. Qed.

Lemma bind_lift_normal {A B : Type} (a : A) (k : A -> run Ev E B) :
  bind (lift (Normal a)) k = k a.
Proof. apply bind_ret. Qed.

Lemma trace_bind {A B : Type} (m : run Ev E A) (k : A -> run Ev E B) :
  trace_of (bind m k)
  = trace_of m +++ match result_of m with
                   | Normal a => trace_of (k a)
                   | Throw _ => []
                   end.
Proof.
  destruct m as [t [a | e]]; unfold bind, trace_of, result_of; cbn [fst snd].
  - destruct (k a). reflexivity.
  - now rewrite app_nil_r.
Qed.

Lemma result_bind {A B : Type} (m : run Ev E A) (k : A -> run Ev E B) :
  result_of (bind m k)
  = match result_of m with
    | Normal a => result_of (k a)
    | Throw e => Throw e
    end.
Proof.
  destruct m as [t [a | e]]; unfold bind, result_of; cbn [fst snd].
  - destruct (k a). reflexivity.
  - reflexivity.
Qed.

Lemma trace_try_catch {A : Type} (m : run Ev E A) (h : E -> run Ev E A) :
  trace_of (try_catch m h)
  = trace_of m +++ match result_of m with
                   | Normal _ => []
                   | Throw e => trace_of (h e)
                   end.
Proof.
  destruct m as [t [a | e]]; unfold try_catch, trace_of, result_of; cbn [fst snd].
  - now rewrite app_nil_r.
  - destruct (h e). reflexivity.
Qed.

Lemma result_try_catch {A : Type} (m : run Ev E A) (h : E -> run Ev E A) :
  result_of (try_catch m h)
  = match result_of m with
    | Normal a => Normal a
    | Throw e => result_of (h e)
    end.
Proof.
  destruct m as [t [a | e]]; unfold try_catch, result_of; cbn [fst snd].
  - reflexivity.
  - destruct (h e). reflexivity.
Qed.

Lemma run_eta {A : Type} (m : run Ev E A) : m = (trace_of m, result_of m).
Proof. destruct m. reflexivity. Qed.

End Runs.

(* ================================================================== *)
(** * API keys *)

Section ApiKeys.

Lemma is_char_eq (x c : ascii) : is_char x c = true -> c = x.
Proof. unfold is_char. intros H. symmetry. now apply Ascii.eqb_eq. Qed.

Lemma underscore_not_alnum (c : ascii) :
  is_char "_" c = true -> is_alnum c || is_char "-" c = false.
Proof. intros H. apply is_char_eq in H. subst c. reflexivity. Qed.

Lemma white_space_not_key_char (c : ascii) :
  Nuget.is_white_space c = true -> key_char c = false.
Proof. ascii_cases c; intros H; try reflexivity; discriminate H. Qed.

Lemma control_not_key_char (c : ascii) :
  (code c <=? 32)%N = true -> key_char c = false.
Proof. ascii_cases c; intros H; try reflexivity; discriminate H. Qed.

Lemma hex_digit_key_char (c : ascii) :
  hex_digit c = true ->
  key_char c = true /\ is_char "_" c = false /\ is_char "-" c = false.
Proof. ascii_cases c; intros H; try discriminate H; repeat split. Qed.

Lemma str_forall_filter (p q : ascii -> bool) (s : string) :
  str_forall p s = true -> str_forall p (str_filter q s) = true.
Proof.
  induction s as [ | c s IH]; simpl; intros H; [reflexivity | ].
  apply andb_true_iff in H as [Hc Hs].
  destruct (q c); simpl; [rewrite Hc | ]; auto.
Qed.

Lemma str_filter_id (q : ascii -> bool) (s : string) :
  str_forall q s = true -> str_filter q s = s.
Proof.
  induction s as [ | c s IH]; simpl; intros H; [reflexivity | ].
  apply andb_true_iff in H as [Hc Hs]. rewrite Hc, IH; auto.
Qed.

Lemma str_forall_weaken (p q : ascii -> bool) (s : string) :
  (forall c, p c = true -> q c = true) ->
  str_forall p s = true -> str_forall q s = true.
Proof.
  intros Hpq. induction s as [ | c s IH]; simpl; intros H; [reflexivity | ].
  apply andb_true_iff in H as [Hc Hs]. rewrite (Hpq _ Hc), IH; auto.
Qed.

(** The class of the npm pattern is that of the specification less the
    underscore. *)
Lemma npm_class_split (s : string) :
  str_forall (fun c => is_alnum c || is_char "-" c) s
  = str_forall key_char s && str_forall (fun c => negb (is_char "_" c)) s.
Proof.
  induction s as [ | c s IH]; cbn [str_forall]; [reflexivity | ].
  rewrite IH. unfold key_char.
  destruct (is_char "_" c) eqn:Hu.
  - rewrite (underscore_not_alnum _ Hu). cbn [negb andb].
    now rewrite andb_false_r.
  - rewrite orb_false_r. cbn [negb andb].
    destruct (is_alnum c) eqn:Ha; destruct (is_char "-" c) eqn:Hd; cbn [orb andb];
      try reflexivity;
      destruct (str_forall key_char s); reflexivity.
Qed.

Lemma not_lt_32 (n : Z) : negb (n <? 32) = (32 <=? n).
Proof. destruct (Z.ltb_spec n 32), (Z.leb_spec 32 n); simpl; try reflexivity; lia. Qed.

(** The npm constructor, on [{ api_key: key }]. *)
Lemma npm_constructor_accepts (key : string) :
  is_normal (Npm.constructor (Js.Object [("api_key", Js.Str key)]))
  = key_as_specified key && negb (has_underscore key).
Proof.
  remember (key_as_specified key && negb (has_underscore key)) as accepted eqn:Ha.
  unfold Npm.constructor. cbn.
  unfold Npm.apiKeyPattern. rewrite matches_Plus_Cls, npm_class_split.
  subst accepted. unfold key_as_specified, has_underscore.
  destruct (is_empty key); [reflexivity | ]. cbn [negb andb].
  destruct (str_forall key_char key); [ | reflexivity].
  destruct (str_forall (fun c => negb (is_char "_" c)) key) eqn:Hu;
    cbn [negb andb]; [ | now rewrite andb_false_r].
  rewrite andb_true_r.
  assert (Hid : remove_char "_" (remove_char "-" key) = remove_char "-" key).
  { apply str_filter_id, str_forall_filter, Hu. }
  rewrite Hid, <- not_lt_32.
  destruct (str_len (remove_char "-" key) <? 32); reflexivity.
Qed.

(** The Java constructor. *)
Lemma android_constructor_accepts (key : string) :
  is_normal (Android.constructor (Some key)) = key_as_specified key.
Proof.
  unfold Android.constructor, key_as_specified.
  unfold Android.apiKeyPattern. rewrite matches_Plus_Cls. fold key_char.
  destruct (Android.trim_isEmpty key) eqn:Ht.
  - destruct key as [ | c key']; [reflexivity | ].
    unfold Android.trim_isEmpty in Ht. cbn [str_forall] in Ht.
    apply andb_true_iff in Ht as [Hc _].
    cbn [is_normal str_forall is_empty negb andb].
    now rewrite (control_not_key_char _ Hc).
  - destruct (negb (is_empty key) && str_forall key_char key); [ | reflexivity].
    cbn [negb andb]. rewrite <- not_lt_32.
    destruct (str_len (remove_char "_" (remove_char "-" key)) <? 32); reflexivity.
Qed.

(** [$] of .NET: the end of the string, or before a final newline. *)
Lemma lang_Dollar (r : regex) (s : string) :
  lang (Nuget.Dollar r) s <->
  lang r s \/ exists body, s = body ++ String Nuget.newline "" /\ lang r body.
Proof.
  unfold Nuget.Dollar, Opt, Chr. split.
  - intros H. inv H.
    match goal with H2 : lang (Alt _ _) _ |- _ => inv H2 end.
    + match goal with H3 : lang Eps _ |- _ => inv H3 end.
      rewrite append_nil_r. now left.
    + match goal with H3 : lang (Cls _) _ |- _ => inv H3 end.
      match goal with Hc : is_char _ _ = true |- _ => apply is_char_eq in Hc; subst end.
      right. eexists; split; [reflexivity | assumption].
  - intros [H | [body [-> H]]].
    + rewrite <- (append_nil_r s). constructor; [assumption | ].
      apply lang_Alt_l. constructor.
    + constructor; [assumption | ].
      apply lang_Alt_r. constructor. reflexivity.
Qed.

Lemma chomp_single (c : ascii) :
  chomp (String c "") = if is_char "010" c then "" else String c "".
Proof. reflexivity. Qed.

Lemma chomp_cons (c c' : ascii) (s : string) :
  chomp (String c (String c' s)) = String c (chomp (String c' s)).
Proof. reflexivity. Qed.

Lemma chomp_app_newline (body : string) :
  chomp (body ++ String Nuget.newline "") = body.
Proof.
  induction body as [ | c body IH]; [reflexivity | ].
  change (String c body ++ String Nuget.newline "")
    with (String c (body ++ String Nuget.newline "")).
  destruct body as [ | c' body']; [reflexivity | ].
  change (chomp (String c (String c' body' ++ String Nuget.newline "")))
    with (String c (chomp (String c' body' ++ String Nuget.newline ""))).
  now rewrite IH.
Qed.

Lemma chomp_cases (s : string) :
  s = chomp s \/ s = chomp s ++ String Nuget.newline "".
Proof.
  induction s as [ | c s IH]; [now left | ].
  destruct s as [ | c' s'].
  - rewrite chomp_single. destruct (is_char "010" c) eqn:Hc; [ | now left].
    apply is_char_eq in Hc. subst c. now right.
  - rewrite chomp_cons.
    destruct IH as [IH | IH]; [left | right].
    + now rewrite <- IH.
    + change (String c (chomp (String c' s')) ++ String Nuget.newline "")
        with (String c (chomp (String c' s') ++ String Nuget.newline "")).
      now rewrite <- IH.
Qed.

Lemma chomp_key_chars (s : string) :
  str_forall key_char s = true -> chomp s = s.
Proof.
  induction s as [ | c s IH]; [reflexivity | ].
  intros H. cbn [str_forall] in H. apply andb_true_iff in H as [Hc Hs].
  destruct s as [ | c' s'].
  - rewrite chomp_single. destruct (is_char "010" c) eqn:Hn; [ | reflexivity].
    apply is_char_eq in Hn. subst c. discriminate Hc.
  - rewrite chomp_cons. now rewrite IH.
Qed.

Lemma str_forall_chomp (p : ascii -> bool) (s : string) :
  str_forall p s = true -> str_forall p (chomp s) = true.
Proof.
  induction s as [ | c s IH]; [reflexivity | ].
  intros H. cbn [str_forall] in H. apply andb_true_iff in H as [Hc Hs].
  destruct s as [ | c' s'].
  - rewrite chomp_single.
    destruct (is_char "010" c); cbn [str_forall]; [reflexivity | now rewrite Hc].
  - rewrite chomp_cons. cbn [str_forall]. rewrite Hc. now apply IH.
Qed.

Lemma nuget_pattern_matches (key : string) :
  matches Nuget.apiKeyPattern key
  = negb (is_empty (chomp key)) && str_forall key_char (chomp key).
Proof.
  apply matches_eq. unfold Nuget.apiKeyPattern. fold key_char.
  rewrite lang_Dollar. split.
  - intros [H | [body [-> H]]]; apply lang_Plus_Cls in H.
    + assert (Hk : str_forall key_char key = true)
        by (apply andb_true_iff in H; tauto).
      now rewrite (chomp_key_chars _ Hk).
    + now rewrite chomp_app_newline.
  - intros H. apply lang_Plus_Cls in H.
    destruct (chomp_cases key) as [Hc | Hc].
    + left. now rewrite Hc.
    + right. exists (chomp key). split; [exact Hc | exact H].
Qed.

(** The C# constructor: no length is asked for. *)
Lemma nuget_constructor_accepts (key : string) (isSecure isDebug : bool) :
  is_normal (Nuget.new_Client (Some key) isSecure isDebug)
  = negb (is_empty (chomp key)) && str_forall key_char (chomp key).
Proof.
  unfold Nuget.new_Client, Nuget.ValidateApiKey.
  rewrite nuget_pattern_matches.
  destruct (is_empty key || str_forall Nuget.is_white_space key) eqn:Hw.
  - cbn [is_normal]. symmetry.
    assert (Hs : str_forall Nuget.is_white_space key = true)
      by (destruct key; [reflexivity | exact Hw]).
    apply str_forall_chomp in Hs.
    destruct (chomp key) as [ | c1 rest]; [reflexivity | ].
    cbn [str_forall] in Hs. apply andb_true_iff in Hs as [H1 _].
    cbn [str_forall]. now rewrite (white_space_not_key_char _ H1), andb_false_r.
  - destruct (negb (is_empty (chomp key)) && str_forall key_char (chomp key));
      reflexivity.
Qed.

(** A key of 32 hexadecimal digits is one the specification accepts, and it
    has no underscore. *)
Lemma hex32_as_specified (key : string) :
  str_len key = 32 -> str_forall hex_digit key = true ->
  key_as_specified key = true /\ has_underscore key = false
  /\ chomp key = key.
Proof.
  intros Hlen Hhex.
  assert (Hk : str_forall key_char key = true).
  { apply (str_forall_weaken hex_digit); [ | assumption].
    intros c Hc. now apply hex_digit_key_char. }
  assert (Hu : str_forall (fun c => negb (is_char "_" c)) key = true).
  { apply (str_forall_weaken hex_digit); [ | assumption].
    intros c Hc. apply hex_digit_key_char in Hc as (_ & -> & _). reflexivity. }
  assert (Hd : str_forall (fun c => negb (is_char "-" c)) key = true).
  { apply (str_forall_weaken hex_digit); [ | assumption].
    intros c Hc. apply hex_digit_key_char in Hc as (_ & _ & ->). reflexivity. }
  repeat split.
  - unfold key_as_specified. rewrite Hk.
    unfold remove_char at 2. rewrite (str_filter_id _ _ Hd).
    unfold remove_char. rewrite (str_filter_id _ _ Hu), Hlen.
    destruct key; [discriminate Hlen | reflexivity].
  - unfold has_underscore. now rewrite Hu.
  - now apply chomp_key_chars.
Qed.

End ApiKeys.

(** C7 (as amended).  The Java client accepts a key exactly when it matches
    [^[a-zA-Z0-9_-]+$] and keeps at least 32 characters once hyphens and
    underscores are removed.  The npm client accepts it exactly when, in
    addition, it has no underscore.  The C# client accepts it exactly when
    the key, less one final newline, is a non-empty word over
    [[a-zA-Z0-9_-]], whatever its length.  A refused key is an error of the
    constructor, which then yields no client.  The key [abc] is refused as
    too short by the npm and Java clients, and a key of 32 hexadecimal digits
    is accepted by all three. *)
Theorem api_key_acceptance :
  (forall key,
     is_normal (Android.constructor (Some key)) = key_as_specified key)
  /\ (forall key,
        is_normal (Npm.constructor (Js.Object [("api_key", Js.Str key)]))
        = key_as_specified key && negb (has_underscore key))
  /\ (forall key isSecure isDebug,
        is_normal (Nuget.new_Client (Some key) isSecure isDebug)
        = negb (is_empty (chomp key)) && str_forall key_char (chomp key))
  /\ Npm.constructor (Js.Object [("api_key", Js.Str "abc")])
     = Throw (Js.new_Error "Invalid API key. API key appears to be too short. Get your API key at: https://apiverve.com")
  /\ Android.constructor (Some "abc")
     = Throw "Invalid API key. API key appears to be too short"
  /\ (forall key isSecure isDebug,
        str_len key = 32 -> str_forall hex_digit key = true ->
        is_normal (Npm.constructor (Js.Object [("api_key", Js.Str key)])) = true
        /\ is_normal (Android.constructor (Some key)) = true
        /\ is_normal (Nuget.new_Client (Some key) isSecure isDebug) = true).
Proof.
  split; [exact android_constructor_accepts | ].
  split; [exact npm_constructor_accepts | ].
  split; [exact nuget_constructor_accepts | ].
  split; [reflexivity | ].
  split; [reflexivity | ].
  intros key isSecure isDebug Hlen Hhex.
  destruct (hex32_as_specified key Hlen Hhex) as (Hspec & Hu & Hchomp).
  rewrite npm_constructor_accepts, android_constructor_accepts,
    nuget_constructor_accepts, Hspec, Hu, Hchomp.
  unfold key_as_specified in Hspec.
  apply andb_true_iff in Hspec as [Hspec _].
  rewrite Hspec. repeat split.
Qed.

Lemma api_key_acceptance_witness :
  is_normal (Npm.constructor (Js.Object [("api_key", Js.Str hex32)])) = true
  /\ is_normal (Android.constructor (Some hex32)) = true
  /\ is_normal (Nuget.new_Client (Some hex32) true false) = true.
Proof.
  destruct api_key_acceptance as (_ & _ & _ & _ & _ & H).
  apply (H hex32 true false); reflexivity.
Defined.

(** C7 as stated fails: a key with an underscore that meets the stated
    condition is refused by the npm client as badly formatted, and the C#
    client accepts [abc], which does not meet it. *)
Lemma api_key_as_specified_counterexample :
  key_as_specified "apv_0123456789abcdef0123456789abcdef" = true
  /\ Npm.constructor
       (Js.Object [("api_key", Js.Str "apv_0123456789abcdef0123456789abcdef")])
     = Throw (Js.new_Error "Invalid API key format. API key must be alphanumeric and may contain hyphens. Get your API key at: https://apiverve.com")
  /\ key_as_specified "abc" = false
  /\ is_normal (Nuget.new_Client (Some "abc") true false) = true.
Proof. repeat split. Qed.

(* ================================================================== *)
(** * The rule of [zip] *)

Lemma npm_constructor_fields (options : Js.value) (this : Npm.zipdemographicsWrapper) :
  Npm.constructor options = Normal this ->
  Npm.baseURL this = "https://api.apiverve.com/v1/zipdemographics"
  /\ Npm.validationRules this =
     [("zip", {| Npm.type := "string"; Npm.required := true;
                 Npm.min := None; Npm.max := None;
                 Npm.minLength := Some 5; Npm.maxLength := Some 5;
                 Npm.format := None; Npm.enum := None |})].
Proof.
  unfold Npm.constructor. intros H.
  repeat match type of H with
         | (if ?b then _ else _) = _ => destruct b; try discriminate H
         | match ?x with _ => _ end = _ => destruct x; try discriminate H
         end.
  all: injection H as <-; split; reflexivity.
Qed.

(** C8.  For a client the constructor built, [zip = 9021] is refused with
    exactly the violation "must be at least 5 characters", [zip = 90210]
    passes with no violation, and [zip = 902100] is refused with exactly the
    violation "must be at most 5 characters". *)
Theorem zip_length_rule {rt : Js.Runtime} (options : Js.value)
    (this : Npm.zipdemographicsWrapper) :
  Npm.constructor options = Normal this ->
  (Npm.validate_loop (Npm.validationRules this) (Js.Object [("zip", Js.Str "9021")]) []
   = Normal ["Parameter [zip] must be at least 5 characters."]
   /\ Npm.validateParams this (Js.Object [("zip", Js.Str "9021")])
      = Throw (Js.new_Error "Validation failed: Parameter [zip] must be at least 5 characters. See documentation: https://docs.apiverve.com/ref/zipdemographics"))
  /\ (Npm.validate_loop (Npm.validationRules this) (Js.Object [("zip", Js.Str "90210")]) []
      = Normal []
      /\ Npm.validateParams this (Js.Object [("zip", Js.Str "90210")]) = Normal tt)
  /\ (Npm.validate_loop (Npm.validationRules this) (Js.Object [("zip", Js.Str "902100")]) []
      = Normal ["Parameter [zip] must be at most 5 characters."]
      /\ Npm.validateParams this (Js.Object [("zip", Js.Str "902100")])
         = Throw (Js.new_Error "Validation failed: Parameter [zip] must be at most 5 characters. See documentation: https://docs.apiverve.com/ref/zipdemographics")).
Proof.
  intros H. apply npm_constructor_fields in H as [_ Hrules].
  unfold Npm.validateParams. rewrite Hrules.
  repeat split.
Qed.

Lemma sample_this_constructed :
  Npm.constructor (Js.Object [("api_key", Js.Str hex32)]) = Normal sample_this.
Proof. reflexivity. Qed.

Lemma sample_client_constructed :
  Nuget.new_Client (Some hex32) true false = Normal sample_client.
Proof. reflexivity. Qed.

Lemma zip_length_rule_witness :
  Npm.validateParams (rt := rt_any) sample_this (zip_query "9021")
  = Throw (Js.new_Error "Validation failed: Parameter [zip] must be at least 5 characters. See documentation: https://docs.apiverve.com/ref/zipdemographics")
  /\ Npm.validateParams (rt := rt_any) sample_this (zip_query "90210") = Normal tt
  /\ Npm.validateParams (rt := rt_any) sample_this (zip_query "902100")
     = Throw (Js.new_Error "Validation failed: Parameter [zip] must be at most 5 characters. See documentation: https://docs.apiverve.com/ref/zipdemographics").
Proof.
  destruct (@zip_length_rule rt_any (Js.Object [("api_key", Js.Str hex32)]) sample_this
              sample_this_constructed) as ((_ & Hshort) & (_ & Hgood) & (_ & Hlong)).
  split; [exact Hshort | split; [exact Hgood | exact Hlong]].
Defined.

(* ================================================================== *)
(** * Query strings *)

Lemma decode_encoded_char (c : ascii) (rest : string) :
  decodeURIComponent
    ((if Js.uri_unescaped c then String c EmptyString else Js.utf8_escapes c) ++ rest)
  = option_map (String c) (decodeURIComponent rest).
Proof. ascii_cases c; reflexivity. Qed.

(** Decoding undoes the encoding of [encodeURIComponent], on every string. *)
Lemma decode_encode_string (s : string) :
  decodeURIComponent (Js.encode_string s) = Some s.
Proof.
  induction s as [ | c s IH]; [reflexivity | ].
  cbn [Js.encode_string]. rewrite decode_encoded_char, IH. reflexivity.
Qed.

Lemma encoded_has_no_separator (s : string) :
  str_forall (fun c => negb (is_char "&" c || is_char "=" c)) (Js.encode_string s) = true.
Proof.
  induction s as [ | c s IH]; [reflexivity | ].
  cbn [Js.encode_string].
  assert (Hc : forall rest,
             str_forall (fun c => negb (is_char "&" c || is_char "=" c)) rest = true ->
             str_forall (fun c => negb (is_char "&" c || is_char "=" c))
               ((if Js.uri_unescaped c then String c EmptyString else Js.utf8_escapes c)
                  ++ rest) = true).
  { intros rest Hrest. ascii_cases c; exact Hrest. }
  now apply Hc.
Qed.

Lemma split_all_whole (x : ascii) (s : string) :
  str_forall (fun c => negb (is_char x c)) s = true -> split_all x s = [s].
Proof.
  induction s as [ | c s IH]; [reflexivity | ].
  cbn [str_forall split_all]. intros H. apply andb_true_iff in H as [Hc Hs].
  apply negb_true_iff in Hc. rewrite Hc, (IH Hs). reflexivity.
Qed.

(** Whatever the value of [zip], the URL built for [{zip: value}] reads back
    as that bag. *)
Lemma zip_query_round_trip_any {rt : Js.Runtime} (options : Js.value)
    (this : Npm.zipdemographicsWrapper) (value : string) :
  Npm.constructor options = Normal this ->
  parse_query (Npm.constructURL this (Js.Object [("zip", Js.Str value)]))
  = Some [("zip", value)].
Proof.
  intros H. apply npm_constructor_fields in H as [Hbase _].
  unfold Npm.constructURL. rewrite Hbase.
  cbn [Js.truthy Js.typeof String.eqb Ascii.eqb Bool.eqb andb Js.keys Js.entries map fst
       List.length Nat.ltb Nat.leb join].
  unfold Js.get. cbn [Js.entries assoc String.eqb Ascii.eqb Bool.eqb].
  unfold Js.encodeURIComponent. cbn [Js.ToString].
  change (Js.encode_string "zip") with "zip".
  unfold parse_query. cbn [append split_first is_char Ascii.eqb Bool.eqb is_empty].
  assert (Hsep := encoded_has_no_separator value).
  assert (Hamp : str_forall (fun c => negb (is_char "&" c)) (Js.encode_string value) = true).
  { revert Hsep. apply str_forall_weaken. intros c Hc.
    apply negb_true_iff, orb_false_iff in Hc as [-> _]. reflexivity. }
  rewrite (@split_all_whole "&"
             (String "z" (String "i" (String "p" (String "=" (Js.encode_string value)))))).
  2: { cbn [append str_forall is_char Ascii.eqb Bool.eqb negb andb]. exact Hamp. }
  cbn [map append split_first is_char Ascii.eqb Bool.eqb sequence].
  change (decodeURIComponent "zip") with (Some "zip").
  now rewrite decode_encode_string.
Qed.

(** C9.  The URL built for [{zip: 90210}] reads back as exactly
    [{zip: 90210}]: its query string is [zip=90210], and decoding it gives
    the one pair of the bag. *)
Theorem zip_query_round_trip {rt : Js.Runtime} (options : Js.value)
    (this : Npm.zipdemographicsWrapper) :
  Npm.constructor options = Normal this ->
  Npm.constructURL this (Js.Object [("zip", Js.Str "90210")])
  = "https://api.apiverve.com/v1/zipdemographics?zip=90210"
  /\ parse_query (Npm.constructURL this (Js.Object [("zip", Js.Str "90210")]))
     = Some [("zip", "90210")]
  /\ decodeURIComponent (Js.encodeURIComponent (Js.Str "zip")) = Some "zip"
  /\ decodeURIComponent (Js.encodeURIComponent (Js.Str "90210")) = Some "90210".
Proof.
  intros H. apply npm_constructor_fields in H as [Hbase _].
  unfold Npm.constructURL. rewrite Hbase.
  repeat split; apply decode_encode_string.
Qed.

Lemma zip_query_round_trip_witness :
  parse_query (Npm.constructURL (rt := rt_any) sample_this (zip_query "90210"))
  = Some [("zip", "90210")].
Proof.
  destruct (@zip_query_round_trip rt_any (Js.Object [("api_key", Js.Str hex32)])
              sample_this sample_this_constructed) as (_ & Hparse & _).
  exact Hparse.
Defined.

(* ================================================================== *)
(** * The validator *)

Section Validator.

Lemma message_inv (p x y : string) :
  "Parameter [" ++ p ++ x = "Parameter [" ++ p ++ y -> x = y.
Proof.
  intros H. cbn [append] in H. injection H as H.
  now apply append_inv_head in H.
Qed.

(** No message of a type check is the message of the enum check. *)
Ltac other_message H :=
  first [ discriminate H
        | apply message_inv in H; discriminate H ].

Ltac not_enum_message :=
  cbn [app push_if In]; intros H;
  repeat match type of H with
         | _ \/ _ => destruct H as [H | H]
         end;
  first [ exact H | other_message H ].

Lemma in_app_single (E : string) (pushed : list string) (b : bool) :
  ~ In E pushed ->
  (In E (pushed +++ push_if b E) <-> b = true).
Proof.
  intros Hn. rewrite in_app_iff. destruct b; cbn [push_if In]; split.
  - reflexivity.
  - intros _. right. now left.
  - intros [H | []]. contradiction.
  - discriminate.
Qed.

Context {rt : Js.Runtime}.

Lemma inherited_is_no_format (f : string) :
  Js.inherited_from_Object f = true ->
  is_empty f = false /\ assoc f Npm.formatPatterns = None.
Proof.
  unfold Js.inherited_from_Object. cbn [existsb].
  repeat match goal with
         | |- (String.eqb f ?k || _) = true -> _ =>
             destruct (String.eqb_spec f k) as [-> | _];
             [intros _; split; reflexivity | cbn [orb]]
         end.
  discriminate.
Qed.

(** What [Npm.check_param] does of a present value: it throws when the
    format lookup does; otherwise it pushes the messages of the type check,
    none of which is the message of the enum check, and after them, unless
    the type check stopped the iteration, the outcome of the enum check. *)
Lemma npm_check_param_shape (p : string) (r : Npm.Rules) (allowed : list Js.value)
    (v : Js.value) :
  Npm.enum r = Some allowed ->
  js_present v = true ->
  if js_format_lookup_throws r v
  then Npm.check_param p r v = Throw js_not_a_function
  else exists pushed,
         ~ In (js_enum_violation p allowed) pushed
         /\ Npm.check_param p r v
            = Normal (if js_type_check_stops r v then pushed
                      else pushed +++ push_if (negb (Js.includes allowed v))
                                        (js_enum_violation p allowed)).
Proof.
  intros He Hp. unfold js_present in Hp. apply negb_true_iff in Hp.
  apply orb_false_iff in Hp as [Hp Hs]. apply orb_false_iff in Hp as [Hu Hn].
  unfold Npm.check_param, js_type_check_stops, js_format_lookup_throws.
  rewrite He, Hu, Hn, Hs.
  rewrite !orb_false_r, andb_false_r. cbn [orb].
  fold (js_enum_violation p allowed).
  destruct (String.eqb (Npm.type r) "integer" || String.eqb (Npm.type r) "number");
    cbn [negb andb].
  - destruct (Js.isNaN (Js.ToNumber v)); cbn [orb].
    + eexists; split; [ | reflexivity]. not_enum_message.
    + destruct (String.eqb (Npm.type r) "integer" && negb (Js.isInteger (Js.ToNumber v))).
      * eexists; split; [ | reflexivity]. not_enum_message.
      * eexists; split; [ | reflexivity].
        destruct (Npm.min r) as [lo | ], (Npm.max r) as [hi | ];
          try destruct (PrimFloat.ltb (Js.ToNumber v) lo);
          try destruct (PrimFloat.ltb hi (Js.ToNumber v));
          not_enum_message.
  - destruct (String.eqb (Npm.type r) "string"); cbn [andb].
    + destruct v; cbn [Js.is_string negb andb];
        try (eexists; split; [ | reflexivity]; not_enum_message).
      destruct (Npm.format r) as [f | ].
      * destruct (Js.inherited_from_Object f) eqn:Hf.
        { destruct (inherited_is_no_format f Hf) as [-> ->]. reflexivity. }
        destruct (is_empty f);
          [ | destruct (assoc f Npm.formatPatterns) as [pattern | ]];
          (eexists; split; [ | reflexivity]);
          destruct (Npm.minLength r) as [lo | ], (Npm.maxLength r) as [hi | ];
          try destruct (str_len s <? lo);
          try destruct (hi <? str_len s);
          try destruct (negb (matches pattern s));
          not_enum_message.
      * eexists; split; [ | reflexivity].
        destruct (Npm.minLength r) as [lo | ], (Npm.maxLength r) as [hi | ];
          try destruct (str_len s <? lo);
          try destruct (hi <? str_len s);
          not_enum_message.
    + destruct (String.eqb (Npm.type r) "boolean").
      * eexists; split; [ | reflexivity].
        destruct (negb (Js.is_boolean v) && negb (Js.strict_eq_str v "true")
                  && negb (Js.strict_eq_str v "false"));
          not_enum_message.
      * destruct (String.eqb (Npm.type r) "array").
        -- eexists; split; [ | reflexivity].
           destruct (negb (Js.isArray v)); not_enum_message.
        -- exists []. split; [intros [] | reflexivity].
Qed.

(** Where the format lookup does not throw, the iteration completes. *)
Lemma npm_check_param_total (p : string) (r : Npm.Rules) (v : Js.value) :
  js_format_lookup_throws r v = false ->
  exists pushed, Npm.check_param p r v = Normal pushed.
Proof.
  unfold js_format_lookup_throws, Npm.check_param.
  destruct (Npm.required r
            && (Js.is_undefined v || Js.is_null v || Js.strict_eq_str v ""));
    [intros _; eexists; reflexivity | ].
  destruct (Js.is_undefined v || Js.is_null v); [intros _; eexists; reflexivity | ].
  destruct (String.eqb (Npm.type r) "integer" || String.eqb (Npm.type r) "number");
    cbn [negb andb].
  - intros _.
    destruct (Js.isNaN (Js.ToNumber v)); [eexists; reflexivity | ].
    destruct (String.eqb (Npm.type r) "integer" && negb (Js.isInteger (Js.ToNumber v)));
      eexists; reflexivity.
  - destruct (String.eqb (Npm.type r) "string"); cbn [andb].
    + destruct v; cbn [Js.is_string andb]; try (intros _; eexists; reflexivity).
      destruct (Npm.format r) as [f | ]; [ | intros _; eexists; reflexivity].
      intros ->.
      destruct (is_empty f); [eexists; reflexivity | ].
      destruct (assoc f Npm.formatPatterns); eexists; reflexivity.
    + intros _.
      destruct (String.eqb (Npm.type r) "boolean"); [eexists; reflexivity | ].
      destruct (String.eqb (Npm.type r) "array"); eexists; reflexivity.
Qed.

Context {net_rt : Nuget.Runtime}.

Lemma nuget_check_param_shape (p : string) (rule : Nuget.ValidationRule)
    (allowed : list string) (v : Nuget.object) :
  Nuget.EnumValues rule = Some allowed ->
  allowed <> [] ->
  cs_present (Some v) = true ->
  exists added,
    ~ In (cs_enum_violation p allowed) added
    /\ Nuget.check_param p rule (Some v)
       = if cs_type_check_stops rule v then added
         else added +++
              push_if (negb (existsb (fun enumVal => String.eqb enumVal (Nuget.ToString v)) allowed))
                (cs_enum_violation p allowed).
Proof.
  intros He Hne Hp.
  assert (Hlen : (0 <? List.length allowed)%nat = true)
    by (destruct allowed; [contradiction | reflexivity]).
  assert (Hreq : (Nuget.Required rule
                  && match v with Nuget.OString s => is_empty s | _ => false end) = false).
  { destruct v; try apply andb_false_r.
    cbn [cs_present] in Hp. apply negb_true_iff in Hp. rewrite Hp. apply andb_false_r. }
  unfold Nuget.check_param, cs_type_check_stops. rewrite He, Hreq, Hlen.
  fold (cs_enum_violation p allowed).
  destruct (String.eqb (Nuget.Type_ rule) "integer" || String.eqb (Nuget.Type_ rule) "number").
  - assert (Hnum : forall numValue : float,
               ~ In (cs_enum_violation p allowed)
                   (match Nuget.Min rule with
                    | Some m =>
                        push_if (PrimFloat.ltb numValue m)
                          ("Parameter [" ++ p ++ "] must be at least " ++ Nuget.double_ToString m)
                    | None => []
                    end +++
                    match Nuget.Max rule with
                    | Some m =>
                        push_if (PrimFloat.ltb m numValue)
                          ("Parameter [" ++ p ++ "] must be at most " ++ Nuget.double_ToString m)
                    | None => []
                    end)).
    { intros numValue.
      destruct (Nuget.Min rule) as [lo | ], (Nuget.Max rule) as [hi | ];
        try destruct (PrimFloat.ltb numValue lo);
        try destruct (PrimFloat.ltb hi numValue);
        not_enum_message. }
    destruct v; try (eexists; split; [apply Hnum | reflexivity]).
    all: match goal with
         | |- context [Nuget.double_TryParse ?x] => destruct (Nuget.double_TryParse x)
         end.
    all: try (eexists; split; [apply Hnum | reflexivity]).
    all: eexists; split; [ | reflexivity]; not_enum_message.
  - destruct (String.eqb (Nuget.Type_ rule) "string"), v;
      try (exists []; split; [intros [] | reflexivity]).
    eexists; split; [ | reflexivity].
    destruct (Nuget.MinLength rule) as [lo | ], (Nuget.MaxLength rule) as [hi | ],
      (Nuget.Format rule) as [f | ];
      try destruct (str_len s <? lo);
      try destruct (hi <? str_len s);
      try destruct (is_empty f);
      try destruct (assoc f Nuget._formatPatterns) as [pattern | ];
      try destruct (negb (matches pattern s));
      not_enum_message.
Qed.

(** C5 (as amended).  For a rule with an enum that is not empty and a
    present value, the validator reaches the enum check unless the type
    check ended the iteration: in the npm client a number that does not
    parse or is not whole, or a value that is not a string under a string
    rule; in the C# client a number that does not parse.  When it is
    reached, the npm client reports a violation exactly when the value
    itself is none of the allowed values ([includes], with no conversion to
    a string), and the C# client exactly when the string form of the value
    is none of them.  In the npm client this is so for a value that converts
    to a string and allowed values that are primitives; and the check is
    not reached either, the validator throwing a TypeError, when a string
    rule names a format that [formatPatterns] inherits and the value is a
    string. *)
Theorem enum_check_applies :
  (forall p r allowed v,
     Npm.enum r = Some allowed ->
     js_present v = true ->
     Js.converts v = true ->
     forallb Js.is_primitive allowed = true ->
     if js_format_lookup_throws r v
     then Npm.check_param p r v = Throw js_not_a_function
     else exists pushed,
            Npm.check_param p r v = Normal pushed
            /\ (In (js_enum_violation p allowed) pushed
                <-> js_type_check_stops r v = false /\ Js.includes allowed v = false))
  /\ (forall p rule allowed v,
        Nuget.EnumValues rule = Some allowed ->
        allowed <> [] ->
        cs_present (Some v) = true ->
        (In (cs_enum_violation p allowed) (Nuget.check_param p rule (Some v))
         <-> cs_type_check_stops rule v = false
             /\ existsb (fun enumVal => String.eqb enumVal (Nuget.ToString v)) allowed
                = false)).
Proof.
  split.
  - intros p r allowed v He Hp _ _.
    pose proof (@npm_check_param_shape p r allowed v He Hp) as Hshape.
    destruct (js_format_lookup_throws r v); [exact Hshape | ].
    destruct Hshape as (pushed & Hn & ->).
    eexists. split; [reflexivity | ].
    destruct (js_type_check_stops r v).
    + split; [contradiction | intros [H _]; discriminate H].
    + rewrite (@in_app_single _ _ _ Hn), negb_true_iff. tauto.
  - intros p rule allowed v He Hne Hp.
    destruct (@nuget_check_param_shape p rule allowed v He Hne Hp) as (added & Hn & ->).
    destruct (cs_type_check_stops rule v).
    + split; [contradiction | intros [H _]; discriminate H].
    + rewrite (@in_app_single _ _ _ Hn), negb_true_iff. tauto.
Qed.

(** C6 (as amended).  A rule that is not required is skipped, with no check
    and no violation, whenever the value the validator reads is undefined or
    null: that is what it reads for a parameter the query has with such a
    value, for one the query neither has nor inherits, and in the C# client
    for a value that is [null].  An empty string is not skipped: a string
    rule with a positive minimum length reports it as too short, unless, in
    the npm client, the format lookup of the rule throws first. *)
Theorem optional_rule_skipped :
  (forall p r v,
     Npm.required r = false ->
     v = Js.Undefined \/ v = Js.Null ->
     Npm.check_param p r v = Normal [])
  /\ (forall p r properties v rest errors,
        Npm.required r = false ->
        assoc p properties = Some v ->
        v = Js.Undefined \/ v = Js.Null ->
        Npm.validate_loop ((p, r) :: rest) (Js.Object properties) errors
        = Npm.validate_loop rest (Js.Object properties) errors)
  /\ (forall p r properties rest errors,
        Npm.required r = false ->
        Js.inherited_from_Object p = false ->
        assoc p properties = None ->
        Npm.validate_loop ((p, r) :: rest) (Js.Object properties) errors
        = Npm.validate_loop rest (Js.Object properties) errors)
  /\ (forall p rule,
        Nuget.Required rule = false ->
        Nuget.check_param p rule None = [])
  /\ (forall p r n,
        Npm.required r = false ->
        Npm.type r = "string" -> Npm.minLength r = Some n -> 0 < n ->
        if js_format_lookup_throws r (Js.Str "")
        then Npm.check_param p r (Js.Str "") = Throw js_not_a_function
        else exists pushed,
               Npm.check_param p r (Js.Str "") = Normal pushed
               /\ In ("Parameter [" ++ p ++ "] must be at least " ++ string_of_Z n
                      ++ " characters.") pushed)
  /\ (forall p rule n,
        Nuget.Required rule = false ->
        Nuget.Type_ rule = "string" -> Nuget.MinLength rule = Some n -> 0 < n ->
        In ("Parameter [" ++ p ++ "] must be at least " ++ string_of_Z n ++ " characters")
           (Nuget.check_param p rule (Some (Nuget.OString "")))).
Proof.
  assert (Hskip : forall p r v,
             Npm.required r = false -> v = Js.Undefined \/ v = Js.Null ->
             Npm.check_param p r v = Normal []).
  { intros p r v Hr [-> | ->]; unfold Npm.check_param; rewrite Hr; reflexivity. }
  split; [exact Hskip | split; [ | split; [ | split; [ | split]]]].
  - intros p r properties v rest errors Hr Hp Hv.
    cbn [Npm.validate_loop]. unfold Js.get. cbn [Js.entries]. rewrite Hp.
    rewrite (Hskip p r v Hr Hv).
    now rewrite app_nil_r.
  - intros p r properties rest errors Hr _ Hp.
    cbn [Npm.validate_loop]. unfold Js.get. cbn [Js.entries]. rewrite Hp.
    rewrite (Hskip p r Js.Undefined Hr (or_introl eq_refl)).
    now rewrite app_nil_r.
  - intros p rule Hr. unfold Nuget.check_param. now rewrite Hr.
  - intros p r n Hr Ht Hm Hn.
    unfold js_format_lookup_throws, Npm.check_param. rewrite Hr, Ht, Hm.
    cbn [andb negb Js.is_string Js.is_undefined Js.is_null orb String.eqb Ascii.eqb
         Bool.eqb].
    change (str_len "") with 0.
    destruct (Z.ltb_spec 0 n); [ | lia].
    destruct (Npm.format r) as [f | ].
    + destruct (Js.inherited_from_Object f) eqn:Hf.
      * destruct (inherited_is_no_format f Hf) as [-> ->]. reflexivity.
      * destruct (is_empty f);
          [ | destruct (assoc f Npm.formatPatterns) as [pattern | ]];
          (eexists; split; [reflexivity | ]);
          repeat (apply in_or_app; left); now left.
    + eexists; split; [reflexivity | ].
      repeat (apply in_or_app; left); now left.
  - intros p rule n Hr Ht Hm Hn. unfold Nuget.check_param. rewrite Hr, Ht, Hm.
    cbn [andb orb String.eqb Ascii.eqb Bool.eqb].
    change (str_len "") with 0.
    destruct (Z.ltb_spec 0 n); [ | lia].
    apply in_or_app. left. now left.
Qed.

End Validator.

Lemma enum_check_applies_witness :
  (exists pushed,
      Npm.check_param (rt := rt_any) "state" state_rule (Js.Str "TX") = Normal pushed
      /\ In (js_enum_violation (rt := rt_any) "state" [Js.Str "CA"; Js.Str "NY"]) pushed)
  /\ Npm.check_param (rt := rt_any) "state" inherited_format_rule (Js.Str "TX")
     = Throw js_not_a_function
  /\ In (cs_enum_violation "state" ["CA"; "NY"])
        (Nuget.check_param (rt := cs_rt_any) "state" cs_state_rule (Some (Nuget.OString "TX"))).
Proof.
  destruct (@enum_check_applies rt_any cs_rt_any) as [Hjs Hcs].
  split; [ | split].
  - destruct (Hjs "state" state_rule [Js.Str "CA"; Js.Str "NY"] (Js.Str "TX")
                eq_refl eq_refl eq_refl eq_refl) as (pushed & Hpushed & Hin).
    exists pushed. split; [exact Hpushed | ].
    apply Hin. split; reflexivity.
  - exact (Hjs "state" inherited_format_rule [Js.Str "CA"; Js.Str "NY"] (Js.Str "TX")
             eq_refl eq_refl eq_refl eq_refl).
  - apply (Hcs "state" cs_state_rule ["CA"; "NY"] (Nuget.OString "TX"));
      [reflexivity | discriminate | reflexivity | split; reflexivity].
Defined.

(** C5 as stated fails in the npm client.  Under a string rule the value
    [true] gets the violation of the type check only: the enum check is not
    applied, although the string form of [true] is not among the allowed
    values.  And under a boolean rule that allows the strings [true] and
    [false], the boolean [true] is reported, although its string form is
    among them. *)
Lemma enum_check_counterexample :
  Npm.check_param (rt := rt_any) "state" state_rule (Js.Boolean true)
  = Normal ["Parameter [state] must be a string."]
  /\ existsb (String.eqb (Js.ToString (rt := rt_any) (Js.Boolean true))) ["CA"; "NY"] = false
  /\ Npm.check_param (rt := rt_any) "flag" flag_rule (Js.Boolean true)
     = Normal ["Parameter [flag] must be one of: true, false."]
  /\ existsb (String.eqb (Js.ToString (rt := rt_any) (Js.Boolean true))) ["true"; "false"] = true.
Proof. repeat split. Qed.

Lemma optional_rule_skipped_witness :
  Npm.check_param (rt := rt_any) "state" state_rule Js.Undefined = Normal []
  /\ Npm.validate_loop (rt := rt_any) [("state", state_rule)]
       (Js.Object [("state", Js.Null)]) []
     = Normal []
  /\ Npm.validate_loop (rt := rt_any) [("state", state_rule)] (Js.Object []) []
     = Normal []
  /\ Nuget.check_param (rt := cs_rt_any) "state" cs_state_rule None = []
  /\ (exists pushed,
         Npm.check_param (rt := rt_any) "state" state_rule (Js.Str "") = Normal pushed
         /\ In "Parameter [state] must be at least 2 characters." pushed)
  /\ In "Parameter [state] must be at least 2 characters"
        (Nuget.check_param (rt := cs_rt_any) "state" cs_state_rule
           (Some (Nuget.OString ""))).
Proof.
  destruct (@optional_rule_skipped rt_any cs_rt_any) as (Hv & Hg & Hm & Hcs & He & Hce).
  split; [ | split; [ | split; [ | split; [ | split]]]].
  - apply (Hv "state" state_rule Js.Undefined); [reflexivity | now left].
  - rewrite (Hg "state" state_rule [("state", Js.Null)] Js.Null [] []);
      [reflexivity | reflexivity | reflexivity | now right].
  - rewrite (Hm "state" state_rule [] [] []); reflexivity.
  - apply (Hcs "state" cs_state_rule). reflexivity.
  - exact (He "state" state_rule 2 eq_refl eq_refl eq_refl eq_refl).
  - exact (Hce "state" cs_state_rule 2 eq_refl eq_refl eq_refl eq_refl).
Defined.

(** C6 as stated fails: under a rule that is not required, an empty string
    is not skipped but checked, in both clients. *)
Lemma optional_rule_counterexample :
  Npm.required state_rule = false
  /\ Npm.check_param (rt := rt_any) "state" state_rule (Js.Str "")
     = Normal ["Parameter [state] must be at least 2 characters.";
               "Parameter [state] must be one of: CA, NY."]
  /\ Nuget.Required cs_state_rule = false
  /\ Nuget.check_param (rt := cs_rt_any) "state" cs_state_rule (Some (Nuget.OString ""))
     = ["Parameter [state] must be at least 2 characters";
        "Parameter [state] must be one of: CA, NY"].
Proof. repeat split. Qed.

(* ================================================================== *)
(** * [execute] of the npm client *)

Section NpmExecute.
Context {rt : Js.Runtime}.
Variable this : Npm.zipdemographicsWrapper.
Variable axios : Npm.AxiosConfig -> Npm.settled.

(** Nothing is requested unless the arguments are accepted and the
    validator passes. *)
Lemma npm_execute_rejected_arguments (args : list Npm.arg) (e : Js.value) :
  Npm.arguments args = Throw e ->
  Npm.execute this axios args = ([], Throw e).
Proof. intros H. unfold Npm.execute. now rewrite H. Qed.

Lemma npm_execute_invalid (args : list Npm.arg) (query : Js.value)
    (callback : Npm.arg) (e : Js.value) :
  Npm.arguments args = Normal (query, callback) ->
  Npm.validateParams this query = Throw e ->
  Npm.execute this axios args = ([], Throw e).
Proof.
  intros Ha Hv. unfold Npm.execute. rewrite Ha. cbn [lift bind]. now rewrite Hv.
Qed.

Ltac npm_enter Ha Hv query :=
  unfold Npm.execute; rewrite Ha; cbn [lift bind]; rewrite Hv;
  unfold Npm.await_axios;
  match goal with
  | |- context [axios ?config] => change config with (npm_request this query)
  end.

Ltac npm_step :=
  cbv beta iota zeta fix
    delta [try_catch bind emit ret lift throw Npm.call app];
  cbn [Npm.arg_truthy].

(** A fulfilled request, without and with a callback. *)
Lemma npm_execute_fulfilled (args : list Npm.arg) (query : Js.value)
    (callback : Npm.arg) (response data : Js.value) :
  Npm.arguments args = Normal (query, callback) ->
  Npm.validateParams this query = Normal tt ->
  axios (npm_request this query) = Npm.Fulfilled response ->
  Js.get response "data" = Normal data ->
  Npm.arg_truthy callback = false ->
  Npm.execute this axios args
  = ([Npm.Requested (npm_request this query)], Normal data).
Proof.
  intros Ha Hv Hx Hd Hc. npm_enter Ha Hv query. rewrite Hx. npm_step.
  rewrite Hd. npm_step. rewrite Hc. reflexivity.
Qed.

Lemma npm_execute_fulfilled_callback (args : list Npm.arg) (query : Js.value)
    (f : Npm.function) (response data returned : Js.value) :
  Npm.arguments args = Normal (query, Npm.Fun f) ->
  Npm.validateParams this query = Normal tt ->
  axios (npm_request this query) = Npm.Fulfilled response ->
  Js.get response "data" = Normal data ->
  Npm.apply f Js.Null data = Normal returned ->
  Npm.execute this axios args
  = ([Npm.Requested (npm_request this query); Npm.Called Js.Null data], Normal data).
Proof.
  intros Ha Hv Hx Hd Hf. npm_enter Ha Hv query. rewrite Hx. npm_step.
  rewrite Hd. npm_step. rewrite Hf. reflexivity.
Qed.

(** A rejected request, without and with a callback. *)
Lemma npm_execute_rejected (args : list Npm.arg) (query : Js.value)
    (callback : Npm.arg) (error apiError : Js.value) :
  Npm.arguments args = Normal (query, callback) ->
  Npm.validateParams this query = Normal tt ->
  axios (npm_request this query) = Npm.Rejected error ->
  Npm.api_error error = Normal apiError ->
  Npm.arg_truthy callback = false ->
  Npm.execute this axios args
  = ([Npm.Requested (npm_request this query)], Throw apiError).
Proof.
  intros Ha Hv Hx He Hc. npm_enter Ha Hv query. rewrite Hx. npm_step.
  rewrite He. npm_step. rewrite Hc. reflexivity.
Qed.

Lemma npm_execute_rejected_callback (args : list Npm.arg) (query : Js.value)
    (f : Npm.function) (error apiError returned : Js.value) :
  Npm.arguments args = Normal (query, Npm.Fun f) ->
  Npm.validateParams this query = Normal tt ->
  axios (npm_request this query) = Npm.Rejected error ->
  Npm.api_error error = Normal apiError ->
  Npm.apply f apiError Js.Null = Normal returned ->
  Npm.execute this axios args
  = ([Npm.Requested (npm_request this query); Npm.Called apiError Js.Null],
     Normal Js.Undefined).
Proof.
  intros Ha Hv Hx He Hf. npm_enter Ha Hv query. rewrite Hx. npm_step.
  rewrite He. npm_step. rewrite Hf. reflexivity.
Qed.

(** The same with a callback that may throw. *)
Lemma npm_execute_rejected_told (args : list Npm.arg) (query : Js.value)
    (f : Npm.function) (error apiError : Js.value) :
  Npm.arguments args = Normal (query, Npm.Fun f) ->
  Npm.validateParams this query = Normal tt ->
  axios (npm_request this query) = Npm.Rejected error ->
  Npm.api_error error = Normal apiError ->
  Npm.execute this axios args
  = ([Npm.Requested (npm_request this query); Npm.Called apiError Js.Null],
     after_callback (Npm.apply f apiError Js.Null)).
Proof.
  intros Ha Hv Hx He. npm_enter Ha Hv query. rewrite Hx. npm_step.
  rewrite He. npm_step. destruct (Npm.apply f apiError Js.Null); reflexivity.
Qed.


Lemma await_axios_run (config : Npm.AxiosConfig) :
  Npm.await_axios axios config
  = ([Npm.Requested config],
     match axios config with
     | Npm.Fulfilled response => Normal response
     | Npm.Rejected reason => Throw reason
     end).
Proof. unfold Npm.await_axios. destruct (axios config); reflexivity. Qed.

Lemma npm_call_requests (callback : Npm.arg) (a b : Js.value) :
  js_requests (trace_of (Npm.call callback a b)) = [].
Proof.
  destruct callback as [v | f]; [reflexivity | ].
  unfold Npm.call. rewrite !trace_bind. cbn [emit trace_of result_of fst snd].
  destruct (Npm.apply f a b); reflexivity.
Qed.

Lemma js_requests_app (t1 t2 : list Npm.event) :
  js_requests (t1 +++ t2) = js_requests t1 +++ js_requests t2.
Proof. apply filter_app. Qed.

(** Whatever happens, a request is made only after the arguments were
    accepted and the validator passed, and no more than one is made. *)
Lemma npm_execute_requests (args : list Npm.arg) :
  js_requests (trace_of (Npm.execute this axios args)) = []
  \/ exists query callback,
       Npm.arguments args = Normal (query, callback)
       /\ Npm.validateParams this query = Normal tt
       /\ js_requests (trace_of (Npm.execute this axios args))
          = [Npm.Requested (npm_request this query)].
Proof.
  destruct (Npm.arguments args) as [[query callback] | e] eqn:Ha.
  2: { left. now rewrite (npm_execute_rejected_arguments _ Ha). }
  destruct (Npm.validateParams this query) as [[] | e] eqn:Hv.
  2: { left. now rewrite (npm_execute_invalid _ Ha Hv). }
  right. exists query, callback.
  split; [reflexivity | split; [exact Hv | ]].
  unfold Npm.execute. rewrite Ha, bind_lift_normal, Hv, bind_lift_normal.
  match goal with
  | |- context [Npm.await_axios axios ?config] =>
      change config with (npm_request this query)
  end.
  rewrite trace_try_catch, js_requests_app, trace_bind, js_requests_app.
  rewrite await_axios_run. cbn [trace_of result_of fst snd].
  assert (Hcatch : forall error,
             js_requests
               (trace_of
                  (bind (lift (Npm.api_error error))
                     (fun apiError =>
                        if Npm.arg_truthy callback
                        then bind (Npm.call callback apiError Js.Null)
                               (fun _ => ret Js.Undefined)
                        else throw apiError))) = []).
  { intros error. rewrite trace_bind. cbn [lift trace_of result_of fst snd app].
    destruct (Npm.api_error error) as [apiError | e]; [ | reflexivity].
    destruct (Npm.arg_truthy callback); [ | reflexivity].
    rewrite trace_bind, js_requests_app, npm_call_requests.
    destruct (result_of (Npm.call callback apiError Js.Null)); reflexivity. }
  rewrite result_bind. cbn [result_of snd].
  destruct (axios (npm_request this query)) as [response | error].
  - rewrite trace_bind, js_requests_app, result_bind.
    cbn [lift trace_of result_of fst snd].
    destruct (Js.get response "data") as [data | thrown].
    + rewrite trace_bind, js_requests_app, result_bind.
      assert (Hc : js_requests
                     (trace_of (if Npm.arg_truthy callback
                                then Npm.call callback Js.Null data
                                else ret tt)) = []).
      { destruct (Npm.arg_truthy callback);
          [apply npm_call_requests | reflexivity]. }
      rewrite Hc.
      destruct (result_of (if Npm.arg_truthy callback
                           then Npm.call callback Js.Null data
                           else ret tt)) as [[] | thrown].
      * reflexivity.
      * cbn [app]. rewrite Hcatch. reflexivity.
    + cbn [app]. rewrite Hcatch. reflexivity.
  - cbn [app]. rewrite Hcatch. reflexivity.
Qed.

End NpmExecute.

(* ================================================================== *)
(** * The retry loop of the C# client *)

Section NugetExecute.
Context {rt : Nuget.Runtime}.
Variable c : Nuget.Client.
Variable net : Nuget.Network.
Variable options : option Nuget.QueryOptions.

Lemma pace_app (t1 t2 : list Nuget.event) : pace (t1 +++ t2) = pace t1 +++ pace t2.
Proof. apply filter_app. Qed.

Lemma Log_run (message : string) :
  pace (trace_of (Nuget.Log c message)) = []
  /\ result_of (Nuget.Log c message) = Normal tt.
Proof.
  unfold Nuget.Log. destruct (Nuget._logger c); [now split | ].
  destruct (Nuget._isDebug c); now split.
Qed.

Lemma pace_Log (message : string) : pace (trace_of (Nuget.Log c message)) = [].
Proof. apply Log_run. Qed.

Lemma result_Log (message : string) : result_of (Nuget.Log c message) = Normal tt.
Proof. apply Log_run. Qed.

(** A request is always sent, and the attempt ends as the request does. *)
Lemma ExecuteRequestAsync_run (attempt : Z) :
  pace (trace_of (Nuget.ExecuteRequestAsync c net attempt options)) = [Nuget.Sent (cs_request c options)]
  /\ result_of (Nuget.ExecuteRequestAsync c net attempt options)
     = cs_outcome net attempt (cs_request c options).
Proof.
  unfold Nuget.ExecuteRequestAsync.
  change (String.eqb Nuget._method "POST") with false. cbv iota zeta.
  rewrite trace_try_catch, result_try_catch.
  rewrite !trace_bind, !result_bind, !result_Log.
  unfold Nuget.SendAsync. rewrite !trace_bind, !result_bind.
  cbn [emit trace_of result_of fst snd].
  fold (cs_request c options). unfold cs_outcome.
  rewrite !pace_app, !pace_Log.
  destruct (Nuget.send net attempt (cs_request c options)) as [status body | ex].
  - cbn [ret trace_of result_of fst snd].
    rewrite !trace_bind, !result_bind, !pace_app, result_Log, pace_Log.
    destruct (is_empty body).
    + cbn [throw trace_of result_of fst snd].
      rewrite !trace_bind, !result_bind, !pace_app, result_Log, pace_Log.
      split; reflexivity.
    + cbn [lift trace_of result_of fst snd].
      destruct (Nuget.DeserializeObject body) as [response | ex].
      * split; reflexivity.
      * rewrite !trace_bind, !result_bind, !pace_app, result_Log, pace_Log.
        split; reflexivity.
  - cbn [throw trace_of result_of fst snd].
    rewrite !trace_bind, !result_bind, !pace_app, result_Log, pace_Log.
    split; reflexivity.
Qed.

(** One pass through the [try] block. *)
Lemma cs_tried_run (attempt : Z) :
  pace (trace_of (cs_tried c net options attempt))
  = (if 0 <? attempt then [Nuget.Delayed (Nuget._retryDelayMs c)] else [])
      +++ (if cs_cancelled net attempt then [] else [Nuget.Sent (cs_request c options)])
  /\ result_of (cs_tried c net options attempt)
     = if cs_cancelled net attempt
       then Throw (Nuget.TaskCanceledException "A task was canceled.")
       else cs_outcome net attempt (cs_request c options).
Proof.
  unfold cs_tried, cs_cancelled.
  rewrite trace_bind, result_bind, pace_app.
  destruct (ExecuteRequestAsync_run attempt) as [Ht Hr].
  destruct (0 <? attempt).
  - rewrite trace_bind, result_bind, pace_app, pace_Log, result_Log.
    unfold Nuget.Task_Delay. rewrite trace_bind, result_bind.
    cbn [emit trace_of result_of fst snd andb].
    destruct (Nuget.cancelled_in_delay net attempt).
    + split; reflexivity.
    + cbn [ret trace_of result_of fst snd]. rewrite Ht, Hr. split; reflexivity.
  - cbn [ret trace_of result_of fst snd andb app]. rewrite Ht, Hr. split; reflexivity.
Qed.

(** The loop, one iteration unfolded. *)
Lemma loop_unfold (fuel : nat) (attempt : Z) (lastException : option Nuget.Exception) :
  Nuget.ExecuteAsync_loop c net options (S fuel) attempt lastException
  = if attempt <=? (Nuget._maxRetries c) then
      match cs_tried c net options attempt with
      | (t, Normal response) => Some (t, Normal response)
      | (t, Throw ex) =>
          if Nuget.is_OperationCanceledException ex then Some (t, Throw ex)
          else if (Nuget._maxRetries c) <? attempt + 1 then
            Some (bind (t, Normal tt)
                    (fun _ =>
                       bind (Nuget.Log c ("Request failed after " ++ string_of_Z (Nuget._maxRetries c)
                                            ++ " retries: " ++ Nuget.Message ex))
                         (fun _ => throw ex)))
          else if negb (Nuget.IsTransientError ex) then
            Some (bind (t, Normal tt)
                    (fun _ =>
                       bind (Nuget.Log c ("Non-transient error encountered, not retrying: "
                                            ++ Nuget.Message ex))
                         (fun _ => throw ex)))
          else
            option_map (fun rest => bind (t, Normal tt) (fun _ => rest))
              (Nuget.ExecuteAsync_loop c net options fuel (attempt + 1) (Some ex))
      end
    else
      Some (throw (match lastException with
                   | Some ex => ex
                   | None => Nuget.HttpRequestException "Request failed"
                   end)).
Proof. reflexivity. Qed.

Lemma loop_stops (fuel : nat) (attempt : Z) (lastException : option Nuget.Exception) :
  (Nuget._maxRetries c) < attempt ->
  Nuget.ExecuteAsync_loop c net options fuel attempt lastException
  = Some (throw (match lastException with
                 | Some ex => ex
                 | None => Nuget.HttpRequestException "Request failed"
                 end)).
Proof.
  intros H. destruct fuel; cbn [Nuget.ExecuteAsync_loop];
    destruct (Z.leb_spec attempt (Nuget._maxRetries c)); try lia; reflexivity.
Qed.

(** The attempt succeeds: its response is returned. *)
Lemma loop_returns (fuel : nat) (attempt : Z) (lastException : option Nuget.Exception)
    (response : option Nuget.ResponseObj) :
  attempt <= (Nuget._maxRetries c) ->
  result_of (cs_tried c net options attempt) = Normal response ->
  Nuget.ExecuteAsync_loop c net options (S fuel) attempt lastException
  = Some (trace_of (cs_tried c net options attempt), Normal response).
Proof.
  intros Ha Hr. rewrite loop_unfold.
  destruct (Z.leb_spec attempt (Nuget._maxRetries c)); [ | lia].
  destruct (cs_tried c net options attempt) as [t [r | ex]];
    cbn [result_of trace_of fst snd] in *; [ | discriminate Hr].
  now injection Hr as ->.
Qed.

(** The attempt fails and is not retried: what it threw is thrown, after
    at most a log line. *)
Lemma loop_gives_up (fuel : nat) (attempt : Z) (lastException : option Nuget.Exception)
    (ex : Nuget.Exception) :
  attempt <= (Nuget._maxRetries c) ->
  result_of (cs_tried c net options attempt) = Throw ex ->
  retried ex = false \/ (Nuget._maxRetries c) < attempt + 1 ->
  exists t,
    Nuget.ExecuteAsync_loop c net options (S fuel) attempt lastException
    = Some (t, Throw ex)
    /\ pace t = pace (trace_of (cs_tried c net options attempt)).
Proof.
  intros Ha Hr Hstop. rewrite loop_unfold.
  destruct (Z.leb_spec attempt (Nuget._maxRetries c)); [ | lia].
  destruct (cs_tried c net options attempt) as [t [r | ex']];
    cbn [result_of trace_of fst snd] in *; [discriminate Hr | ].
  injection Hr as ->.
  assert (Hlog : forall message,
             exists t',
               bind (t, Normal tt)
                 (fun _ => bind (Nuget.Log c message) (fun _ => throw ex))
               = ((t', Throw ex)
                  : run Nuget.event Nuget.Exception (option Nuget.ResponseObj))
               /\ pace t' = pace t).
  { intros message.
    set (m := bind (t, Normal tt)
                (fun _ => bind (Nuget.Log c message) (fun _ => throw ex))
              : run Nuget.event Nuget.Exception (option Nuget.ResponseObj)).
    exists (trace_of m). split.
    - rewrite (run_eta m) at 1. f_equal. unfold m.
      rewrite result_bind. cbn [result_of snd].
      rewrite result_bind, result_Log. reflexivity.
    - unfold m. rewrite trace_bind. cbn [trace_of result_of fst snd].
      rewrite trace_bind, result_Log, !pace_app, pace_Log.
      cbn [throw trace_of fst]. now rewrite !app_nil_r. }
  destruct (Nuget.is_OperationCanceledException ex) eqn:Hc.
  { exists t. split; reflexivity. }
  assert (Hsome : forall message,
             exists t',
               Some (bind (t, Normal tt)
                       (fun _ => bind (Nuget.Log c message) (fun _ => throw ex)))
               = Some ((t', Throw ex)
                       : run Nuget.event Nuget.Exception (option Nuget.ResponseObj))
               /\ pace t' = pace t).
  { intros message. destruct (Hlog message) as (t' & -> & Hp). now exists t'. }
  destruct (Z.ltb_spec (Nuget._maxRetries c) (attempt + 1)); [apply Hsome | ].
  destruct Hstop as [Hstop | Hstop]; [ | lia].
  unfold retried in Hstop. rewrite Hc in Hstop. cbn [negb andb] in Hstop.
  rewrite Hstop. cbn [negb]. apply Hsome.
Qed.

(** The attempt fails and is retried. *)
Lemma loop_retries (fuel : nat) (attempt : Z) (lastException : option Nuget.Exception)
    (ex : Nuget.Exception) :
  attempt + 1 <= (Nuget._maxRetries c) ->
  result_of (cs_tried c net options attempt) = Throw ex ->
  retried ex = true ->
  Nuget.ExecuteAsync_loop c net options (S fuel) attempt lastException
  = option_map
      (fun rest => (trace_of (cs_tried c net options attempt) +++ trace_of rest,
                    result_of rest))
      (Nuget.ExecuteAsync_loop c net options fuel (attempt + 1) (Some ex)).
Proof.
  intros Ha Hr Hx. rewrite loop_unfold.
  destruct (Z.leb_spec attempt (Nuget._maxRetries c)); [ | lia].
  destruct (cs_tried c net options attempt) as [t [r | ex']];
    cbn [result_of trace_of fst snd] in *; [discriminate Hr | ].
  injection Hr as ->.
  unfold retried in Hx. apply andb_true_iff in Hx as [Hc Ht].
  apply negb_true_iff in Hc. rewrite Hc, Ht.
  destruct (Z.ltb_spec (Nuget._maxRetries c) (attempt + 1)); [lia | ].
  cbn [negb].
  destruct (Nuget.ExecuteAsync_loop c net options fuel (attempt + 1) (Some ex))
    as [[t' r'] | ]; reflexivity.
Qed.

(** Enough fuel: the loop always ends. *)
Lemma loop_total (fuel : nat) :
  forall (attempt : Z) (lastException : option Nuget.Exception),
    (Z.to_nat (Nuget._maxRetries c + 1 - attempt) <= fuel)%nat ->
    exists r, Nuget.ExecuteAsync_loop c net options fuel attempt lastException = Some r.
Proof.
  induction fuel as [ | fuel IH]; intros attempt lastException Hfuel.
  - rewrite loop_stops by lia. eauto.
  - destruct (Z_le_gt_dec attempt (Nuget._maxRetries c)) as [Ha | Ha].
    2: { rewrite loop_stops by lia. eauto. }
    destruct (result_of (cs_tried c net options attempt)) as [response | ex] eqn:Hr.
    + rewrite (@loop_returns fuel attempt lastException response Ha Hr). eauto.
    + destruct (retried ex) eqn:Hx.
      * destruct (Z_le_gt_dec (attempt + 1) (Nuget._maxRetries c)) as [Hn | Hn].
        -- rewrite (@loop_retries fuel attempt lastException ex Hn Hr Hx).
           destruct (IH (attempt + 1) (Some ex)) as [r ->]; [lia | ].
           cbn [option_map]. eauto.
        -- destruct (@loop_gives_up fuel attempt lastException ex Ha Hr) as (t & -> & _);
             [right; lia | eauto].
      * destruct (@loop_gives_up fuel attempt lastException ex Ha Hr) as (t & -> & _);
          [now left | eauto].
Qed.

Lemma ExecuteAsync_total :
  exists r, Nuget.ExecuteAsync c net options = Some r.
Proof. apply loop_total. rewrite Z.sub_0_r. apply Nat.le_refl. Qed.

Lemma paced_one_attempt (attempt : Z) :
  paced_from c options attempt
    ((if 0 <? attempt then [Nuget.Delayed (Nuget._retryDelayMs c)] else [])
       +++ (if cs_cancelled net attempt then [] else [Nuget.Sent (cs_request c options)])).
Proof.
  unfold paced_from, cs_cancelled. destruct (0 <? attempt); cbn [andb app].
  - destruct (Nuget.cancelled_in_delay net attempt); cbn [retries_paced app];
      rewrite Z.eqb_refl; split; [reflexivity | discriminate | reflexivity | discriminate].
  - eexists. split; reflexivity.
Qed.

Lemma loop_paced (fuel : nat) :
  forall (attempt : Z) (lastException : option Nuget.Exception) r,
    0 <= attempt <= Nuget._maxRetries c ->
    Nuget.ExecuteAsync_loop c net options fuel attempt lastException = Some r ->
    paced_from c options attempt (pace (trace_of r)).
Proof.
  induction fuel as [ | fuel IH]; intros attempt lastException r Ha Hr.
  - cbn [Nuget.ExecuteAsync_loop] in Hr.
    destruct (Z.leb_spec attempt (Nuget._maxRetries c)); [discriminate Hr | lia].
  - destruct (cs_tried_run attempt) as [Hpace Hres].
    assert (Hone := paced_one_attempt attempt). rewrite <- Hpace in Hone.
    destruct (result_of (cs_tried c net options attempt)) as [response | ex] eqn:Htried.
    { rewrite (@loop_returns fuel attempt lastException response) in Hr by tauto.
      injection Hr as <-. exact Hone. }
    destruct (retried ex) eqn:Hx.
    2: { destruct (@loop_gives_up fuel attempt lastException ex) as (t & Ht & Hp);
           [tauto | assumption | now left | ].
         rewrite Ht in Hr. injection Hr as <-. cbn [trace_of fst]. now rewrite Hp. }
    destruct (Z_le_gt_dec (attempt + 1) (Nuget._maxRetries c)) as [Hn | Hn].
    2: { destruct (@loop_gives_up fuel attempt lastException ex) as (t & Ht & Hp);
           [tauto | assumption | right; lia | ].
         rewrite Ht in Hr. injection Hr as <-. cbn [trace_of fst]. now rewrite Hp. }
    rewrite (@loop_retries fuel attempt lastException ex Hn Htried Hx) in Hr.
    destruct (Nuget.ExecuteAsync_loop c net options fuel (attempt + 1) (Some ex))
      as [rest | ] eqn:Hrest; [ | discriminate Hr].
    cbn [option_map] in Hr. injection Hr as <-.
    cbn [trace_of fst]. rewrite pace_app.
    apply IH in Hrest; [ | lia].
    unfold paced_from in Hrest.
    destruct (Z.ltb_spec 0 (attempt + 1)) as [_ | ]; [ | lia].
    destruct Hrest as [Hrest Hne].
    (* the attempt was not cancelled: what it threw was retried *)
    assert (Hnc : cs_cancelled net attempt = false).
    { destruct (cs_cancelled net attempt); [ | reflexivity].
      injection Hres as ->. discriminate Hx. }
    rewrite Hpace, Hnc. unfold paced_from.
    destruct (0 <? attempt); cbn [app].
    + split; [ | discriminate].
      cbn [retries_paced]. now rewrite Z.eqb_refl.
    + eexists. split; [reflexivity | exact Hrest].
Qed.

End NugetExecute.

(* ================================================================== *)
(** * Validation before the network *)

Section ValidationFirst.
Context {rt : Nuget.Runtime}.

(** [Execute] validates before it does anything else, in both variants. *)
Lemma Execute_validates_first (c : Nuget.Client) (net : Nuget.Network)
    (options : option Nuget.QueryOptions) (ex : Nuget.Exception) :
  Nuget.ValidateParams options = Throw ex ->
  Nuget.Execute c net options = Some ([], Throw ex)
  /\ Nuget.Execute_legacy c net options = Some ([], Throw ex).
Proof.
  intros H. unfold Nuget.Execute, Nuget.Execute_legacy. rewrite H. split; reflexivity.
Qed.

(** C1, where the code departs from it.  [ExecuteAsync] does not run the
    validator: for [Zip = 9021], which [ValidateParams] refuses and
    [Execute] therefore never sends, [ExecuteAsync] sends the request. *)
Theorem ExecuteAsync_sends_unvalidated :
  Nuget.ValidateParams (zip_options "9021")
  = Throw (Nuget.ValidationException ["Parameter [zip] must be at least 5 characters"])
  /\ Nuget.Execute sample_client (answering 200 "{}") (zip_options "9021")
     = Some ([], Throw (Nuget.ValidationException
                          ["Parameter [zip] must be at least 5 characters"]))
  /\ exists r,
       Nuget.ExecuteAsync sample_client (answering 200 "{}") (zip_options "9021") = Some r
       /\ trace_of r
          = [Nuget.Sent
               {| Nuget.Method := "GET";
                  Nuget.RequestUri := "https://api.apiverve.com/v1/zipdemographics?zip=9021";
                  Nuget.Headers := [("x-api-key", hex32); ("auth-mode", "nuget");
                                    ("Accept", "application/json")];
                  Nuget.Content := None |}].
Proof.
  split; [reflexivity | split; [reflexivity | ]].
  cbv.
  match goal with
  | |- context [match ?deserialized with Normal _ => _ | Throw _ => _ end] =>
      destruct deserialized as [response | ex]
  end.
  - eexists; split; reflexivity.
  - destruct ex; eexists; split; reflexivity.
Qed.

(** C2, where the code departs from it.  With one retry allowed, an empty
    body is retried by [ExecuteAsync]: it sleeps and sends the request again.
    The legacy variant does not: there the same answer ends the call. *)
Theorem empty_response_is_retried :
  Nuget.ExecuteAsync (Nuget.SetMaxRetries sample_client 1) (answering 200 "")
    (zip_options "90210")
  = Some ([Nuget.Sent (cs_request sample_client (zip_options "90210"));
           Nuget.Delayed 1000;
           Nuget.Sent (cs_request sample_client (zip_options "90210"))],
          Throw (Nuget.HttpRequestException "No response from the server"))
  /\ exists request,
       Nuget.ExecuteWithWebRequest (Nuget.SetMaxRetries sample_client 1) (answering 200 "")
         (zip_options "90210")
       = Some ([Nuget.Sent request],
               Throw (Nuget.PlainException "No response from the server")).
Proof. split; [reflexivity | eexists; reflexivity]. Qed.

End ValidationFirst.

(* ================================================================== *)
(** * Sleeps and retries *)

Section RetryPacing.
Context {rt : Nuget.Runtime}.

Lemma well_paced_from_start (c : Nuget.Client) (options : option Nuget.QueryOptions)
    (t : list Nuget.event) :
  paced_from c options 0 (pace t) -> well_paced (Nuget._retryDelayMs c) t = true.
Proof.
  unfold paced_from, well_paced. cbn [Z.ltb Z.compare].
  intros (more & -> & H). exact H.
Qed.

(** Three attempts: two that fail and are retried, one that answers. *)
Lemma third_attempt_answers (c : Nuget.Client) (net : Nuget.Network)
    (options : option Nuget.QueryOptions) (ex0 ex1 : Nuget.Exception)
    (response : option Nuget.ResponseObj) :
  2 <= Nuget._maxRetries c ->
  cs_outcome net 0 (cs_request c options) = Throw ex0 -> retried ex0 = true ->
  cs_outcome net 1 (cs_request c options) = Throw ex1 -> retried ex1 = true ->
  cs_outcome net 2 (cs_request c options) = Normal response ->
  Nuget.cancelled_in_delay net 1 = false ->
  Nuget.cancelled_in_delay net 2 = false ->
  exists t,
    Nuget.ExecuteAsync c net options = Some (t, Normal response)
    /\ pace t = [Nuget.Sent (cs_request c options);
                 Nuget.Delayed (Nuget._retryDelayMs c);
                 Nuget.Sent (cs_request c options);
                 Nuget.Delayed (Nuget._retryDelayMs c);
                 Nuget.Sent (cs_request c options)].
Proof.
  intros Hmax H0 Hx0 H1 Hx1 H2 Hc1 Hc2.
  destruct (cs_tried_run c net options 0) as [Hp0 Hr0].
  destruct (cs_tried_run c net options 1) as [Hp1 Hr1].
  destruct (cs_tried_run c net options 2) as [Hp2 Hr2].
  unfold cs_cancelled in *. rewrite Hc1 in *. rewrite Hc2 in *.
  cbn [Z.ltb Z.compare Pos.compare Pos.compare_cont andb app] in *.
  rewrite H0 in Hr0. rewrite H1 in Hr1. rewrite H2 in Hr2.
  unfold Nuget.ExecuteAsync.
  destruct (Z.to_nat (Nuget._maxRetries c + 1)) as [ | [ | [ | fuel]]] eqn:Hfuel; try lia.
  rewrite (@loop_retries _ c net options _ 0 None ex0) by (assumption || lia).
  change (0 + 1) with 1.
  rewrite (@loop_retries _ c net options _ 1 (Some ex0) ex1) by (assumption || lia).
  change (1 + 1) with 2.
  rewrite (@loop_returns _ c net options _ 2 (Some ex1) response) by (assumption || lia).
  cbn [option_map trace_of result_of fst snd].
  eexists. split; [reflexivity | ].
  rewrite !pace_app, Hp0, Hp1, Hp2. reflexivity.
Qed.

(** A first attempt that fails for good. *)
Lemma first_attempt_fails (c : Nuget.Client) (net : Nuget.Network)
    (options : option Nuget.QueryOptions) (ex : Nuget.Exception) :
  0 <= Nuget._maxRetries c ->
  cs_outcome net 0 (cs_request c options) = Throw ex ->
  Nuget.IsTransientError ex = false ->
  exists t,
    Nuget.ExecuteAsync c net options = Some (t, Throw ex)
    /\ pace t = [Nuget.Sent (cs_request c options)].
Proof.
  intros Hmax H0 Hx.
  destruct (cs_tried_run c net options 0) as [Hp0 Hr0].
  unfold cs_cancelled in *. cbn [Z.ltb Z.compare andb app] in *.
  rewrite H0 in Hr0.
  unfold Nuget.ExecuteAsync.
  destruct (Z.to_nat (Nuget._maxRetries c + 1)) as [ | fuel] eqn:Hfuel; try lia.
  destruct (@loop_gives_up _ c net options fuel 0 None ex) as (t & Ht & Hp);
    [lia | assumption | left; unfold retried; rewrite Hx; apply andb_false_r | ].
  exists t. split; [exact Ht | now rewrite Hp].
Qed.

(** A first attempt that answers. *)
Lemma first_attempt_answers (c : Nuget.Client) (net : Nuget.Network)
    (options : option Nuget.QueryOptions) (response : option Nuget.ResponseObj) :
  0 <= Nuget._maxRetries c ->
  cs_outcome net 0 (cs_request c options) = Normal response ->
  exists t,
    Nuget.ExecuteAsync c net options = Some (t, Normal response)
    /\ pace t = [Nuget.Sent (cs_request c options)].
Proof.
  intros Hmax H0.
  destruct (cs_tried_run c net options 0) as [Hp0 Hr0].
  unfold cs_cancelled in *. cbn [Z.ltb Z.compare andb app] in *.
  rewrite H0 in Hr0.
  unfold Nuget.ExecuteAsync.
  destruct (Z.to_nat (Nuget._maxRetries c + 1)) as [ | fuel] eqn:Hfuel; try lia.
  rewrite (@loop_returns _ c net options fuel 0 None response) by (assumption || lia).
  eexists. split; [reflexivity | exact Hp0].
Qed.

(** The pacing of the loop.  Whatever the settings of [SetMaxRetries] and
    [SetRetryDelay], [ExecuteAsync] ends, and in its trace the first request
    has no sleep before it and every further request comes right after
    exactly one sleep of the delay that was set.  With at least two retries
    allowed (three are), two failures that the loop retries followed by an
    answer return that answer, after request, sleep, request, sleep,
    request.  And a first failure that is not transient is thrown after the
    one request, with no sleep at all. *)
Theorem retry_pacing (base : Nuget.Client) (maxRetries retryDelay : Z)
    (net : Nuget.Network) (options : option Nuget.QueryOptions) :
  let c := Nuget.SetRetryDelay (Nuget.SetMaxRetries base maxRetries) retryDelay in
  let request := cs_request c options in
  let delay := Z.max 0 retryDelay in
  (exists t r,
     Nuget.ExecuteAsync c net options = Some (t, r)
     /\ well_paced delay t = true)
  /\ (forall ex0 ex1 response,
        2 <= maxRetries ->
        cs_outcome net 0 request = Throw ex0 -> retried ex0 = true ->
        cs_outcome net 1 request = Throw ex1 -> retried ex1 = true ->
        cs_outcome net 2 request = Normal response ->
        Nuget.cancelled_in_delay net 1 = false ->
        Nuget.cancelled_in_delay net 2 = false ->
        exists t,
          Nuget.ExecuteAsync c net options = Some (t, Normal response)
          /\ pace t = [Nuget.Sent request; Nuget.Delayed delay; Nuget.Sent request;
                       Nuget.Delayed delay; Nuget.Sent request])
  /\ (forall ex,
        cs_outcome net 0 request = Throw ex ->
        Nuget.IsTransientError ex = false ->
        exists t,
          Nuget.ExecuteAsync c net options = Some (t, Throw ex)
          /\ pace t = [Nuget.Sent request]).
Proof.
  intros c request delay.
  assert (Hmax : Nuget._maxRetries c = Z.max 0 (Z.min 3 maxRetries)) by reflexivity.
  assert (Hdelay : Nuget._retryDelayMs c = delay) by reflexivity.
  split; [ | split].
  - destruct (ExecuteAsync_total c net options) as [[t r] Hrun].
    exists t, r. split; [exact Hrun | ].
    rewrite <- Hdelay. apply (@well_paced_from_start c options).
    apply (@loop_paced _ c net options (Z.to_nat (Nuget._maxRetries c + 1)) 0 None (t, r));
      [lia | exact Hrun].
  - intros ex0 ex1 response Hm H0 Hx0 H1 Hx1 H2 Hc1 Hc2.
    rewrite <- Hdelay.
    apply (@third_attempt_answers c net options ex0 ex1 response); try assumption.
    lia.
  - intros ex H0 Hx.
    apply (@first_attempt_fails c net options ex); try assumption. lia.
Qed.

End RetryPacing.

Lemma retry_pacing_witness :
  (exists t,
     Nuget.ExecuteAsync (rt := cs_rt_any)
       (Nuget.SetRetryDelay (Nuget.SetMaxRetries sample_client 3) 250)
       flaky (zip_options "90210")
     = Some (t, Normal (Some {| Nuget.Status := Some "ok"; Nuget.Error := None;
                                Nuget.Data := Some "{}" |}))
     /\ sleeps t = 2%nat /\ requests t = 3%nat)
  /\ (exists t,
        Nuget.ExecuteAsync (rt := cs_rt_any)
          (Nuget.SetRetryDelay (Nuget.SetMaxRetries sample_client 3) 250)
          refusing (zip_options "90210")
        = Some (t, Throw (Nuget.ArgumentException "Invalid URI"))
        /\ sleeps t = 0%nat /\ requests t = 1%nat).
Proof.
  split.
  - destruct (@retry_pacing cs_rt_any sample_client 3 250 flaky (zip_options "90210"))
      as (_ & Hscenario & _).
    destruct (Hscenario (Nuget.HttpRequestException "Connection refused")
                (Nuget.HttpRequestException "Connection refused")
                (Some {| Nuget.Status := Some "ok"; Nuget.Error := None;
                         Nuget.Data := Some "{}" |}))
      as (t & Hrun & Hpace); try reflexivity; [lia | ].
    exists t. split; [exact Hrun | ].
    vm_compute in Hrun. injection Hrun as <-. split; reflexivity.
  - destruct (@retry_pacing cs_rt_any sample_client 3 250 refusing (zip_options "90210"))
      as (_ & _ & Hpermanent).
    destruct (Hpermanent (Nuget.ArgumentException "Invalid URI")) as (t & Hrun & Hpace);
      try reflexivity.
    exists t. split; [exact Hrun | ].
    vm_compute in Hrun. injection Hrun as <-. split; reflexivity.
Defined.

(** C4, where the code departs from it.  A timeout is a failure that the
    specification, and [IsTransientError], call transient.  With three
    retries allowed, let the first two attempts time out and the server be
    ready to answer the third: [ExecuteAsync] makes one request and rethrows
    the [TaskCanceledException], with no sleep and no retry, because its
    [catch (OperationCanceledException)] comes first.  Two connection
    failures in the same places are retried as specified: request, sleep,
    request, sleep, request, and the envelope. *)
Theorem timeout_is_not_retried {rt : Nuget.Runtime} :
  Nuget.IsTransientError (Nuget.TaskCanceledException "A task was canceled.") = true
  /\ Nuget.ExecuteAsync (Nuget.SetMaxRetries sample_client 3) slow_start
       (zip_options "90210")
     = Some ([Nuget.Sent (cs_request sample_client (zip_options "90210"))],
             Throw (Nuget.TaskCanceledException "A task was canceled."))
  /\ Nuget.ExecuteAsync (rt := cs_rt_any) (Nuget.SetMaxRetries sample_client 3) flaky
       (zip_options "90210")
     = Some ([Nuget.Sent (cs_request sample_client (zip_options "90210"));
              Nuget.Delayed 1000;
              Nuget.Sent (cs_request sample_client (zip_options "90210"));
              Nuget.Delayed 1000;
              Nuget.Sent (cs_request sample_client (zip_options "90210"))],
             Normal (Some {| Nuget.Status := Some "ok"; Nuget.Error := None;
                             Nuget.Data := Some "{}" |})).
Proof. split; [reflexivity | split; reflexivity]. Qed.

(* ================================================================== *)
(** * Responses and callbacks *)

Section Responses.
Context {js : Js.Runtime} {cs : Nuget.Runtime} {java : Android.Runtime}.

Lemma get_total (v : Js.value) (k : string) :
  Js.is_undefined v = false -> Js.is_null v = false ->
  exists x, Js.get v k = Normal x.
Proof.
  intros Hu Hn. destruct v; try discriminate; unfold Js.get.
  - destruct (assoc k (Js.entries (Js.Boolean b))); eauto.
  - destruct (assoc k (Js.entries (Js.Number n))); eauto.
  - destruct (assoc k (Js.entries (Js.Str s))); eauto.
    destruct (String.eqb k "length"); eauto.
  - destruct (assoc k (Js.entries (Js.Array elements))); eauto.
    destruct (String.eqb k "length"); eauto.
  - destruct (assoc k (Js.entries (Js.Object properties))); eauto.
  - destruct (assoc k (Js.entries (Js.Error name message properties))); eauto.
    destruct (String.eqb k "message"); eauto.
Qed.


(** What axios makes of a response. *)
Lemma axios_settle_response (status : Z) (body : Js.value) :
  (200 <= status < 300 ->
   exists response,
     Npm.axios_settle (Npm.Responded status body) = Npm.Fulfilled response
     /\ Js.get response "data" = Normal body)
  /\ (~ 200 <= status < 300 -> Js.truthy body = true ->
      exists error,
        Npm.axios_settle (Npm.Responded status body) = Npm.Rejected error
        /\ Npm.api_error error = Normal body).
Proof.
  unfold Npm.axios_settle. split.
  - intros H.
    destruct (Z.leb_spec 200 status); [ | lia].
    destruct (Z.ltb_spec status 300); [ | lia].
    eexists. split; reflexivity.
  - intros H Hb.
    assert (Hs : (200 <=? status) && (status <? 300) = false).
    { destruct (Z.leb_spec 200 status), (Z.ltb_spec status 300); try reflexivity; lia. }
    rewrite Hs. eexists. split; [reflexivity | ].
    unfold Npm.api_error. cbn. now rewrite Hb.
Qed.

(** A response that axios refuses, and the error object the [catch] block
    finds for it. *)
Lemma axios_settle_refused (status : Z) (body : Js.value) :
  (200 <=? status) && (status <? 300) = false ->
  exists error,
    Npm.axios_settle (Npm.Responded status body) = Npm.Rejected error
    /\ Npm.api_error error
       = Normal (if Js.truthy body then body else js_status_error status).
Proof.
  intros Hs. unfold Npm.axios_settle. rewrite Hs.
  eexists. split; [reflexivity | ].
  unfold Npm.api_error. cbn. destruct (Js.truthy body); reflexivity.
Qed.

(** C3 (as amended).  What the caller gets of a response that was received
    depends on the client.  The npm client, once the URL is built, makes
    its one request; called without a callback it returns the body for a
    status from 200 to 299 only, and for any other status throws an error
    object: the body when it is truthy, else an object made of the message
    of axios; called with a callback function it hands that error object
    to the callback, and resolves to [undefined] when the callback returns.
    The C# client returns the deserialized envelope of a body that is not
    empty, whatever the status, after its one request and with no sleep.
    The Java client returns for the status 200 only; for any other status
    [execute] throws an [APIException] made of a message and its cause, not
    of the status code; the message is [Network error: HTTP error], the
    status and the error body, or, when the response has no error body,
    [Network error: Failed to process response: null]. *)
Theorem received_response_outcome :
  (forall options this axios args query callback status body,
     Npm.constructor options = Normal this ->
     Npm.arguments args = Normal (query, callback) ->
     Npm.arg_truthy callback = false ->
     Npm.validateParams this query = Normal tt ->
     url_is_built query = true ->
     axios (npm_request this query) = Npm.axios_settle (Npm.Responded status body) ->
     Npm.execute this axios args
     = ([Npm.Requested (npm_request this query)],
        if (200 <=? status) && (status <? 300) then Normal body
        else Throw (if Js.truthy body then body else js_status_error status)))
  /\ (forall options this axios args query f status body,
        Npm.constructor options = Normal this ->
        Npm.arguments args = Normal (query, Npm.Fun f) ->
        Npm.validateParams this query = Normal tt ->
        url_is_built query = true ->
        axios (npm_request this query) = Npm.axios_settle (Npm.Responded status body) ->
        (200 <=? status) && (status <? 300) = false ->
        Npm.execute this axios args
        = ([Npm.Requested (npm_request this query);
            Npm.Called (if Js.truthy body then body else js_status_error status) Js.Null],
           after_callback
             (Npm.apply f (if Js.truthy body then body else js_status_error status)
                Js.Null)))
  /\ (forall c net options status body response,
        0 <= Nuget._maxRetries c ->
        Nuget.send net 0 (cs_request c options) = Nuget.Responds status body ->
        is_empty body = false ->
        Nuget.DeserializeObject body = Normal response ->
        exists t,
          Nuget.ExecuteAsync c net options = Some (t, Normal response)
          /\ pace t = [Nuget.Sent (cs_request c options)])
  /\ (forall key this connect parameters url status,
        Android.constructor key = Normal this ->
        Android.validateParams parameters = Normal tt ->
        Android.urlString this parameters = Normal url ->
        Android.getResponseCode (connect (android_request this url)) = Normal status ->
        (status = 200 ->
         forall text,
           Android.getInputStream (connect (android_request this url)) = Normal text ->
           Android.execute this connect parameters
           = Normal {| Android.getBody := Android.read_lines text |})
        /\ (status <> 200 ->
            Android.execute this connect parameters
            = Throw (Android.OtherAPIException
                       {| Android.getMessage :=
                            "Network error: "
                              ++ match Android.getErrorStream
                                         (connect (android_request this url)) with
                                 | Some text =>
                                     "HTTP error " ++ string_of_Z status ++ ": "
                                       ++ Android.read_lines text
                                 | None => "Failed to process response: null"
                                 end;
                          Android.getStatusCode := None |}))).
Proof.
  split; [ | split; [ | split]].
  - intros options this axios args query callback status body _ Ha Hc Hv _ Hx.
    destruct ((200 <=? status) && (status <? 300)) eqn:Hs.
    + destruct (axios_settle_response status body) as [Hok _].
      destruct Hok as (response & Hr & Hd).
      { apply andb_true_iff in Hs as [H1 H2].
        apply Z.leb_le in H1. apply Z.ltb_lt in H2. now split. }
      rewrite Hr in Hx.
      exact (@npm_execute_fulfilled js this axios args query callback response body
               Ha Hv Hx Hd Hc).
    + destruct (axios_settle_refused status body Hs) as (error & Hr & He).
      rewrite Hr in Hx.
      exact (@npm_execute_rejected js this axios args query callback error _
               Ha Hv Hx He Hc).
  - intros options this axios args query f status body _ Ha Hv _ Hx Hs.
    destruct (axios_settle_refused status body Hs) as (error & Hr & He).
    rewrite Hr in Hx.
    exact (@npm_execute_rejected_told js this axios args query f error _ Ha Hv Hx He).
  - intros c net options status body response Hmax Hs Hb Hd.
    apply first_attempt_answers; [assumption | ].
    unfold cs_outcome. now rewrite Hs, Hb.
  - intros key this connect parameters url status _ Hv Hurl Hcode.
    unfold Android.execute, Android.executeGet. rewrite Hv, Hurl.
    change {| Android.URL := url;
              Android.getRequestMethod := "GET";
              Android.getRequestProperties := [("x-api-key", Android.apiKey this);
                                               ("auth-mode", "android-package")] |}
      with (android_request this url).
    unfold Android.handleResponse. rewrite Hcode.
    split.
    + intros -> text Hin. now rewrite Hin.
    + intros Hs. destruct (Z.eqb_spec status 200); [contradiction | ].
      destruct (Android.getErrorStream (connect (android_request this url)));
        reflexivity.
Qed.


End Responses.

Lemma received_response_outcome_witness :
  Npm.execute (rt := rt_any) sample_this
    (fun _ => Npm.axios_settle (Npm.Responded 200 not_found)) [Npm.Val (zip_query "90210")]
  = ([Npm.Requested (npm_request (rt := rt_any) sample_this (zip_query "90210"))],
     Normal not_found)
  /\ Npm.execute (rt := rt_any) sample_this
       (fun _ => Npm.axios_settle (Npm.Responded 503 (Js.Str "")))
       [Npm.Val (zip_query "90210"); Npm.Fun quiet_callback]
     = ([Npm.Requested (npm_request (rt := rt_any) sample_this (zip_query "90210"));
         Npm.Called (js_status_error 503) Js.Null],
        Normal Js.Undefined)
  /\ (exists t,
        Nuget.ExecuteAsync (rt := cs_rt_any) sample_client (answering 404 "{}")
          (zip_options "90210")
        = Some (t, Normal (Some {| Nuget.Status := Some "ok"; Nuget.Error := None;
                                   Nuget.Data := Some "{}" |}))
        /\ pace t = [Nuget.Sent (cs_request (rt := cs_rt_any) sample_client
                                   (zip_options "90210"))])
  /\ Android.execute (rt := java_rt_any) android_sample (android_answering 200 "{}")
       (Some [("zip", Some (Android.JString "90210"))])
     = Normal {| Android.getBody := "{}" |}
  /\ Android.execute (rt := java_rt_any) android_sample
       (fun _ => {| Android.getResponseCode := Normal 204;
                    Android.getInputStream := Normal "";
                    Android.getErrorStream := None |})
       (Some [("zip", Some (Android.JString "90210"))])
     = Throw (Android.OtherAPIException
                {| Android.getMessage := "Network error: Failed to process response: null";
                   Android.getStatusCode := None |}).
Proof.
  destruct (@received_response_outcome rt_any cs_rt_any java_rt_any)
    as (Hnpm & Htold & Hcs & Hjava).
  split; [ | split; [ | split; [ | split]]].
  - apply (Hnpm (Js.Object [("api_key", Js.Str hex32)]) sample_this
             (fun _ => Npm.axios_settle (Npm.Responded 200 not_found))
             [Npm.Val (zip_query "90210")] (zip_query "90210") (Npm.Val Js.Null)
             200 not_found);
      reflexivity.
  - apply (Htold (Js.Object [("api_key", Js.Str hex32)]) sample_this
             (fun _ => Npm.axios_settle (Npm.Responded 503 (Js.Str "")))
             [Npm.Val (zip_query "90210"); Npm.Fun quiet_callback] (zip_query "90210")
             quiet_callback 503 (Js.Str ""));
      reflexivity.
  - apply (Hcs sample_client (answering 404 "{}") (zip_options "90210") 404 "{}");
      reflexivity.
  - destruct (Hjava (Some hex32) android_sample (android_answering 200 "{}")
                (Some [("zip", Some (Android.JString "90210"))])
                "https://api.apiverve.com/v1/zipdemographics?zip=90210" 200
                eq_refl eq_refl eq_refl eq_refl) as [Hok _].
    apply (Hok eq_refl "{}" eq_refl).
  - destruct (Hjava (Some hex32) android_sample
                (fun _ => {| Android.getResponseCode := Normal 204;
                             Android.getInputStream := Normal "";
                             Android.getErrorStream := None |})
                (Some [("zip", Some (Android.JString "90210"))])
                "https://api.apiverve.com/v1/zipdemographics?zip=90210" 204
                eq_refl eq_refl eq_refl eq_refl) as [_ Hko].
    apply Hko. discriminate.
Defined.

(** C3 as stated fails in the npm and Java clients: the envelope of a
    response with status 404 is not returned but thrown. *)
Lemma received_response_counterexample :
  Npm.execute (rt := rt_any) sample_this
    (fun _ => Npm.axios_settle (Npm.Responded 404 not_found)) [Npm.Val (zip_query "90210")]
  = ([Npm.Requested (npm_request (rt := rt_any) sample_this (zip_query "90210"))],
     Throw not_found)
  /\ Android.handleResponse
       {| Android.getResponseCode := Normal 404;
          Android.getInputStream := Throw "java.io.FileNotFoundException";
          Android.getErrorStream := Some "{}" |}
     = Throw {| Android.getMessage := "HTTP error 404: {}";
                Android.getStatusCode := Some 404 |}
  /\ Android.execute (rt := java_rt_any) android_sample
       (fun _ => {| Android.getResponseCode := Normal 404;
                    Android.getInputStream := Throw "java.io.FileNotFoundException";
                    Android.getErrorStream := Some "{}" |})
       (Some [("zip", Some (Android.JString "90210"))])
     = Throw (Android.OtherAPIException
                {| Android.getMessage := "Network error: HTTP error 404: {}";
                   Android.getStatusCode := None |}).
Proof. split; [ | split]; reflexivity. Qed.



(* ================================================================== *)
(** * More on the retry loop of the C# client *)

Section LoopBounds.
Context {rt : Nuget.Runtime}.
Variable c : Nuget.Client.
Variable net : Nuget.Network.
Variable options : option Nuget.QueryOptions.

Lemma filter_pace (p : Nuget.event -> bool) (t : list Nuget.event) :
  (forall e, p e = true -> Nuget.is_sent e || Nuget.is_delayed e = true) ->
  filter p (pace t) = filter p t.
Proof.
  intros Hp. unfold pace. induction t as [ | e t IH]; [reflexivity | ].
  cbn [filter]. destruct (Nuget.is_sent e || Nuget.is_delayed e) eqn:He.
  - cbn [filter]. now rewrite IH.
  - rewrite IH. destruct (p e) eqn:Hpe; [ | reflexivity].
    rewrite (Hp e Hpe) in He. discriminate He.
Qed.

Lemma requests_pace (t : list Nuget.event) : requests (pace t) = requests t.
Proof.
  unfold requests. rewrite filter_pace; [reflexivity | ].
  intros e ->. reflexivity.
Qed.

Lemma sleeps_pace (t : list Nuget.event) : sleeps (pace t) = sleeps t.
Proof.
  unfold sleeps. rewrite filter_pace; [reflexivity | ].
  intros e ->. apply orb_true_r.
Qed.

Lemma one_attempt_counts (attempt : Z) :
  let es := pace (trace_of (cs_tried c net options attempt)) in
  only_these c options es
  /\ (requests es <= 1)%nat
  /\ (sleeps es + (if (0 <? attempt)%Z then 0 else 1) = 1)%nat.
Proof.
  destruct (cs_tried_run c net options attempt) as [-> _].
  unfold only_these.
  destruct (0 <? attempt), (cs_cancelled net attempt); cbn;
    repeat split;
    repeat (apply Forall_cons; [first [now left | now right] | ]);
    try apply Forall_nil; lia.
Qed.

Lemma requests_app (t1 t2 : list Nuget.event) :
  requests (t1 +++ t2) = (requests t1 + requests t2)%nat.
Proof. unfold requests. now rewrite filter_app, length_app. Qed.

Lemma sleeps_app (t1 t2 : list Nuget.event) :
  sleeps (t1 +++ t2) = (sleeps t1 + sleeps t2)%nat.
Proof. unfold sleeps. now rewrite filter_app, length_app. Qed.

Lemma loop_counts (fuel : nat) :
  forall (attempt : Z) (lastException : option Nuget.Exception) r,
    0 <= attempt <= Nuget._maxRetries c ->
    Nuget.ExecuteAsync_loop c net options fuel attempt lastException = Some r ->
    let es := pace (trace_of r) in
    only_these c options es
    /\ (requests es <= Z.to_nat (Nuget._maxRetries c + 1 - attempt))%nat
    /\ (sleeps es + (if (0 <? attempt)%Z then 0 else 1)
        <= Z.to_nat (Nuget._maxRetries c + 1 - attempt))%nat.
Proof.
  induction fuel as [ | fuel IH]; intros attempt lastException r Ha Hr.
  - cbn [Nuget.ExecuteAsync_loop] in Hr.
    destruct (Z.leb_spec attempt (Nuget._maxRetries c)); [discriminate Hr | lia].
  - destruct (one_attempt_counts attempt) as (Hthese & Hreq & Hsl).
    assert (Hroom : (1 <= Z.to_nat (Nuget._maxRetries c + 1 - attempt))%nat) by lia.
    destruct (result_of (cs_tried c net options attempt)) as [response | ex] eqn:Htried.
    { rewrite (@loop_returns rt c net options fuel attempt lastException response) in Hr
        by tauto.
      injection Hr as <-. cbn [trace_of fst].
      repeat split; [exact Hthese | lia | lia]. }
    assert (Hstop : forall t,
               pace t = pace (trace_of (cs_tried c net options attempt)) ->
               only_these c options (pace t)
               /\ (requests (pace t) <= Z.to_nat (Nuget._maxRetries c + 1 - attempt))%nat
               /\ (sleeps (pace t) + (if (0 <? attempt)%Z then 0 else 1)
                   <= Z.to_nat (Nuget._maxRetries c + 1 - attempt))%nat).
    { intros t ->. repeat split; [exact Hthese | lia | lia]. }
    destruct (retried ex) eqn:Hx.
    2: { destruct (@loop_gives_up rt c net options fuel attempt lastException ex)
           as (t & Ht & Hp); [tauto | assumption | now left | ].
         rewrite Ht in Hr. injection Hr as <-. cbn [trace_of fst]. now apply Hstop. }
    destruct (Z_le_gt_dec (attempt + 1) (Nuget._maxRetries c)) as [Hn | Hn].
    2: { destruct (@loop_gives_up rt c net options fuel attempt lastException ex)
           as (t & Ht & Hp); [tauto | assumption | right; lia | ].
         rewrite Ht in Hr. injection Hr as <-. cbn [trace_of fst]. now apply Hstop. }
    rewrite (@loop_retries rt c net options fuel attempt lastException ex Hn Htried Hx) in Hr.
    destruct (Nuget.ExecuteAsync_loop c net options fuel (attempt + 1) (Some ex))
      as [rest | ] eqn:Hrest; [ | discriminate Hr].
    cbn [option_map] in Hr. injection Hr as <-.
    cbn [trace_of fst]. rewrite pace_app.
    apply IH in Hrest; [ | lia]. cbv zeta in Hrest.
    destruct Hrest as (Hthese' & Hreq' & Hsl').
    destruct (Z.ltb_spec 0 (attempt + 1)) as [_ | ]; [ | lia].
    rewrite requests_app, sleeps_app.
    repeat split.
    + apply Forall_app. split; assumption.
    + lia.
    + lia.
Qed.

End LoopBounds.

Section LoopOutcomes.
Context {rt : Nuget.Runtime}.
Variable c : Nuget.Client.
Variable net : Nuget.Network.
Variable options : option Nuget.QueryOptions.

Lemma loop_exhausts (fuel : nat) :
  forall (attempt : Z) (lastException : option Nuget.Exception),
    0 <= attempt <= Nuget._maxRetries c ->
    (Z.to_nat (Nuget._maxRetries c + 1 - attempt) <= fuel)%nat ->
    (forall b, attempt <= b <= Nuget._maxRetries c ->
               exists ex, cs_outcome net b (cs_request c options) = Throw ex
                          /\ retried ex = true) ->
    (forall b, attempt <= b <= Nuget._maxRetries c -> cs_cancelled net b = false) ->
    exists t ex,
      Nuget.ExecuteAsync_loop c net options fuel attempt lastException = Some (t, Throw ex)
      /\ cs_outcome net (Nuget._maxRetries c) (cs_request c options) = Throw ex
      /\ pace t
         = (if 0 <? attempt then [Nuget.Delayed (Nuget._retryDelayMs c)] else [])
             +++ Nuget.Sent (cs_request c options)
                 :: retries (Nuget._retryDelayMs c) (cs_request c options)
                      (Z.to_nat (Nuget._maxRetries c - attempt)).
Proof.
  induction fuel as [ | fuel IH]; intros attempt lastException Ha Hfuel Hfail Hquiet;
    [lia | ].
  destruct (cs_tried_run c net options attempt) as [Hp Hr].
  rewrite (Hquiet attempt) in Hp, Hr by lia.
  destruct (Hfail attempt) as (ex & Hex & Hx); [lia | ].
  rewrite Hex in Hr.
  destruct (Z_le_gt_dec (attempt + 1) (Nuget._maxRetries c)) as [Hn | Hn].
  - rewrite (@loop_retries rt c net options fuel attempt lastException ex Hn Hr Hx).
    destruct (IH (attempt + 1) (Some ex)) as (t & ex' & Ht & Hlast & Hpace);
      [lia | lia | intros b Hb; apply Hfail; lia | intros b Hb; apply Hquiet; lia | ].
    rewrite Ht. cbn [option_map trace_of result_of fst snd].
    eexists. exists ex'. split; [reflexivity | ]. split; [exact Hlast | ].
    rewrite pace_app, Hp, Hpace.
    destruct (Z.ltb_spec 0 (attempt + 1)) as [_ | ]; [ | lia].
    replace (Z.to_nat (Nuget._maxRetries c - attempt))
      with (S (Z.to_nat (Nuget._maxRetries c - (attempt + 1)))) by lia.
    cbn [retries]. rewrite <- !app_assoc. reflexivity.
  - destruct (@loop_gives_up rt c net options fuel attempt lastException ex)
      as (t & Ht & Hpt); [lia | exact Hr | right; lia | ].
    exists t, ex. split; [exact Ht | ].
    assert (attempt = Nuget._maxRetries c) as <- by lia.
    split; [exact Hex | ].
    rewrite Hpt, Hp, Z.sub_diag. reflexivity.
Qed.

End LoopOutcomes.

(** X1. Whatever the network does, [ExecuteAsync] ends, after at most
    [_maxRetries + 1] requests and at most [_maxRetries] sleeps; every
    request of the call is the same [GET] request to the URL that
    [ConstructURL] builds, and every sleep lasts [_retryDelayMs]. *)
Theorem request_budget {rt : Nuget.Runtime} (c : Nuget.Client) (net : Nuget.Network)
    (options : option Nuget.QueryOptions) :
  exists t r,
    Nuget.ExecuteAsync c net options = Some (t, r)
    /\ (requests t <= Z.to_nat (Nuget._maxRetries c + 1))%nat
    /\ (sleeps t <= Z.to_nat (Nuget._maxRetries c))%nat
    /\ Forall (fun e => e = Nuget.Sent (cs_request c options)
                        \/ e = Nuget.Delayed (Nuget._retryDelayMs c)) (pace t).
Proof.
  destruct (ExecuteAsync_total c net options) as [[t r] Hrun].
  exists t, r. split; [exact Hrun | ].
  destruct (Z_lt_ge_dec (Nuget._maxRetries c) 0) as [Hneg | Hmax].
  - unfold Nuget.ExecuteAsync in Hrun.
    rewrite (@loop_stops rt c net options) in Hrun by lia.
    injection Hrun as <- _. repeat split; [apply Nat.le_0_l .. | apply Forall_nil].
  - destruct (@loop_counts rt c net options (Z.to_nat (Nuget._maxRetries c + 1)) 0 None (t, r))
      as (Hthese & Hreq & Hsl); [lia | exact Hrun | ].
    cbn [trace_of fst] in Hthese, Hreq, Hsl.
    rewrite requests_pace in Hreq. rewrite sleeps_pace in Hsl.
    rewrite Z.sub_0_r in Hreq, Hsl. cbn [Z.ltb Z.compare] in Hsl.
    repeat split; [exact Hreq | lia | exact Hthese].
Qed.

(** X2. When every attempt fails with an exception that the loop retries
    and the caller does not cancel, [ExecuteAsync] makes exactly
    [_maxRetries + 1] requests with a sleep before each but the first, and
    throws the exception of the last attempt. *)
Theorem retries_exhausted {rt : Nuget.Runtime} (c : Nuget.Client) (net : Nuget.Network)
    (options : option Nuget.QueryOptions) :
  0 <= Nuget._maxRetries c ->
  (forall attempt, 0 <= attempt <= Nuget._maxRetries c ->
     exists ex, cs_outcome net attempt (cs_request c options) = Throw ex
                /\ retried ex = true) ->
  (forall attempt, 0 < attempt <= Nuget._maxRetries c ->
     Nuget.cancelled_in_delay net attempt = false) ->
  exists t ex,
    Nuget.ExecuteAsync c net options = Some (t, Throw ex)
    /\ cs_outcome net (Nuget._maxRetries c) (cs_request c options) = Throw ex
    /\ pace t = Nuget.Sent (cs_request c options)
                :: retries (Nuget._retryDelayMs c) (cs_request c options)
                     (Z.to_nat (Nuget._maxRetries c))
    /\ requests t = Z.to_nat (Nuget._maxRetries c + 1)
    /\ sleeps t = Z.to_nat (Nuget._maxRetries c).
Proof.
  intros Hmax Hfail Hquiet.
  destruct (@loop_exhausts rt c net options (Z.to_nat (Nuget._maxRetries c + 1)) 0 None)
    as (t & ex & Ht & Hlast & Hpace).
  - lia.
  - lia.
  - exact Hfail.
  - intros b Hb. unfold cs_cancelled.
    destruct (Z.ltb_spec 0 b); [apply Hquiet; lia | reflexivity].
  - exists t, ex. rewrite Z.sub_0_r in Hpace. cbn [Z.ltb Z.compare app] in Hpace.
    split; [exact Ht | ]. split; [exact Hlast | ]. split; [exact Hpace | ].
    rewrite <- (requests_pace t), <- (sleeps_pace t), Hpace.
    replace (Z.to_nat (Nuget._maxRetries c + 1)) with (S (Z.to_nat (Nuget._maxRetries c)))
      by lia.
    generalize (Z.to_nat (Nuget._maxRetries c)) as n.
    unfold requests, sleeps. cbn [filter Nuget.is_sent Nuget.is_delayed length].
    intros n. induction n as [ | n [IHr IHs]]; [now split | ].
    cbn [retries filter Nuget.is_sent Nuget.is_delayed length].
    split; [now rewrite IHr | now rewrite IHs].
Qed.

Lemma retries_exhausted_witness :
  exists t,
    Nuget.ExecuteAsync (rt := cs_rt_any) (Nuget.SetMaxRetries sample_client 2)
      unreachable (zip_options "90210")
    = Some (t, Throw (Nuget.HttpRequestException "Connection refused"))
    /\ requests t = 3%nat /\ sleeps t = 2%nat.
Proof.
  destruct (@retries_exhausted cs_rt_any (Nuget.SetMaxRetries sample_client 2)
              unreachable (zip_options "90210"))
    as (t & ex & Hrun & Hlast & _ & Hreq & Hsl).
  - cbn. lia.
  - intros attempt _. eexists. split; reflexivity.
  - reflexivity.
  - exists t. injection Hlast as <-. split; [exact Hrun | ]. split; assumption.
Defined.

(** X3. A cancellation is never retried, and neither is a timeout: when an
    attempt ends in an [OperationCanceledException] (a
    [TaskCanceledException] is one), [ExecuteAsync] rethrows it after that
    one request, whatever [_maxRetries] is, although [IsTransientError]
    calls a [TaskCanceledException] transient.  A cancellation during the
    delay before a retry ends the call before the retry is sent. *)
Theorem cancellation_not_retried {rt : Nuget.Runtime} (c : Nuget.Client)
    (net : Nuget.Network) (options : option Nuget.QueryOptions) :
  0 <= Nuget._maxRetries c ->
  (forall ex,
     cs_outcome net 0 (cs_request c options) = Throw ex ->
     Nuget.is_OperationCanceledException ex = true ->
     exists t,
       Nuget.ExecuteAsync c net options = Some (t, Throw ex)
       /\ pace t = [Nuget.Sent (cs_request c options)])
  /\ (forall message,
        Nuget.is_OperationCanceledException (Nuget.TaskCanceledException message) = true
        /\ Nuget.IsTransientError (Nuget.TaskCanceledException message) = true)
  /\ (forall ex,
        1 <= Nuget._maxRetries c ->
        cs_outcome net 0 (cs_request c options) = Throw ex ->
        retried ex = true ->
        Nuget.cancelled_in_delay net 1 = true ->
        exists t,
          Nuget.ExecuteAsync c net options
          = Some (t, Throw (Nuget.TaskCanceledException "A task was canceled."))
          /\ pace t = [Nuget.Sent (cs_request c options);
                       Nuget.Delayed (Nuget._retryDelayMs c)]).
Proof.
  intros Hmax.
  destruct (cs_tried_run c net options 0) as [Hp0 Hr0].
  unfold cs_cancelled in Hp0, Hr0. cbn [Z.ltb Z.compare andb app] in Hp0, Hr0.
  unfold Nuget.ExecuteAsync.
  split; [ | split].
  - intros ex H0 Hx. rewrite H0 in Hr0.
    destruct (Z.to_nat (Nuget._maxRetries c + 1)) as [ | fuel] eqn:Hfuel; [lia | ].
    destruct (@loop_gives_up rt c net options fuel 0 None ex) as (t & Ht & Hp);
      [lia | exact Hr0 | left; unfold retried; now rewrite Hx | ].
    exists t. split; [exact Ht | now rewrite Hp].
  - intros message. split; reflexivity.
  - intros ex H1 H0 Hx Hc. rewrite H0 in Hr0.
    destruct (Z.to_nat (Nuget._maxRetries c + 1)) as [ | [ | fuel]] eqn:Hfuel; [lia | lia | ].
    rewrite (@loop_retries rt c net options (S fuel) 0 None ex); [ | lia | exact Hr0 | exact Hx].
    destruct (cs_tried_run c net options 1) as [Hp1 Hr1].
    unfold cs_cancelled in Hp1, Hr1. rewrite Hc in Hp1, Hr1.
    cbn [Z.ltb Z.compare andb app] in Hp1, Hr1.
    destruct (@loop_gives_up rt c net options fuel (0 + 1) (Some ex)
                (Nuget.TaskCanceledException "A task was canceled."))
      as (t & Ht & Hp); [lia | exact Hr1 | left; reflexivity | ].
    rewrite Ht. cbn [option_map trace_of result_of fst snd].
    eexists. split; [reflexivity | ].
    change (0 + 1) with 1 in Hp.
    rewrite pace_app, Hp0, Hp, Hp1. reflexivity.
Qed.

Lemma cancellation_not_retried_witness :
  (exists t,
     Nuget.ExecuteAsync (rt := cs_rt_any) (Nuget.SetMaxRetries sample_client 3)
       timing_out (zip_options "90210")
     = Some (t, Throw (Nuget.TaskCanceledException "The operation was canceled."))
     /\ requests t = 1%nat /\ sleeps t = 0%nat)
  /\ (exists t,
        Nuget.ExecuteAsync (rt := cs_rt_any) (Nuget.SetMaxRetries sample_client 3)
          cancelled_while_waiting (zip_options "90210")
        = Some (t, Throw (Nuget.TaskCanceledException "A task was canceled."))
        /\ requests t = 1%nat /\ sleeps t = 1%nat).
Proof.
  split.
  - destruct (@cancellation_not_retried cs_rt_any (Nuget.SetMaxRetries sample_client 3)
                timing_out (zip_options "90210"))
      as (Hfirst & _ & _); [cbn; lia | ].
    destruct (Hfirst (Nuget.TaskCanceledException "The operation was canceled."))
      as (t & Hrun & Hpace); [reflexivity | reflexivity | ].
    exists t. split; [exact Hrun | ].
    vm_compute in Hrun. injection Hrun as <-. split; reflexivity.
  - destruct (@cancellation_not_retried cs_rt_any (Nuget.SetMaxRetries sample_client 3)
                cancelled_while_waiting (zip_options "90210"))
      as (_ & _ & Hdelay); [cbn; lia | ].
    destruct (Hdelay (Nuget.HttpRequestException "Connection refused"))
      as (t & Hrun & Hpace); [cbn; lia | reflexivity | reflexivity | reflexivity | ].
    exists t. split; [exact Hrun | ].
    vm_compute in Hrun. injection Hrun as <-. split; reflexivity.
Defined.

Section Logging.
Context {rt : Nuget.Runtime}.
Variable c : Nuget.Client.
Variable net : Nuget.Network.
Variable options : option Nuget.QueryOptions.

Lemma Log_quiet (message : string) : Nuget.Log (quiet c) message = ret tt.
Proof. reflexivity. Qed.

Lemma cs_request_quiet : cs_request (quiet c) options = cs_request c options.
Proof. reflexivity. Qed.

Lemma ExecuteRequestAsync_quiet (attempt : Z) :
  trace_of (Nuget.ExecuteRequestAsync (quiet c) net attempt options)
  = [Nuget.Sent (cs_request c options)].
Proof.
  unfold Nuget.ExecuteRequestAsync.
  change (String.eqb Nuget._method "POST") with false. cbv iota zeta.
  rewrite trace_try_catch.
  rewrite !trace_bind, !result_bind.
  unfold Nuget.SendAsync. rewrite !trace_bind, !result_bind.
  rewrite !Log_quiet.
  cbn [emit ret trace_of result_of fst snd app].
  fold (cs_request (quiet c) options). rewrite cs_request_quiet.
  destruct (Nuget.send net attempt (cs_request c options)) as [status body | ex].
  - cbn [ret trace_of result_of fst snd app].
    rewrite !trace_bind, !result_bind.
    cbn [ret trace_of result_of fst snd app].
    destruct (is_empty body).
    + reflexivity.
    + cbn [lift trace_of result_of fst snd].
      destruct (Nuget.DeserializeObject body); reflexivity.
  - reflexivity.
Qed.

Lemma cs_tried_quiet (attempt : Z) :
  cs_tried (quiet c) net options attempt
  = (pace (trace_of (cs_tried c net options attempt)),
     result_of (cs_tried c net options attempt)).
Proof.
  rewrite (run_eta (cs_tried (quiet c) net options attempt)).
  destruct (cs_tried_run c net options attempt) as [-> ->].
  destruct (cs_tried_run (quiet c) net options attempt) as [_ ->].
  f_equal.
  unfold cs_tried, cs_cancelled. rewrite trace_bind, ?result_bind.
  destruct (0 <? attempt).
  - rewrite ?trace_bind, ?result_bind, Log_quiet.
    unfold Nuget.Task_Delay. rewrite ?trace_bind, ?result_bind.
    cbn [emit ret trace_of result_of fst snd andb app quiet Nuget._retryDelayMs].
    destruct (Nuget.cancelled_in_delay net attempt).
    + reflexivity.
    + cbn [ret trace_of result_of fst snd]. now rewrite ExecuteRequestAsync_quiet.
  - cbn [ret trace_of result_of fst snd andb app]. now rewrite ExecuteRequestAsync_quiet.
Qed.

Lemma gives_up_quiet (t : list Nuget.event) (message : string) (ex : Nuget.Exception) :
  let r : run Nuget.event Nuget.Exception (option Nuget.ResponseObj) :=
    bind (t, Normal tt) (fun _ => bind (Nuget.Log c message) (fun _ => throw ex)) in
  (bind (pace t, Normal tt)
     (fun _ => bind (Nuget.Log (quiet c) message) (fun _ => throw ex))
   : run Nuget.event Nuget.Exception (option Nuget.ResponseObj))
  = (pace (trace_of r), result_of r).
Proof.
  cbv zeta.
  rewrite !trace_bind, !result_bind, !pace_app.
  cbn [trace_of result_of fst snd].
  rewrite result_Log, pace_app, pace_Log, Log_quiet.
  cbn. now rewrite !app_nil_r.
Qed.

Lemma loop_quiet (fuel : nat) :
  forall (attempt : Z) (lastException : option Nuget.Exception),
    Nuget.ExecuteAsync_loop (quiet c) net options fuel attempt lastException
    = option_map (fun r => (pace (trace_of r), result_of r))
        (Nuget.ExecuteAsync_loop c net options fuel attempt lastException).
Proof.
  induction fuel as [ | fuel IH]; intros attempt lastException.
  - cbn [Nuget.ExecuteAsync_loop quiet Nuget._maxRetries].
    destruct (attempt <=? Nuget._maxRetries c); reflexivity.
  - rewrite !loop_unfold, cs_tried_quiet.
    cbn [quiet Nuget._maxRetries].
    destruct (attempt <=? Nuget._maxRetries c); [ | reflexivity].
    destruct (cs_tried c net options attempt) as [t [response | ex]];
      cbn [trace_of result_of fst snd]; [reflexivity | ].
    destruct (Nuget.is_OperationCanceledException ex); [reflexivity | ].
    destruct (Nuget._maxRetries c <? attempt + 1).
    { cbn [option_map]. f_equal. apply gives_up_quiet. }
    destruct (negb (Nuget.IsTransientError ex)).
    { cbn [option_map]. f_equal. apply gives_up_quiet. }
    rewrite IH.
    destruct (Nuget.ExecuteAsync_loop c net options fuel (attempt + 1) (Some ex))
      as [rest | ]; [ | reflexivity].
    cbn [option_map]. f_equal.
    rewrite (run_eta (bind _ _)).
    rewrite !trace_bind, !result_bind, pace_app.
    reflexivity.
Qed.

End Logging.

(** X4. Logging only observes.  With a logger that returns, or in debug
    mode with a console that takes the lines, [ExecuteAsync] sends the same
    requests, sleeps the same delays in the same order and ends with the
    same result as the client that logs nothing; and that client's trace
    holds nothing but requests and sleeps. *)
Theorem logging_only_observes {rt : Nuget.Runtime} (c : Nuget.Client)
    (net : Nuget.Network) (options : option Nuget.QueryOptions) :
  Nuget.ExecuteAsync (quiet c) net options
  = option_map (fun r => (pace (trace_of r), result_of r))
      (Nuget.ExecuteAsync c net options).
Proof. apply (@loop_quiet rt c net options). Qed.

(* ================================================================== *)
(** * The legacy variant of the C# client *)

Section Legacy.
Context {rt : Nuget.Runtime}.
Variable c : Nuget.Client.
Variable net : Nuget.Network.
Variable options : option Nuget.QueryOptions.

Lemma Log_legacy_run (message : string) :
  pace (trace_of (Nuget.Log_legacy c message)) = []
  /\ result_of (Nuget.Log_legacy c message) = Normal tt.
Proof. unfold Nuget.Log_legacy. destruct (Nuget._isDebug c); now split. Qed.

Lemma pace_Log_legacy (message : string) :
  pace (trace_of (Nuget.Log_legacy c message)) = [].
Proof. apply Log_legacy_run. Qed.

Lemma result_Log_legacy (message : string) :
  result_of (Nuget.Log_legacy c message) = Normal tt.
Proof. apply Log_legacy_run. Qed.

Lemma legacy_rest (body : string) :
  let rest : run Nuget.event Nuget.Exception (option Nuget.ResponseObj) :=
    bind (Nuget.Log_legacy c ("Response: " ++ body))
      (fun _ => if is_empty body
                then throw (Nuget.PlainException "No response from the server")
                else lift (Nuget.DeserializeObject body)) in
  pace (trace_of rest) = [] /\ result_of rest = legacy_body body.
Proof.
  cbv zeta. rewrite trace_bind, result_bind, pace_app, pace_Log_legacy, result_Log_legacy.
  unfold legacy_body. destruct (is_empty body); [now split | ].
  destruct (Nuget.DeserializeObject body); now split.
Qed.

(** [GetResponse] inside its [catch (WebException e)]. *)
Lemma GetResponse_caught (attempt : Z) (request : Nuget.HttpRequestMessage) :
  let got :=
    try_catch (Nuget.GetResponse net attempt request)
      (fun e => match e with
                | Nuget.WebException _ (Some body) => ret body
                | _ => throw e
                end) in
  trace_of got = [Nuget.Sent request]
  /\ result_of got
     = match Nuget.send net attempt request with
       | Nuget.Responds _ body => Normal body
       | Nuget.Fails (Nuget.WebException _ (Some body)) => Normal body
       | Nuget.Fails ex => Throw ex
       end.
Proof.
  cbv zeta. rewrite trace_try_catch, result_try_catch.
  unfold Nuget.GetResponse. rewrite !trace_bind, !result_bind.
  cbn [emit trace_of result_of fst snd].
  destruct (Nuget.send net attempt request) as [status body | ex].
  - destruct (status <? 400); split; reflexivity.
  - destruct ex as [ | | | | | | m [body | ] | | ]; split; reflexivity.
Qed.

(** A request is always sent, and the attempt ends as the request does. *)
Lemma ExecuteWebRequestInternal_run (attempt : Z) :
  pace (trace_of (Nuget.ExecuteWebRequestInternal c net attempt options))
  = [Nuget.Sent (legacy_request c options)]
  /\ result_of (Nuget.ExecuteWebRequestInternal c net attempt options)
     = legacy_outcome net attempt (legacy_request c options).
Proof.
  unfold Nuget.ExecuteWebRequestInternal.
  change (String.eqb Nuget._method "POST") with false. cbv iota zeta.
  rewrite trace_try_catch, result_try_catch.
  rewrite !trace_bind, !result_bind, !result_Log_legacy.
  cbn [ret trace_of result_of fst snd].
  rewrite !trace_bind, !result_bind.
  match goal with
  | |- context [Nuget.GetResponse net attempt ?r] =>
      change r with (legacy_request c options)
  end.
  destruct (GetResponse_caught attempt (legacy_request c options)) as [Ht Hr].
  cbv zeta in Ht, Hr. rewrite Ht, Hr. clear Ht Hr.
  rewrite !pace_app, !pace_Log_legacy.
  unfold legacy_outcome.
  assert (Hbody : forall body,
    let rest : run Nuget.event Nuget.Exception (option Nuget.ResponseObj) :=
      bind (Nuget.Log_legacy c ("Response: " ++ body))
        (fun _ => if is_empty body
                  then throw (Nuget.PlainException "No response from the server")
                  else lift (Nuget.DeserializeObject body)) in
    pace [Nuget.Sent (legacy_request c options)] +++ pace (trace_of rest)
      +++ pace match result_of rest with
               | Normal _ => []
               | Throw e =>
                   trace_of (bind (Nuget.Log_legacy c ("Error: " ++ Nuget.Message e))
                               (fun _ => throw e)
                             : run Nuget.event Nuget.Exception (option Nuget.ResponseObj))
               end
    = [Nuget.Sent (legacy_request c options)]
    /\ match result_of rest with
       | Normal a => Normal a
       | Throw e =>
           result_of (bind (Nuget.Log_legacy c ("Error: " ++ Nuget.Message e))
                        (fun _ => throw e)
                      : run Nuget.event Nuget.Exception (option Nuget.ResponseObj))
       end = legacy_body body).
  { intros body. destruct (legacy_rest body) as [Hp Hr]. cbv zeta in *.
    rewrite Hp, Hr.
    destruct (legacy_body body) as [response | ex]; [split; reflexivity | ].
    rewrite trace_bind, result_bind, pace_app, pace_Log_legacy, result_Log_legacy.
    split; reflexivity. }
  cbv zeta in Hbody.
  destruct (Nuget.send net attempt (legacy_request c options)) as [status body | ex].
  - change (pace []) with (@nil Nuget.event). cbn [app].
    rewrite <- app_assoc. apply Hbody.
  - destruct ex as [ | | | | | | m [body | ] | | ];
      try (cbn [throw trace_of result_of fst snd app];
           rewrite trace_bind, result_bind, !pace_app, pace_Log_legacy, result_Log_legacy;
           split; reflexivity).
    change (pace []) with (@nil Nuget.event). cbn [app].
    rewrite <- app_assoc. apply Hbody.
Qed.

(** One pass through the [try] block. *)
Lemma legacy_tried_run (attempt : Z) :
  pace (trace_of (legacy_tried c net options attempt))
  = (if 0 <? attempt then [Nuget.Delayed (Nuget._retryDelayMs c)] else [])
      +++ [Nuget.Sent (legacy_request c options)]
  /\ result_of (legacy_tried c net options attempt)
     = legacy_outcome net attempt (legacy_request c options).
Proof.
  unfold legacy_tried.
  rewrite trace_bind, result_bind, pace_app.
  destruct (ExecuteWebRequestInternal_run attempt) as [Ht Hr].
  destruct (0 <? attempt).
  - rewrite trace_bind, result_bind, pace_app, pace_Log_legacy, result_Log_legacy.
    cbn [Nuget.Thread_Sleep emit trace_of result_of fst snd].
    rewrite Ht, Hr. split; reflexivity.
  - cbn [ret trace_of result_of fst snd app]. rewrite Ht, Hr. split; reflexivity.
Qed.

(** The loop, one iteration unfolded. *)
Lemma legacy_unfold (fuel : nat) (attempt : Z) (lastException : option Nuget.Exception) :
  Nuget.ExecuteWithWebRequest_loop c net options (S fuel) attempt lastException
  = if attempt <=? Nuget._maxRetries c then
      match legacy_tried c net options attempt with
      | (t, Normal response) => Some (t, Normal response)
      | (t, Throw ex) =>
          if Nuget._maxRetries c <? attempt + 1 then
            Some (bind (t, Normal tt)
                    (fun _ =>
                       bind (Nuget.Log_legacy c
                               ("Request failed after " ++ string_of_Z (Nuget._maxRetries c)
                                  ++ " retries: " ++ Nuget.Message ex))
                         (fun _ => throw ex)))
          else if negb (Nuget.IsTransientWebError ex) then
            Some (bind (t, Normal tt)
                    (fun _ =>
                       bind (Nuget.Log_legacy c
                               ("Non-transient error encountered, not retrying: "
                                  ++ Nuget.Message ex))
                         (fun _ => throw ex)))
          else
            option_map (fun rest => bind (t, Normal tt) (fun _ => rest))
              (Nuget.ExecuteWithWebRequest_loop c net options fuel (attempt + 1) (Some ex))
      end
    else
      Some (throw (match lastException with
                   | Some ex => ex
                   | None => Nuget.PlainException "Request failed"
                   end)).
Proof. reflexivity. Qed.

Lemma legacy_gives_up_run (t : list Nuget.event) (message : string) (ex : Nuget.Exception) :
  let r : run Nuget.event Nuget.Exception (option Nuget.ResponseObj) :=
    bind (t, Normal tt) (fun _ => bind (Nuget.Log_legacy c message) (fun _ => throw ex)) in
  pace (trace_of r) = pace t /\ result_of r = Throw ex.
Proof.
  cbv zeta. rewrite !trace_bind, !result_bind, !pace_app.
  cbn [trace_of result_of fst snd].
  rewrite result_Log_legacy, pace_app, pace_Log_legacy.
  cbn [throw trace_of result_of fst snd app]. rewrite app_nil_r. split; reflexivity.
Qed.

(** The three ways an iteration can go. *)
Lemma legacy_step (fuel : nat) (attempt : Z) (lastException : option Nuget.Exception) :
  attempt <= Nuget._maxRetries c ->
  match result_of (legacy_tried c net options attempt) with
  | Normal response =>
      Nuget.ExecuteWithWebRequest_loop c net options (S fuel) attempt lastException
      = Some (trace_of (legacy_tried c net options attempt), Normal response)
  | Throw ex =>
      if (attempt + 1 <=? Nuget._maxRetries c) && Nuget.is_WebException ex then
        Nuget.ExecuteWithWebRequest_loop c net options (S fuel) attempt lastException
        = option_map
            (fun rest => (trace_of (legacy_tried c net options attempt) +++ trace_of rest,
                          result_of rest))
            (Nuget.ExecuteWithWebRequest_loop c net options fuel (attempt + 1) (Some ex))
      else
        exists t,
          Nuget.ExecuteWithWebRequest_loop c net options (S fuel) attempt lastException
          = Some (t, Throw ex)
          /\ pace t = pace (trace_of (legacy_tried c net options attempt))
  end.
Proof.
  intros Ha. rewrite legacy_unfold.
  destruct (Z.leb_spec attempt (Nuget._maxRetries c)) as [_ | ]; [ | lia].
  destruct (legacy_tried c net options attempt) as [t [response | ex]];
    cbn [trace_of result_of fst snd]; [reflexivity | ].
  destruct (Z.leb_spec (attempt + 1) (Nuget._maxRetries c)) as [Hn | Hn];
    destruct (Z.ltb_spec (Nuget._maxRetries c) (attempt + 1)) as [Hm | Hm]; try lia;
    cbn [andb].
  - unfold Nuget.IsTransientWebError.
    destruct (Nuget.is_WebException ex); cbn [negb].
    + destruct (Nuget.ExecuteWithWebRequest_loop c net options fuel (attempt + 1) (Some ex))
        as [rest | ]; [ | reflexivity].
      cbn [option_map]. f_equal. destruct rest as [t' r']. reflexivity.
    + eexists. rewrite (run_eta (bind _ _)).
      destruct (legacy_gives_up_run t
                  ("Non-transient error encountered, not retrying: " ++ Nuget.Message ex) ex)
        as [Hp Hr]. cbv zeta in Hp, Hr. rewrite Hr.
      split; [reflexivity | exact Hp].
  - eexists. rewrite (run_eta (bind _ _)).
    destruct (legacy_gives_up_run t
                ("Request failed after " ++ string_of_Z (Nuget._maxRetries c)
                   ++ " retries: " ++ Nuget.Message ex) ex)
      as [Hp Hr]. cbv zeta in Hp, Hr. rewrite Hr.
    split; [reflexivity | exact Hp].
Qed.

(** The loop ends; each sleep is followed by a request. *)
Lemma legacy_loop_counts (fuel : nat) :
  forall (attempt : Z) (lastException : option Nuget.Exception),
    0 <= attempt <= Nuget._maxRetries c ->
    (Z.to_nat (Nuget._maxRetries c + 1 - attempt) <= fuel)%nat ->
    exists t r,
      Nuget.ExecuteWithWebRequest_loop c net options fuel attempt lastException
      = Some (t, r)
      /\ (1 <= requests (pace t) <= Z.to_nat (Nuget._maxRetries c + 1 - attempt))%nat
      /\ (sleeps (pace t) + (if (0 <? attempt)%Z then 0 else 1) = requests (pace t))%nat
      /\ Forall (fun e => e = Nuget.Sent (legacy_request c options)
                          \/ e = Nuget.Delayed (Nuget._retryDelayMs c)) (pace t).
Proof.
  induction fuel as [ | fuel IH]; intros attempt lastException Ha Hfuel; [lia | ].
  destruct (legacy_tried_run attempt) as [Hp _].
  assert (Hone : (1 <= requests (pace (trace_of (legacy_tried c net options attempt)))
                  <= Z.to_nat (Nuget._maxRetries c + 1 - attempt))%nat
                 /\ (sleeps (pace (trace_of (legacy_tried c net options attempt)))
                     + (if (0 <? attempt)%Z then 0 else 1)
                     = requests (pace (trace_of (legacy_tried c net options attempt))))%nat
                 /\ Forall (fun e => e = Nuget.Sent (legacy_request c options)
                                     \/ e = Nuget.Delayed (Nuget._retryDelayMs c))
                      (pace (trace_of (legacy_tried c net options attempt)))).
  { rewrite Hp. destruct (0 <? attempt); cbn; repeat split;
      repeat (apply Forall_cons; [first [now left | now right] | ]);
      try apply Forall_nil; lia. }
  pose proof (@legacy_step fuel attempt lastException (proj2 Ha)) as Hstep.
  destruct (result_of (legacy_tried c net options attempt)) as [response | ex].
  { rewrite Hstep. eexists. eexists. split; [reflexivity | exact Hone]. }
  destruct (Z.leb_spec (attempt + 1) (Nuget._maxRetries c)) as [Hn | Hn];
    [destruct (Nuget.is_WebException ex) | ]; cbn [andb] in Hstep.
  2, 3: destruct Hstep as (t & Ht & Hpt); exists t; eexists;
        (split; [exact Ht | rewrite Hpt; exact Hone]).
  destruct (IH (attempt + 1) (Some ex)) as (t & r & Ht & Hreq & Hsl & Hthese); [lia | lia | ].
  rewrite Hstep, Ht. cbn [option_map trace_of result_of fst snd].
  eexists. eexists. split; [reflexivity | ].
  destruct Hone as (Hreq1 & Hsl1 & Hthese1).
  destruct (Z.ltb_spec 0 (attempt + 1)) as [_ | ]; [ | lia].
  rewrite pace_app, requests_app, sleeps_app.
  rewrite Hp in Hreq1, Hsl1 |- *.
  assert (Hr1 : requests ((if 0 <? attempt then [Nuget.Delayed (Nuget._retryDelayMs c)] else [])
                            +++ [Nuget.Sent (legacy_request c options)]) = 1%nat)
    by (destruct (0 <? attempt); reflexivity).
  rewrite Hr1 in *.
  repeat split; [lia | lia | lia | ].
  apply Forall_app. split; [rewrite <- Hp; exact Hthese1 | exact Hthese].
Qed.

End Legacy.

(** X5. The legacy variant treats an answer alike whatever its status is: a
    body that is not empty is deserialized and returned after this one
    request, also when the status is an error status; an empty body ends
    the call with the exception [No response from the server] after this
    one request, whatever [_maxRetries] is. *)
Theorem legacy_answer_ends_the_call {rt : Nuget.Runtime} (c : Nuget.Client)
    (net : Nuget.Network) (options : option Nuget.QueryOptions)
    (status : Z) (body : string) :
  0 <= Nuget._maxRetries c ->
  Nuget.send net 0 (legacy_request c options) = Nuget.Responds status body ->
  (forall response,
     is_empty body = false ->
     Nuget.DeserializeObject body = Normal response ->
     exists t,
       Nuget.ExecuteWithWebRequest c net options = Some (t, Normal response)
       /\ pace t = [Nuget.Sent (legacy_request c options)])
  /\ (is_empty body = true ->
      exists t,
        Nuget.ExecuteWithWebRequest c net options
        = Some (t, Throw (Nuget.PlainException "No response from the server"))
        /\ pace t = [Nuget.Sent (legacy_request c options)]).
Proof.
  intros Hmax Hsend.
  destruct (legacy_tried_run c net options 0) as [Hp Hr].
  unfold legacy_outcome in Hr. rewrite Hsend in Hr. unfold legacy_body in Hr.
  cbn [Z.ltb Z.compare app] in Hp.
  unfold Nuget.ExecuteWithWebRequest.
  destruct (Z.to_nat (Nuget._maxRetries c + 1)) as [ | fuel] eqn:Hfuel; [lia | ].
  pose proof (@legacy_step rt c net options fuel 0 None Hmax) as Hstep.
  split.
  - intros response Hbody Hjson. rewrite Hbody, Hjson in Hr. rewrite Hr in Hstep.
    eexists. split; [exact Hstep | exact Hp].
  - intros Hbody. rewrite Hbody in Hr. rewrite Hr in Hstep.
    cbn [Nuget.is_WebException andb] in Hstep. rewrite andb_false_r in Hstep.
    destruct Hstep as (t & Ht & Hpt). exists t. split; [exact Ht | now rewrite Hpt].
Qed.

Lemma legacy_answer_ends_the_call_witness :
  (exists t,
     Nuget.ExecuteWithWebRequest (rt := cs_rt_any) (Nuget.SetMaxRetries sample_client 3)
       (answering 404 "{}") (zip_options "00000")
     = Some (t, Normal (Some {| Nuget.Status := Some "ok"; Nuget.Error := None;
                                Nuget.Data := Some "{}" |}))
     /\ requests t = 1%nat)
  /\ (exists t,
        Nuget.ExecuteWithWebRequest (rt := cs_rt_any) (Nuget.SetMaxRetries sample_client 3)
          (answering 200 EmptyString) (zip_options "00000")
        = Some (t, Throw (Nuget.PlainException "No response from the server"))
        /\ requests t = 1%nat).
Proof.
  split.
  - destruct (@legacy_answer_ends_the_call cs_rt_any (Nuget.SetMaxRetries sample_client 3)
                (answering 404 "{}") (zip_options "00000") 404 "{}")
      as (Hbody & _); [cbn; lia | reflexivity | ].
    destruct (Hbody (Some {| Nuget.Status := Some "ok"; Nuget.Error := None;
                             Nuget.Data := Some "{}" |}))
      as (t & Hrun & Hpace); [reflexivity | reflexivity | ].
    exists t. split; [exact Hrun | ].
    vm_compute in Hrun. injection Hrun as <-. reflexivity.
  - destruct (@legacy_answer_ends_the_call cs_rt_any (Nuget.SetMaxRetries sample_client 3)
                (answering 200 EmptyString) (zip_options "00000") 200 EmptyString)
      as (_ & Hempty); [cbn; lia | reflexivity | ].
    destruct Hempty as (t & Hrun & Hpace); [reflexivity | ].
    exists t. split; [exact Hrun | ].
    vm_compute in Hrun. injection Hrun as <-. reflexivity.
Defined.

(** X6. The legacy loop always ends.  With a retry count that is not
    negative it makes at most [_maxRetries + 1] requests, all of them the
    same request, and sleeps at most [_maxRetries] times, never more often
    than it requests, and always for [_retryDelayMs]. *)
Theorem legacy_request_budget {rt : Nuget.Runtime} (c : Nuget.Client)
    (net : Nuget.Network) (options : option Nuget.QueryOptions) :
  0 <= Nuget._maxRetries c ->
  exists t r,
    Nuget.ExecuteWithWebRequest c net options = Some (t, r)
    /\ (requests t <= Z.to_nat (Nuget._maxRetries c + 1))%nat
    /\ (sleeps t <= Z.to_nat (Nuget._maxRetries c))%nat
    /\ (sleeps t <= requests t)%nat
    /\ Forall (fun e => e = Nuget.Sent (legacy_request c options)
                        \/ e = Nuget.Delayed (Nuget._retryDelayMs c)) (pace t).
Proof.
  intros Hmax.
  destruct (@legacy_loop_counts rt c net options (Z.to_nat (Nuget._maxRetries c + 1)) 0 None)
    as (t & r & Hrun & Hreq & Hsl & Hthese); [lia | lia | ].
  exists t, r. rewrite requests_pace in Hreq, Hsl. rewrite sleeps_pace in Hsl.
  rewrite Z.sub_0_r in Hreq. cbn [Z.ltb Z.compare] in Hsl.
  split; [exact Hrun | ]. split; [lia | ]. split; [lia | ]. split; [lia | exact Hthese].
Qed.

Lemma legacy_request_budget_witness :
  exists t r,
    Nuget.ExecuteWithWebRequest (rt := cs_rt_any) (Nuget.SetMaxRetries sample_client 2)
      unreachable (zip_options "90210") = Some (t, r)
    /\ (requests t <= 3)%nat /\ (sleeps t <= 2)%nat /\ (sleeps t <= requests t)%nat.
Proof.
  destruct (@legacy_request_budget cs_rt_any (Nuget.SetMaxRetries sample_client 2)
              unreachable (zip_options "90210"))
    as (t & r & Hrun & Hreq & Hsl & Hle & _); [cbn; lia | ].
  exists t, r. split; [exact Hrun | ]. split; [exact Hreq | ]. split; [exact Hsl | exact Hle].
Defined.

(* ================================================================== *)
(** * What the validators of this API let through *)

Section ZipRule.
Context {rt : Js.Runtime}.
Variable options : Js.value.
Variable this : Npm.zipdemographicsWrapper.
Hypothesis constructed : Npm.constructor options = Normal this.

Lemma npm_zip_errors (query v : Js.value) :
  Js.get query "zip" = Normal v ->
  exists errors,
    Npm.validate_loop (Npm.validationRules this) query [] = Normal errors
    /\ (errors = [] <-> exists s, v = Js.Str s /\ str_len s = 5)
    /\ (List.length errors <= 1)%nat.
Proof.
  intros Hget.
  destruct (npm_constructor_fields _ constructed) as [_ ->].
  cbn [Npm.validate_loop]. rewrite Hget. cbn [app].
  unfold Npm.check_param.
  cbn [Npm.required Npm.type Npm.minLength Npm.maxLength Npm.format Npm.enum
       String.eqb Ascii.eqb Bool.eqb orb andb].
  destruct v as [ | | b | n | s | elements | properties | name message properties];
    cbn [Js.is_undefined Js.is_null Js.strict_eq_str orb andb app List.length];
    try (eexists; split; [reflexivity | ];
         split; [split; [discriminate | intros (s' & Hs & _); discriminate Hs] | cbn; lia]).
  destruct s as [ | c s];
    [eexists; split; [reflexivity | ];
     split; [split; [discriminate | intros (s' & Hs & Hl); injection Hs as <-;
                                   discriminate Hl] | cbn; lia] | ].
  cbn [String.eqb]. unfold push_if.
  destruct (Z.ltb_spec (str_len (String c s)) 5) as [Hlt | Hge];
    destruct (Z.ltb_spec 5 (str_len (String c s))) as [Hgt | Hle];
    cbn [app List.length]; try lia.
  - eexists; split; [reflexivity | ]. cbn [app List.length].
    split; [ | lia]. split; [discriminate | ].
    intros (s' & Hs & Hl). injection Hs as <-. lia.
  - eexists; split; [reflexivity | ]. cbn [app List.length].
    split; [ | lia]. split; [discriminate | ].
    intros (s' & Hs & Hl). injection Hs as <-. lia.
  - eexists; split; [reflexivity | ]. cbn [app List.length].
    split; [ | lia]. split; [ | reflexivity]. intros _. eexists. split; [reflexivity | lia].
Qed.

Lemma npm_zip_validates (query : Js.value) :
  Npm.validateParams this query = Normal tt <-> zip_of_five query = true.
Proof.
  unfold Npm.validateParams, zip_of_five.
  destruct (Js.get query "zip") as [v | e] eqn:Hget.
  - destruct (npm_zip_errors query Hget) as (errors & -> & Hiff & _).
    destruct errors as [ | msg errors].
    + destruct (proj1 Hiff eq_refl) as (s & -> & Hs). cbn. rewrite Hs. now split.
    + cbn. split; [discriminate | ].
      destruct v; try discriminate. intros Hs.
      assert (H : msg :: errors = []); [ | discriminate H].
      apply Hiff. eexists. split; [reflexivity | ]. now apply Z.eqb_eq.
  - destruct (npm_constructor_fields _ constructed) as [_ ->].
    cbn [Npm.validate_loop]. rewrite Hget. split; discriminate.
Qed.

End ZipRule.

Lemma npm_execute_starts_with_request {rt : Js.Runtime}
    (this : Npm.zipdemographicsWrapper) (axios : Npm.AxiosConfig -> Npm.settled)
    (args : list Npm.arg) (query : Js.value) (callback : Npm.arg) :
  Npm.arguments args = Normal (query, callback) ->
  Npm.validateParams this query = Normal tt ->
  exists more,
    trace_of (Npm.execute this axios args)
    = Npm.Requested (npm_request this query) :: more.
Proof.
  intros Ha Hv.
  unfold Npm.execute. rewrite Ha, bind_lift_normal, Hv, bind_lift_normal.
  match goal with
  | |- context [Npm.await_axios axios ?config] =>
      change config with (npm_request this query)
  end.
  rewrite trace_try_catch, trace_bind, await_axios_run.
  cbn [trace_of fst app]. eexists. reflexivity.
Qed.

(** X7. The npm client lets a query through exactly when its [zip] is a
    string of five code units (digits or not).  For every other query,
    [execute] rejects before anything is requested and without calling the
    callback.  For such a query, when its values convert to a string, so
    that the URL is built, it makes exactly one request, whatever [axios]
    and the callback do.  (Strings are those of code units below 256.) *)
Theorem request_needs_five_character_zip {rt : Js.Runtime} (options : Js.value)
    (this : Npm.zipdemographicsWrapper) :
  Npm.constructor options = Normal this ->
  (forall query, Npm.validateParams this query = Normal tt <-> zip_of_five query = true)
  /\ (forall axios args query callback,
        Npm.arguments args = Normal (query, callback) ->
        if zip_of_five query
        then url_is_built query = true ->
             js_requests (trace_of (Npm.execute this axios args))
             = [Npm.Requested (npm_request this query)]
        else trace_of (Npm.execute this axios args) = []
             /\ is_normal (result_of (Npm.execute this axios args)) = false).
Proof.
  intros Hthis.
  split; [intros query; apply (@npm_zip_validates rt options this Hthis) | ].
  intros axios args query callback Ha.
  pose proof (@npm_zip_validates rt options this Hthis query) as Hiff.
  destruct (zip_of_five query).
  - intros _.
    assert (Hv : Npm.validateParams this query = Normal tt) by now apply Hiff.
    destruct (@npm_execute_starts_with_request rt this axios args query callback Ha Hv)
      as (more & Hmore).
    destruct (@npm_execute_requests rt this axios args)
      as [Hnone | (query' & callback' & Ha' & _ & Hreq)].
    + rewrite Hmore in Hnone. discriminate Hnone.
    + rewrite Ha in Ha'. injection Ha' as -> _. exact Hreq.
  - destruct (Npm.validateParams this query) as [[] | e] eqn:Hv.
    + assert (H : false = true) by now apply Hiff. discriminate H.
    + rewrite (@npm_execute_invalid rt this axios args query callback e Ha Hv). split; reflexivity.
Qed.

Lemma request_needs_five_character_zip_witness :
  Npm.validateParams (rt := rt_any) sample_this (zip_query "abcde") = Normal tt
  /\ (forall axios,
        js_requests (trace_of (Npm.execute (rt := rt_any) sample_this axios
                                 [Npm.Val (zip_query "abcde")]))
        = [Npm.Requested (npm_request (rt := rt_any) sample_this (zip_query "abcde"))])
  /\ (forall axios f,
        trace_of (Npm.execute (rt := rt_any) sample_this axios [Npm.Fun f]) = [])
  /\ (forall axios,
        trace_of (Npm.execute (rt := rt_any) sample_this axios
                    [Npm.Val (Js.Object [("zip", Js.Number 90210%float)])]) = []).
Proof.
  destruct (@request_needs_five_character_zip rt_any
              (Js.Object [("api_key", Js.Str hex32)]) sample_this
              sample_this_constructed) as [Hvalid Hexecute].
  split; [apply Hvalid; reflexivity | ].
  split; [ | split].
  - intros axios.
    apply (Hexecute axios [Npm.Val (zip_query "abcde")] (zip_query "abcde")
             (Npm.Val Js.Null) eq_refl eq_refl).
  - intros axios f.
    apply (Hexecute axios [Npm.Fun f] (Js.Object []) (Npm.Fun f) eq_refl).
  - intros axios.
    apply (Hexecute axios [Npm.Val (Js.Object [("zip", Js.Number 90210%float)])]
             (Js.Object [("zip", Js.Number 90210%float)]) (Npm.Val Js.Null) eq_refl).
Defined.

Lemma nuget_zip_errors {rt : Nuget.Runtime} (zip : option string) :
  exists errors,
    Nuget.validate_loop Nuget._validationRules
      (Some (Nuget.ZIPDemographicsQueryOptions zip)) [] = Normal errors
    /\ (if five_characters zip then errors = [] else exists message, errors = [message]).
Proof.
  unfold Nuget._validationRules. cbn [Nuget.validate_loop].
  change (Nuget.property_value (Some (Nuget.ZIPDemographicsQueryOptions zip)) "zip")
    with (Normal (option_map Nuget.OString zip) : completion Nuget.Exception _).
  cbn [app]. eexists. split; [reflexivity | ].
  destruct zip as [s | ]; [ | cbn; eauto].
  unfold Nuget.check_param.
  cbn [option_map five_characters Nuget.Required Nuget.Type_ Nuget.MinLength Nuget.MaxLength
       Nuget.Format Nuget.EnumValues String.eqb Ascii.eqb Bool.eqb orb andb].
  destruct s as [ | c s]; [cbn; eauto | ].
  cbn [is_empty app]. unfold push_if.
  destruct (Z.eqb_spec (str_len (String c s)) 5) as [Heq | Hne];
    destruct (Z.ltb_spec (str_len (String c s)) 5) as [Hlt | Hge];
    destruct (Z.ltb_spec 5 (str_len (String c s))) as [Hgt | Hle];
    cbn [app]; try lia; eauto.
Qed.

(** X8. The C# client's validator lets options through exactly when [Zip]
    is a string of five characters.  [Execute], in both variants, then does
    what [ExecuteAsync] (or the legacy loop) does; for every other [Zip],
    and for no options at all, it throws a [ValidationException] with one
    message and sends nothing. *)
Theorem execute_needs_five_character_zip {rt : Nuget.Runtime} (c : Nuget.Client)
    (net : Nuget.Network) (zip : option string) :
  let options := Some (Nuget.ZIPDemographicsQueryOptions zip) in
  is_normal (Nuget.ValidateParams options) = five_characters zip
  /\ (if five_characters zip
      then Nuget.Execute c net options = Nuget.ExecuteAsync c net options
           /\ Nuget.Execute_legacy c net options = Nuget.ExecuteWithWebRequest c net options
      else exists message,
             Nuget.Execute c net options
             = Some ([], Throw (Nuget.ValidationException [message]))
             /\ Nuget.Execute_legacy c net options
                = Some ([], Throw (Nuget.ValidationException [message])))
  /\ Nuget.Execute c net None
     = Some ([], Throw (Nuget.ValidationException ["Required parameter [zip] is missing"]))
  /\ Nuget.Execute_legacy c net None
     = Some ([], Throw (Nuget.ValidationException ["Required parameter [zip] is missing"])).
Proof.
  intros options. subst options.
  set (options := Some (Nuget.ZIPDemographicsQueryOptions zip)).
  assert (Hv : if five_characters zip
               then Nuget.ValidateParams options = Normal tt
               else exists message,
                      Nuget.ValidateParams options
                      = Throw (Nuget.ValidationException [message])).
  { unfold Nuget.ValidateParams, Nuget.ValidateParamsWith.
    change (List.length Nuget._validationRules =? 0)%nat with false. cbv iota.
    subst options. destruct (nuget_zip_errors zip) as (errors & -> & Herrors).
    destruct (five_characters zip).
    - now subst errors.
    - destruct Herrors as [message ->]. exists message. reflexivity. }
  unfold Nuget.Execute, Nuget.Execute_legacy.
  destruct (five_characters zip).
  - rewrite Hv. repeat split; reflexivity.
  - destruct Hv as [message Hv]. rewrite Hv.
    split; [reflexivity | ]. split; [ | split; reflexivity].
    exists message. split; reflexivity.
Qed.

(* ================================================================== *)
(** * Edges of [execute] in the npm client *)



(** X10. A [null] or [undefined] query is caught in two different ways.
    Passed alone it reaches the validator, and the promise is rejected with
    the [TypeError] of reading the first rule's parameter from it; passed
    with a callback it is rejected with the error
    [Query parameters must be provided as an object.]  Nothing is requested
    and the callback is not called in either case. *)
Theorem null_query_is_rejected {rt : Js.Runtime} (this : Npm.zipdemographicsWrapper)
    (axios : Npm.AxiosConfig -> Npm.settled) (paramName : string) (rules : Npm.Rules)
    (rest : list (string * Npm.Rules)) (query : Js.value) :
  Npm.validationRules this = (paramName, rules) :: rest ->
  Js.is_null query || Js.is_undefined query = true ->
  Npm.execute this axios [Npm.Val query]
  = ([], Throw (Js.cannot_read query paramName))
  /\ (forall callback more,
        Npm.execute this axios (Npm.Val query :: callback :: more)
        = ([], Throw (Js.new_Error "Query parameters must be provided as an object."))).
Proof.
  intros Hrules Hq.
  assert (Hv : Npm.validateParams this query = Throw (Js.cannot_read query paramName)).
  { unfold Npm.validateParams. rewrite Hrules. cbn [Npm.validate_loop].
    destruct query; try discriminate Hq; reflexivity. }
  split.
  - apply (@npm_execute_invalid rt this axios [Npm.Val query] query (Npm.Val Js.Null)
             (Js.cannot_read query paramName)); [reflexivity | exact Hv].
  - intros callback more.
    apply (@npm_execute_rejected_arguments rt this axios).
    destruct query; try discriminate Hq; reflexivity.
Qed.

Lemma null_query_is_rejected_witness :
  (forall axios,
     Npm.execute (rt := rt_any) sample_this axios [Npm.Val Js.Null]
     = ([], Throw (Js.Error "TypeError" "Cannot read properties of null (reading 'zip')" [])))
  /\ (forall axios,
        Npm.execute (rt := rt_any) sample_this axios
          [Npm.Val Js.Null; Npm.Fun quiet_callback]
        = ([], Throw (Js.new_Error "Query parameters must be provided as an object."))).
Proof.
  assert (H : forall axios,
             Npm.execute (rt := rt_any) sample_this axios [Npm.Val Js.Null]
             = ([], Throw (Js.cannot_read Js.Null "zip"))
             /\ (forall callback more,
                   Npm.execute (rt := rt_any) sample_this axios
                     (Npm.Val Js.Null :: callback :: more)
                   = ([], Throw (Js.new_Error
                                   "Query parameters must be provided as an object.")))).
  { intros axios.
    apply (@null_query_is_rejected rt_any sample_this axios "zip"
             {| Npm.type := "string"; Npm.required := true;
                Npm.min := None; Npm.max := None;
                Npm.minLength := Some 5; Npm.maxLength := Some 5;
                Npm.format := None; Npm.enum := None |} [] Js.Null);
      reflexivity. }
  split; intros axios; destruct (H axios) as [Halone Hpair]; [exact Halone | apply Hpair].
Defined.

(* ================================================================== *)
(** * The validator of the npm client, for any rule table *)

Lemma flat_map_agree {A B : Type} (f g : A -> list B) (l : list A) :
  (forall x, In x l -> f x = g x) -> flat_map f l = flat_map g l.
Proof.
  induction l as [ | x l IH]; intros H; [reflexivity | ].
  cbn [flat_map]. rewrite (H x (or_introl eq_refl)), IH; [reflexivity | ].
  intros y Hy. apply H. now right.
Qed.

Section AnyRules.
Context {rt : Js.Runtime}.
Variable query : Js.value.
Hypothesis has_properties : Js.is_null query || Js.is_undefined query = false.

Lemma get_js_lookup (key : string) : Js.get query key = Normal (js_lookup query key).
Proof.
  unfold js_lookup.
  destruct (@get_total query key) as [v ->]; [ | | reflexivity];
    destruct query; try reflexivity; discriminate has_properties.
Qed.

Lemma validate_loop_collects (rules : list (string * Npm.Rules)) :
  (forall rule, In rule rules ->
     js_format_lookup_throws (snd rule) (js_lookup query (fst rule)) = false) ->
  forall errors,
    Npm.validate_loop rules query errors
    = Normal (errors +++ flat_map (fun rule =>
                                     match Npm.check_param (fst rule) (snd rule)
                                             (js_lookup query (fst rule)) with
                                     | Normal pushed => pushed
                                     | Throw _ => []
                                     end) rules).
Proof.
  induction rules as [ | [paramName r] rules IH]; intros Hsafe errors.
  - cbn. now rewrite app_nil_r.
  - cbn [Npm.validate_loop flat_map fst snd]. rewrite get_js_lookup.
    destruct (@npm_check_param_total rt paramName r (js_lookup query paramName)
                (Hsafe (paramName, r) (or_introl eq_refl))) as [pushed ->].
    rewrite IH; [now rewrite app_assoc | ].
    intros rule Hin. apply Hsafe. now right.
Qed.

End AnyRules.

(** X11. The validator of the npm client does not stop at the first
    violation.  Take a query that is a plain object, and a rule table in
    which every iteration returns on it: no parameter name is a name every
    object inherits, no format lookup throws on the value read, the values
    read convert to a string and the allowed values are primitives.  Then the
    validator collects the messages of every rule, in the order of the rule
    table, and throws them joined in one error; it passes exactly when no
    rule has a message.  It reads nothing but the parameters the rules
    name, so properties without a rule never make a query fail or pass. *)
Theorem validation_reports_every_violation {rt : Js.Runtime}
    (this : Npm.zipdemographicsWrapper) (properties : list (string * Js.value)) :
  forallb (js_check_returns (Js.Object properties)) (Npm.validationRules this) = true ->
  Npm.validate_loop (Npm.validationRules this) (Js.Object properties) []
  = Normal (violations this (Js.Object properties))
  /\ (Npm.validateParams this (Js.Object properties) = Normal tt
      <-> violations this (Js.Object properties) = [])
  /\ (violations this (Js.Object properties) <> [] ->
      Npm.validateParams this (Js.Object properties)
      = Throw (Js.new_Error ("Validation failed: "
                               ++ join " " (violations this (Js.Object properties))
                               ++ " See documentation: " ++ Npm.docs_url)))
  /\ (forall properties',
        (forall paramName rules,
           In (paramName, rules) (Npm.validationRules this) ->
           assoc paramName properties' = assoc paramName properties) ->
        Npm.validateParams this (Js.Object properties')
        = Npm.validateParams this (Js.Object properties)).
Proof.
  intros Hsafe.
  assert (Hloop : forall q,
            (forall paramName rules,
               In (paramName, rules) (Npm.validationRules this) ->
               js_lookup (Js.Object q) paramName
               = js_lookup (Js.Object properties) paramName) ->
            Npm.validate_loop (Npm.validationRules this) (Js.Object q) []
            = Normal (violations this (Js.Object q))).
  { intros q Hq. apply (@validate_loop_collects rt (Js.Object q) eq_refl).
    intros [paramName rules] Hin. cbn [fst snd].
    rewrite (Hq paramName rules Hin).
    rewrite forallb_forall in Hsafe. specialize (Hsafe (paramName, rules) Hin).
    unfold js_check_returns in Hsafe. cbn [fst snd] in Hsafe.
    apply andb_true_iff in Hsafe as [Hsafe _].
    apply andb_true_iff in Hsafe as [Hsafe _].
    apply andb_true_iff in Hsafe as [_ Hsafe].
    now apply negb_true_iff in Hsafe. }
  assert (Hhere : Npm.validate_loop (Npm.validationRules this) (Js.Object properties) []
                  = Normal (violations this (Js.Object properties)))
    by (apply Hloop; reflexivity).
  split; [exact Hhere | ].
  unfold Npm.validateParams. rewrite Hhere.
  split; [ | split].
  - destruct (violations this (Js.Object properties)); cbn; split; congruence.
  - destruct (violations this (Js.Object properties)); [congruence | reflexivity].
  - intros properties' Hsame.
    assert (Hlook : forall paramName rules,
               In (paramName, rules) (Npm.validationRules this) ->
               js_lookup (Js.Object properties') paramName
               = js_lookup (Js.Object properties) paramName).
    { intros paramName rules Hin. unfold js_lookup, Js.get. cbn [Js.entries].
      now rewrite (Hsame paramName rules Hin). }
    rewrite (Hloop properties' Hlook).
    replace (violations this (Js.Object properties'))
      with (violations this (Js.Object properties)); [reflexivity | ].
    unfold violations. apply flat_map_agree. intros [paramName rules] Hin.
    cbn [fst snd]. now rewrite (Hlook paramName rules Hin).
Qed.

Lemma validation_reports_every_violation_witness :
  Npm.validateParams (rt := rt_any) two_rules_this
    (Js.Object [("flag", Js.Str "yes"); ("state", Js.Str "T"); ("page", Js.Null)])
  = Throw (Js.new_Error "Validation failed: Parameter [state] must be at least 2 characters. Parameter [state] must be one of: CA, NY. Parameter [flag] must be a boolean. Parameter [flag] must be one of: true, false. See documentation: https://docs.apiverve.com/ref/zipdemographics").
Proof.
  destruct (@validation_reports_every_violation rt_any two_rules_this
              [("flag", Js.Str "yes"); ("state", Js.Str "T"); ("page", Js.Null)])
    as (_ & _ & Hthrows & _).
  - reflexivity.
  - rewrite Hthrows; [reflexivity | discriminate].
Defined.

(* ================================================================== *)
(** * Formats: where the two validators part *)

Lemma lang_Alt_iff (r1 r2 : regex) (s : string) :
  lang (Alt r1 r2) s <-> lang r1 s \/ lang r2 s.
Proof.
  split.
  - intros H. inv H; [now left | now right].
  - intros [H | H]; [now apply lang_Alt_l | now apply lang_Alt_r].
Qed.

(** X12. For the formats [hexColor] and [ip] the C# validator accepts what
    the npm validator accepts and, besides, the same followed by one
    newline: [$] in a .NET pattern also matches before a final newline, in
    a JavaScript pattern only at the end. *)
Theorem format_allows_trailing_newline (f : string) (js cs : regex) (s : string) :
  In f ["hexColor"; "ip"] ->
  assoc f Npm.formatPatterns = Some js ->
  assoc f Nuget._formatPatterns = Some cs ->
  (matches cs s = true
   <-> matches js s = true
       \/ exists body, s = body ++ String Nuget.newline "" /\ matches js body = true).
Proof.
  intros Hf Hjs Hcs.
  assert (Hlang : lang cs s
                  <-> lang js s
                      \/ exists body, s = body ++ String Nuget.newline "" /\ lang js body).
  { unfold Npm.formatPatterns in Hjs. unfold Nuget._formatPatterns in Hcs.
    destruct Hf as [<- | [<- | []]];
      cbn [assoc String.eqb Ascii.eqb Bool.eqb] in Hjs, Hcs;
      injection Hjs as <-; injection Hcs as <-.
    - apply lang_Dollar.
    - rewrite lang_Alt_iff, !lang_Dollar, lang_Alt_iff.
      split.
      + intros [[H | (body & -> & H)] | [H | (body & -> & H)]].
        * left. now left.
        * right. exists body. split; [reflexivity | ]. apply lang_Alt_iff. now left.
        * left. now right.
        * right. exists body. split; [reflexivity | ]. apply lang_Alt_iff. now right.
      + intros [[H | H] | (body & -> & H)].
        * left. now left.
        * right. now left.
        * apply lang_Alt_iff in H. destruct H as [H | H].
          -- left. right. now exists body.
          -- right. right. now exists body. }
  rewrite !matches_lang, Hlang.
  split; (intros [H | (body & Hs & H)]; [now left | right; exists body; split; [exact Hs | ]]).
  - now apply matches_lang.
  - now apply matches_lang in H.
Qed.

Lemma format_allows_trailing_newline_witness :
  matches (Seq (Opt (Chr "#")) (Alt (Rep 3 (Cls hex_digit)) (Rep 6 (Cls hex_digit))))
    "#c0ffee" = true
  /\ Nuget.check_param (rt := cs_rt_any) "tint" color_rule
       (Some (Nuget.OString ("#c0ffee" ++ String Nuget.newline ""))) = []
  /\ Npm.check_param (rt := rt_any) "tint" js_color_rule
       (Js.Str ("#c0ffee" ++ String Nuget.newline ""))
     = Normal ["Parameter [tint] must be a valid hexColor."].
Proof.
  pose proof (@format_allows_trailing_newline "hexColor" _ _
                ("#c0ffee" ++ String Nuget.newline "")
                (or_introl eq_refl) eq_refl eq_refl) as H.
  split; [reflexivity | ]. split; [ | reflexivity].
  unfold Nuget.check_param, color_rule.
  cbn [Nuget.Required Nuget.Type_ Nuget.MinLength Nuget.MaxLength Nuget.Format
       Nuget.EnumValues String.eqb Ascii.eqb Bool.eqb orb andb is_empty app assoc
       Nuget._formatPatterns].
  rewrite (proj2 H); [reflexivity | ].
  right. exists "#c0ffee". split; reflexivity.
Defined.

(* ================================================================== *)
(** * Query strings, for any object *)

Lemma str_forall_app (p : ascii -> bool) (s1 s2 : string) :
  str_forall p (s1 ++ s2) = str_forall p s1 && str_forall p s2.
Proof.
  induction s1 as [ | c s1 IH]; [reflexivity | ].
  cbn [append str_forall]. now rewrite IH, andb_assoc.
Qed.

Lemma split_all_app (x : ascii) (s rest : string) :
  str_forall (fun c => negb (is_char x c)) s = true ->
  split_all x (s ++ String x rest) = s :: split_all x rest.
Proof.
  induction s as [ | c s IH]; intros H.
  - cbn [append split_all]. unfold is_char. now rewrite Ascii.eqb_refl.
  - cbn [str_forall] in H. apply andb_true_iff in H as [Hc Hs].
    apply negb_true_iff in Hc.
    cbn [append split_all]. rewrite Hc, (IH Hs). reflexivity.
Qed.

Lemma split_first_app (x : ascii) (s rest : string) :
  str_forall (fun c => negb (is_char x c)) s = true ->
  split_first x (s ++ String x rest) = (s, Some rest).
Proof.
  induction s as [ | c s IH]; intros H.
  - cbn [append split_first]. unfold is_char. now rewrite Ascii.eqb_refl.
  - cbn [str_forall] in H. apply andb_true_iff in H as [Hc Hs].
    apply negb_true_iff in Hc.
    cbn [append split_first]. rewrite Hc, (IH Hs). reflexivity.
Qed.

Lemma split_all_join (x : ascii) (parts : list string) :
  parts <> [] ->
  Forall (fun s => str_forall (fun c => negb (is_char x c)) s = true) parts ->
  split_all x (join (String x "") parts) = parts.
Proof.
  induction parts as [ | s parts IH]; intros Hne Hall; [congruence | ].
  inversion Hall as [ | ? ? Hs Hrest]; subst.
  destruct parts as [ | s' parts].
  - cbn [join]. now apply split_all_whole.
  - change (join (String x "") (s :: s' :: parts))
      with (s ++ String x (join (String x "") (s' :: parts))).
    rewrite (@split_all_app x s _ Hs), IH; [reflexivity | discriminate | exact Hrest].
Qed.

Lemma join_not_empty (sep first : string) (rest : list string) :
  is_empty first = false -> is_empty (join sep (first :: rest)) = false.
Proof.
  intros H. destruct first; [discriminate H | ].
  cbn [join]. destruct rest; reflexivity.
Qed.

Lemma assoc_nodup {A : Type} (k : string) (v : A) (l : list (string * A)) :
  NoDup (map fst l) -> In (k, v) l -> assoc k l = Some v.
Proof.
  induction l as [ | [k' v'] l IH]; intros Hnd Hin; [destruct Hin | ].
  cbn [map fst] in Hnd. inversion Hnd as [ | ? ? Hnotin Hnd']; subst.
  cbn [assoc]. destruct Hin as [Heq | Hin].
  - injection Heq as -> ->. now rewrite String.eqb_refl.
  - destruct (String.eqb_spec k k') as [-> | _]; [ | now apply IH].
    exfalso. apply Hnotin. apply (in_map fst) in Hin. exact Hin.
Qed.

Lemma sequence_map_some {A B : Type} (f : A -> option B) (g : A -> B) (l : list A) :
  (forall a, In a l -> f a = Some (g a)) ->
  sequence (map f l) = Some (map g l).
Proof.
  induction l as [ | a l IH]; intros H; [reflexivity | ].
  cbn [map sequence]. rewrite (H a (or_introl eq_refl)), IH; [reflexivity | ].
  intros b Hb. apply H. now right.
Qed.

Section RoundTrip.
Context {rt : Js.Runtime}.

(** One [key=value] pair of the query string. *)
Lemma pair_reads_back (key value : string) :
  str_forall (fun c => negb (is_char "&" c))
    (Js.encode_string key ++ "=" ++ Js.encode_string value) = true
  /\ (let '(name, v) := split_first "=" (Js.encode_string key ++ "=" ++ Js.encode_string value) in
      match decodeURIComponent name,
            decodeURIComponent (match v with Some v => v | None => "" end) with
      | Some n, Some v => Some (n, v)
      | _, _ => None
      end) = Some (key, value).
Proof.
  assert (Hamp : forall s, str_forall (fun c => negb (is_char "&" c)) (Js.encode_string s) = true).
  { intros s. generalize (encoded_has_no_separator s). apply str_forall_weaken.
    intros c Hc. apply negb_true_iff, orb_false_iff in Hc as [-> _]. reflexivity. }
  assert (Heq : forall s, str_forall (fun c => negb (is_char "=" c)) (Js.encode_string s) = true).
  { intros s. generalize (encoded_has_no_separator s). apply str_forall_weaken.
    intros c Hc. apply negb_true_iff, orb_false_iff in Hc as [_ ->]. reflexivity. }
  split.
  - rewrite str_forall_app, Hamp. cbn [append str_forall is_char Ascii.eqb Bool.eqb negb andb].
    apply Hamp.
  - change (Js.encode_string key ++ "=" ++ Js.encode_string value)
      with (Js.encode_string key ++ String "=" (Js.encode_string value)).
    rewrite (@split_first_app "=" _ _ (Heq key)), !decode_encode_string. reflexivity.
Qed.

End RoundTrip.

(** X13. The query string that [constructURL] builds reads back as the
    object it was built from: for an object with distinct keys and values
    that convert to a string, splitting the URL at [?], [&] and [=] and
    decoding the pieces gives every key with the string form of its value,
    in the order of the object, whatever code units below 256 the keys and
    values hold. *)
Theorem query_string_round_trip {rt : Js.Runtime} (options : Js.value)
    (this : Npm.zipdemographicsWrapper) (properties : list (string * Js.value)) :
  Npm.constructor options = Normal this ->
  NoDup (map fst properties) ->
  url_is_built (Js.Object properties) = true ->
  parse_query (Npm.constructURL this (Js.Object properties))
  = Some (map (fun property => (fst property, Js.ToString (snd property))) properties).
Proof.
  intros H Hnd _. apply npm_constructor_fields in H as [Hbase _].
  unfold Npm.constructURL. rewrite Hbase.
  cbn [Js.truthy Js.typeof String.eqb Ascii.eqb Bool.eqb andb].
  change (Js.keys (Js.Object properties)) with (map fst properties).
  rewrite length_map.
  destruct properties as [ | property properties]; [reflexivity | ].
  change (0 <? List.length (property :: properties))%nat with true. cbv iota.
  rewrite map_map.
  set (pair := fun property : string * Js.value =>
                 Js.encode_string (fst property) ++ "="
                   ++ Js.encode_string (Js.ToString (snd property))).
  rewrite (@map_ext_in _ _ _ pair).
  2: { intros [key value] Hin. unfold pair. cbn [fst snd].
       unfold Js.get. cbn [Js.entries].
       rewrite (@assoc_nodup _ key value _ Hnd Hin). reflexivity. }
  unfold parse_query. cbn [append split_first is_char Ascii.eqb Bool.eqb].
  assert (Hparts : Forall (fun s => str_forall (fun c => negb (is_char "&" c)) s = true)
                     (map pair (property :: properties))).
  { apply Forall_forall. intros s Hs. apply in_map_iff in Hs as (p & <- & _).
    apply (@pair_reads_back (fst p) (Js.ToString (snd p))). }
  assert (Hfull : is_empty (join "&" (map pair (property :: properties))) = false).
  { assert (Hpair : is_empty (pair property) = false)
      by (unfold pair; destruct (Js.encode_string (fst property)); reflexivity).
    cbn [map]. now apply join_not_empty. }
  rewrite Hfull, (@split_all_join "&" (map pair (property :: properties)));
    [ | cbn [map]; discriminate | exact Hparts].
  rewrite map_map. apply sequence_map_some.
  intros p _. apply (@pair_reads_back (fst p) (Js.ToString (snd p))).
Qed.

Lemma query_string_round_trip_witness :
  Npm.constructURL (rt := rt_any) sample_this
    (Js.Object [("zip", Js.Str "90210"); ("q", Js.Str "a&b=c d"); ("all", Js.Boolean true)])
  = "https://api.apiverve.com/v1/zipdemographics?zip=90210&q=a%26b%3Dc%20d&all=true"
  /\ parse_query
       (Npm.constructURL (rt := rt_any) sample_this
          (Js.Object [("zip", Js.Str "90210"); ("q", Js.Str "a&b=c d");
                      ("all", Js.Boolean true)]))
     = Some [("zip", "90210"); ("q", "a&b=c d"); ("all", "true")].
Proof.
  split; [reflexivity | ].
  apply (@query_string_round_trip rt_any (Js.Object [("api_key", Js.Str hex32)]) sample_this
           [("zip", Js.Str "90210"); ("q", Js.Str "a&b=c d"); ("all", Js.Boolean true)]
           sample_this_constructed); [ | reflexivity].
  repeat constructor; cbn; intuition discriminate.
Defined.

(* ================================================================== *)
(** * The URL of the C# client *)

Lemma decode_escaped_char (c : ascii) (rest : string) :
  decodeURIComponent
    ((if Nuget.unreserved c then String c EmptyString else Js.utf8_escapes c) ++ rest)
  = option_map (String c) (decodeURIComponent rest).
Proof. ascii_cases c; reflexivity. Qed.

(** Decoding undoes [Uri.EscapeDataString], on every string. *)
Lemma decode_EscapeDataString (s : string) :
  decodeURIComponent (Nuget.EscapeDataString s) = Some s.
Proof.
  induction s as [ | c s IH]; [reflexivity | ].
  cbn [Nuget.EscapeDataString]. rewrite decode_escaped_char, IH. reflexivity.
Qed.

Lemma escaped_has_no_separator (s : string) :
  str_forall (fun c => negb (is_char "&" c || is_char "=" c)) (Nuget.EscapeDataString s)
  = true.
Proof.
  induction s as [ | c s IH]; [reflexivity | ].
  cbn [Nuget.EscapeDataString].
  assert (Hc : forall rest,
             str_forall (fun c => negb (is_char "&" c || is_char "=" c)) rest = true ->
             str_forall (fun c => negb (is_char "&" c || is_char "=" c))
               ((if Nuget.unreserved c then String c EmptyString else Js.utf8_escapes c)
                  ++ rest) = true).
  { intros rest Hrest. ascii_cases c; exact Hrest. }
  now apply Hc.
Qed.

(** X14. The C# client names the parameter by its [JsonProperty] name and
    leaves out a [Zip] that is [null]: without options, or with a [null]
    [Zip], the URL is the bare endpoint; with a [Zip] that
    [Uri.EscapeDataString] takes, its query string is [zip=] and the escaped
    value, which reads back as that value whatever code units below 256 it
    holds. *)
Theorem cs_zip_query_round_trip {rt : Nuget.Runtime} (zip : option string) :
  escapable_zip zip = true ->
  Nuget.ConstructURL None = Nuget._apiEndpoint
  /\ Nuget.ConstructURL (Some (Nuget.ZIPDemographicsQueryOptions zip))
     = match zip with
       | Some s => Nuget._apiEndpoint ++ "?zip=" ++ Nuget.EscapeDataString s
       | None => Nuget._apiEndpoint
       end
  /\ parse_query (Nuget.ConstructURL (Some (Nuget.ZIPDemographicsQueryOptions zip)))
     = Some match zip with
            | Some s => [("zip", s)]
            | None => []
            end.
Proof.
  intros _.
  split; [reflexivity | ].
  destruct zip as [s | ]; [ | split; reflexivity].
  split; [reflexivity | ].
  unfold Nuget.ConstructURL.
  change (String.eqb Nuget._method "GET") with true. cbv iota zeta.
  cbn [Nuget.ZIPDemographicsQueryOptions flat_map option_map Nuget.Value
       Nuget.JsonPropertyName Nuget.Name is_empty app List.length Nat.ltb Nat.leb join
       Nuget.ToString].
  unfold parse_query, Nuget._apiEndpoint.
  cbn [append split_first is_char Ascii.eqb Bool.eqb is_empty].
  assert (Hamp : str_forall (fun c => negb (is_char "&" c)) (Nuget.EscapeDataString s) = true).
  { generalize (escaped_has_no_separator s). apply str_forall_weaken. intros c Hc.
    apply negb_true_iff, orb_false_iff in Hc as [-> _]. reflexivity. }
  rewrite (@split_all_whole "&"
             (String "z" (String "i" (String "p" (String "=" (Nuget.EscapeDataString s)))))).
  2: { cbn [append str_forall is_char Ascii.eqb Bool.eqb negb andb]. exact Hamp. }
  cbn [map append split_first is_char Ascii.eqb Bool.eqb sequence].
  change (decodeURIComponent "zip") with (Some "zip").
  now rewrite decode_EscapeDataString.
Qed.

Lemma cs_zip_query_round_trip_witness :
  Nuget.ConstructURL (rt := cs_rt_any) (zip_options "9021 #")
  = "https://api.apiverve.com/v1/zipdemographics?zip=9021%20%23"
  /\ parse_query (Nuget.ConstructURL (rt := cs_rt_any) (zip_options "9021 #"))
     = Some [("zip", "9021 #")].
Proof.
  destruct (@cs_zip_query_round_trip cs_rt_any (Some "9021 #") eq_refl)
    as (_ & Hurl & Hback).
  split; [exact Hurl | exact Hback].
Defined.

Lemma escapes_agree (s : string) :
  str_forall (fun c => negb (existsb (fun x => is_char x c) ["!"; "*"; "'"; "("; ")"]%char)) s
  = true ->
  Nuget.EscapeDataString s = Js.encode_string s.
Proof.
  induction s as [ | c s IH]; [reflexivity | ].
  cbn [str_forall]. intros H. apply andb_true_iff in H as [Hc Hs].
  cbn [Nuget.EscapeDataString Js.encode_string]. rewrite (IH Hs). f_equal.
  revert Hc. ascii_cases c; intros Hc; try reflexivity; discriminate Hc.
Qed.

(** X15. The npm client and the C# client ask for the same URL for a [zip]
    of code units below 256 that [Uri.EscapeDataString] takes and that
    holds none of the characters [!], [*], ['], [(] and [)]: those are the
    only ones on which [encodeURIComponent], which leaves them as they are,
    and [Uri.EscapeDataString] can differ. *)
Theorem clients_build_the_same_url {jsrt : Js.Runtime} {csrt : Nuget.Runtime}
    (options : Js.value) (this : Npm.zipdemographicsWrapper) (zip : string) :
  Npm.constructor options = Normal this ->
  escapable zip = true ->
  str_forall (fun c => negb (existsb (fun x => is_char x c) ["!"; "*"; "'"; "("; ")"]%char)) zip
  = true ->
  Nuget.ConstructURL (zip_options zip) = Npm.constructURL this (zip_query zip).
Proof.
  intros H _ Hzip. apply npm_constructor_fields in H as [Hbase _].
  unfold Npm.constructURL. rewrite Hbase.
  change (Nuget.ConstructURL (zip_options zip))
    with (Nuget._apiEndpoint ++ "?zip=" ++ Nuget.EscapeDataString zip).
  rewrite (escapes_agree zip Hzip). reflexivity.
Qed.

Lemma clients_build_the_same_url_witness :
  Nuget.ConstructURL (rt := cs_rt_any) (zip_options "90 210")
  = Npm.constructURL (rt := rt_any) sample_this (zip_query "90 210").
Proof.
  apply (@clients_build_the_same_url rt_any cs_rt_any
           (Js.Object [("api_key", Js.Str hex32)]) sample_this "90 210"
           sample_this_constructed); reflexivity.
Defined.

(* ================================================================== *)
(** * What the constructor and the setters keep *)

Lemma set_Item_keys (d : list (string * string)) (key value : string) :
  map fst (Nuget.set_Item d key value)
  = if existsb (String.eqb key) (map fst d) then map fst d else map fst d +++ [key].
Proof.
  induction d as [ | [k v] d IH]; [reflexivity | ].
  cbn [Nuget.set_Item map fst existsb].
  rewrite (String.eqb_sym key k).
  destruct (String.eqb_spec k key) as [-> | Hne]; [reflexivity | ].
  cbn [map fst orb]. rewrite IH.
  destruct (existsb (String.eqb key) (map fst d)); reflexivity.
Qed.

Lemma existsb_eqb_In (key : string) (keys : list string) :
  existsb (String.eqb key) keys = true <-> In key keys.
Proof.
  rewrite existsb_exists. split.
  - intros (k & Hin & Heq). apply String.eqb_eq in Heq. now subst.
  - intros Hin. exists key. split; [exact Hin | apply String.eqb_refl].
Qed.

Lemma set_Item_NoDup (d : list (string * string)) (key value : string) :
  NoDup (map fst d) -> NoDup (map fst (Nuget.set_Item d key value)).
Proof.
  intros Hnd. rewrite set_Item_keys.
  destruct (existsb (String.eqb key) (map fst d)) eqn:He; [exact Hnd | ].
  apply NoDup_app; [exact Hnd | repeat constructor; intros [] | ].
  intros k Hk [<- | []].
  apply existsb_eqb_In in Hk. congruence.
Qed.

Lemma Remove_keys (d : list (string * string)) (key : string) :
  map fst (Nuget.Remove d key) = filter (fun k => negb (String.eqb k key)) (map fst d).
Proof.
  induction d as [ | [k v] d IH]; [reflexivity | ].
  cbn [Nuget.Remove filter map fst]. fold (Nuget.Remove d key).
  destruct (String.eqb k key); cbn [negb map fst]; now rewrite IH.
Qed.

Lemma configured_kept {fw : Nuget.Framework} (c : Nuget.Client) :
  configured c -> kept c.
Proof.
  induction 1 as [apiKey isSecure isDebug c Hnew
                 | c apiKey c' _ IH Hset
                 | c isSecure _ IH | c isDebug _ IH | c maxRetries _ IH
                 | c retryDelayMs _ IH | c logger _ IH
                 | c key value c' _ IH Hadd
                 | c key _ IH | c _ IH].
  - unfold Nuget.new_Client in Hnew.
    destruct (Nuget.ValidateApiKey apiKey) as [[] | ex] eqn:Hkey; [ | discriminate Hnew].
    destruct apiKey as [key | ]; [ | discriminate Hnew].
    injection Hnew as <-. unfold kept. cbn.
    repeat split; try lia; [exact Hkey | constructor | constructor].
  - unfold Nuget.SetApiKey in Hset.
    destruct (Nuget.ValidateApiKey apiKey) as [[] | ex] eqn:Hkey; [ | discriminate Hset].
    destruct apiKey as [key | ]; [ | discriminate Hset].
    injection Hset as <-. destruct IH as (Hmax & Hdelay & _ & Hnd & Hkeys).
    unfold kept. cbn. repeat split; try lia; assumption.
  - exact IH.
  - exact IH.
  - destruct IH as (Hmax & Hdelay & Hkey & Hnd & Hkeys).
    unfold kept. cbn. repeat split; try lia; assumption.
  - destruct IH as (Hmax & Hdelay & Hkey & Hnd & Hkeys).
    unfold kept. cbn. repeat split; try lia; assumption.
  - exact IH.
  - unfold Nuget.AddCustomHeader in Hadd.
    destruct key as [k | ]; [ | discriminate Hadd].
    destruct (is_empty k || str_forall Nuget.is_white_space k) eqn:Hblank;
      [discriminate Hadd | ].
    injection Hadd as <-. destruct IH as (Hmax & Hdelay & Hkey & Hnd & Hkeys).
    unfold kept. cbn [Nuget._maxRetries Nuget._retryDelayMs Nuget._apiKey Nuget._customHeaders].
    repeat split; try lia; try assumption.
    + now apply set_Item_NoDup.
    + rewrite set_Item_keys.
      destruct (existsb (String.eqb k) (map fst (Nuget._customHeaders c))); [exact Hkeys | ].
      apply Forall_app. split; [exact Hkeys | ]. constructor; [exact Hblank | constructor].
  - destruct IH as (Hmax & Hdelay & Hkey & Hnd & Hkeys).
    unfold kept. cbn [Nuget.RemoveCustomHeader Nuget._maxRetries Nuget._retryDelayMs
                      Nuget._apiKey Nuget._customHeaders].
    rewrite Remove_keys.
    repeat split; try lia; try assumption.
    + now apply NoDup_filter.
    + apply Forall_forall. intros k Hk. apply filter_In in Hk as [Hk _].
      revert k Hk. now apply Forall_forall.
  - destruct IH as (Hmax & Hdelay & Hkey & Hnd & Hkeys).
    unfold kept. cbn. repeat split; try lia; try assumption; constructor.
Qed.

(** X16. Whatever sequence of setter calls follows the constructor, the
    client keeps a retry count from 0 to 3, a delay that is not negative,
    an API key that [ValidateApiKey] accepts, and custom headers with
    distinct keys none of which is blank.  So [ExecuteAsync] of any client
    a program can hold makes at most four requests and sleeps at most
    three times. *)
Theorem configured_client_invariant {fw : Nuget.Framework} {rt : Nuget.Runtime}
    (c : Nuget.Client) :
  configured c ->
  kept c
  /\ forall net options,
       exists t r,
         Nuget.ExecuteAsync c net options = Some (t, r)
         /\ (requests t <= 4)%nat /\ (sleeps t <= 3)%nat.
Proof.
  intros Hc. pose proof (configured_kept Hc) as Hkept.
  split; [exact Hkept | ].
  destruct Hkept as (Hmax & _). intros net options.
  destruct (ExecuteAsync_total c net options) as [[t r] Hrun].
  exists t, r. split; [exact Hrun | ].
  destruct (@loop_counts rt c net options (Z.to_nat (Nuget._maxRetries c + 1)) 0 None (t, r))
    as (_ & Hreq & Hsl); [lia | exact Hrun | ].
  cbn [trace_of fst] in Hreq, Hsl.
  rewrite requests_pace in Hreq. rewrite sleeps_pace in Hsl.
  cbn [Z.ltb Z.compare] in Hsl.
  lia.
Qed.

Lemma configured_client_invariant_witness :
  kept tuned_client
  /\ Nuget._maxRetries tuned_client = 3
  /\ Nuget._retryDelayMs tuned_client = 0
  /\ Nuget._customHeaders tuned_client = [("X-Trace", "on")]
  /\ exists t r,
       Nuget.ExecuteAsync (rt := cs_rt_any) tuned_client unreachable (zip_options "90210")
       = Some (t, r)
       /\ (requests t <= 4)%nat /\ (sleeps t <= 3)%nat.
Proof.
  destruct (@configured_client_invariant fw_core cs_rt_any tuned_client) as [Hkept Hruns].
  - apply by_RemoveCustomHeader.
    apply (@by_AddCustomHeader fw_core
             (Nuget.SetRetryDelay (Nuget.SetMaxRetries sample_client 7) (-5))
             (Some "X-Trace") "on"); [ | reflexivity].
    apply by_SetRetryDelay, by_SetMaxRetries.
    apply (@by_constructor fw_core (Some hex32) true false). reflexivity.
  - split; [exact Hkept | ]. repeat split; try reflexivity.
    apply Hruns.
Defined.





(* ================================================================== *)
(** * The callback pattern of the C# client *)

Section Callback.
Context {rt : Nuget.Runtime}.

Lemma invocations_app (t1 t2 : list Nuget.work_event) :
  invocations (t1 +++ t2) = invocations t1 +++ invocations t2.
Proof. apply flat_map_app. Qed.

Lemma invocations_Did (t : list Nuget.event) : invocations (map Nuget.Did t) = [].
Proof. induction t as [ | e t IH]; [reflexivity | exact IH]. Qed.

(** The work item, by the outcome of the call and of the callback. *)
Lemma work_item_run (callback : Nuget.ExecuteAsyncCallback)
    (executed : run Nuget.event Nuget.Exception (option Nuget.ResponseObj)) :
  Nuget.work_item callback executed
  = match result_of executed with
    | Normal response =>
        match Nuget.Invoke callback response with
        | Normal _ =>
            (map Nuget.Did (trace_of executed) +++ [Nuget.Invoked response], Normal tt)
        | Throw ex =>
            (map Nuget.Did (trace_of executed)
               +++ [Nuget.Invoked response; Nuget.Invoked (error_envelope ex)],
             Nuget.Invoke callback (error_envelope ex))
        end
    | Throw ex =>
        (map Nuget.Did (trace_of executed) +++ [Nuget.Invoked (error_envelope ex)],
         Nuget.Invoke callback (error_envelope ex))
    end.
Proof.
  destruct executed as [t [response | ex]];
    unfold Nuget.work_item, Nuget.did, Nuget.invoke, error_envelope;
    cbn [trace_of result_of fst snd].
  - cbv beta iota zeta delta [try_catch bind emit lift].
    destruct (Nuget.Invoke callback response) as [[] | ex].
    + reflexivity.
    + cbn [app]. rewrite <- app_assoc. cbn [app].
      destruct (Nuget.Invoke callback _); reflexivity.
  - cbv beta iota zeta delta [try_catch bind emit lift]. cbn [app].
    destruct (Nuget.Invoke callback _) as [[] | ex']; reflexivity.
Qed.

End Callback.

(** X18. A callback that returns is called exactly once, after the call
    has ended, and the work item ends without an exception: with the
    response when there is one, and otherwise with an envelope whose status
    is [error] and whose error is the message of the exception.  Over
    [Task.Run] the call is [ExecuteAsync(options)]; in the legacy variant
    it is [Execute(options)].  Without a callback both throw at once. *)
Theorem callback_is_told_once {fw : Nuget.Framework} {rt : Nuget.Runtime}
    (c : Nuget.Client) (net : Nuget.Network) (options : option Nuget.QueryOptions)
    (callback : Nuget.ExecuteAsyncCallback) :
  (forall result, Nuget.Invoke callback result = Normal tt) ->
  (forall t outcome,
     Nuget.ExecuteAsync c net options = Some (t, outcome) ->
     Nuget.ExecuteAsync_callback c net (Some callback) options
     = Normal (Some (map Nuget.Did t +++ [Nuget.Invoked (told outcome)], Normal tt)))
  /\ (forall t outcome,
        Nuget.Execute_legacy c net options = Some (t, outcome) ->
        Nuget.ExecuteAsync_callback_legacy c net (Some callback) options
        = Normal (Some (map Nuget.Did t +++ [Nuget.Invoked (told outcome)], Normal tt)))
  /\ is_normal (Nuget.ExecuteAsync_callback c net None options) = false
  /\ is_normal (Nuget.ExecuteAsync_callback_legacy c net None options) = false.
Proof.
  intros Hreturns.
  assert (Hitem : forall t outcome,
             Nuget.work_item callback (t, outcome)
             = (map Nuget.Did t +++ [Nuget.Invoked (told outcome)], Normal tt)).
  { intros t outcome. rewrite work_item_run. cbn [trace_of result_of fst snd].
    destruct outcome as [response | ex]; rewrite Hreturns; reflexivity. }
  split; [ | split; [ | split; reflexivity]].
  - intros t outcome Hrun. unfold Nuget.ExecuteAsync_callback.
    rewrite Hrun. cbn [option_map]. now rewrite Hitem.
  - intros t outcome Hrun. unfold Nuget.ExecuteAsync_callback_legacy.
    rewrite Hrun. cbn [option_map]. now rewrite Hitem.
Qed.

Lemma callback_is_told_once_witness :
  Nuget.ExecuteAsync_callback_legacy (fw := fw_core) (rt := cs_rt_any)
    sample_client (answering 200 "{}") (Some listening) (zip_options "9021")
  = Normal (Some ([Nuget.Invoked
                     (Some {| Nuget.Status := Some "error";
                              Nuget.Error := Some "Validation failed: Parameter [zip] must be at least 5 characters";
                              Nuget.Data := None |})],
                  Normal tt)).
Proof.
  destruct (@callback_is_told_once fw_core cs_rt_any sample_client (answering 200 "{}")
              (zip_options "9021") listening) as (_ & Hlegacy & _).
  - intros result. reflexivity.
  - apply (Hlegacy []
             (Throw (Nuget.ValidationException
                       ["Parameter [zip] must be at least 5 characters"]))).
    reflexivity.
Defined.

(** X19. A callback that throws when it is handed the response is called a
    second time, with an envelope made from its own exception: the call is
    inside the [try] block.  What the second call does is what the work
    item ends with, so an exception of the second call leaves the work
    item unhandled. *)
Theorem throwing_callback_is_told_twice {fw : Nuget.Framework} {rt : Nuget.Runtime}
    (c : Nuget.Client) (net : Nuget.Network) (options : option Nuget.QueryOptions)
    (callback : Nuget.ExecuteAsyncCallback) (t : list Nuget.event)
    (response : option Nuget.ResponseObj) (ex : Nuget.Exception) :
  Nuget.ExecuteAsync c net options = Some (t, Normal response) ->
  Nuget.Invoke callback response = Throw ex ->
  exists t',
    Nuget.ExecuteAsync_callback c net (Some callback) options
    = Normal (Some (t', Nuget.Invoke callback (error_envelope ex)))
    /\ invocations t' = [response; error_envelope ex]
    /\ t' = map Nuget.Did t +++ [Nuget.Invoked response; Nuget.Invoked (error_envelope ex)].
Proof.
  intros Hrun Hthrows. unfold Nuget.ExecuteAsync_callback.
  rewrite Hrun. cbn [option_map]. rewrite work_item_run.
  cbn [trace_of result_of fst snd]. rewrite Hthrows.
  eexists. split; [reflexivity | ]. split; [ | reflexivity].
  rewrite invocations_app, invocations_Did. reflexivity.
Qed.

Lemma throwing_callback_is_told_twice_witness :
  exists t',
    Nuget.ExecuteAsync_callback (fw := fw_core) (rt := cs_rt_null)
      sample_client (answering 200 "null") (Some brittle) (zip_options "90210")
    = Normal (Some (t', Throw (Nuget.PlainException
                                 "Object reference not set to an instance of an object.")))
    /\ List.length (invocations t') = 2%nat.
Proof.
  destruct (@throwing_callback_is_told_twice fw_core
              cs_rt_null
              sample_client (answering 200 "null") (zip_options "90210") brittle
              [Nuget.Sent (cs_request (rt := cs_rt_null) sample_client (zip_options "90210"))]
              None
              (Nuget.PlainException "Object reference not set to an instance of an object."))
    as (t' & Hrun & Hcalls & _); [reflexivity | reflexivity | ].
  exists t'. split; [exact Hrun | now rewrite Hcalls].
Defined.

(* ================================================================== *)
(** * The Android client *)

Section AndroidClient.
Context {rt : Android.Runtime}.

Lemma android_zip_errors (parameters : option Android.Parameters) :
  let value := Android.Map_get (match parameters with Some p => p | None => [] end) "zip" in
  if zip_passes value
  then Android.validateParams parameters = Normal tt
  else exists message,
         Android.validateParams parameters = Throw (Android.ValidationException [message]).
Proof.
  cbv zeta. unfold Android.validateParams, Android.validateParamsWith, Android.VALIDATION_RULES.
  cbn [List.length Nat.eqb flat_map fst snd app].
  destruct (Android.Map_get (match parameters with Some p => p | None => [] end) "zip")
    as [[s | d text | text] | ]; cbn [zip_passes].
  - unfold Android.check_param.
    cbn [Android.isRequired Android.getType Android.getMinLength Android.getMaxLength
         Android.getFormat Android.getEnumValues String.eqb Ascii.eqb Bool.eqb orb andb].
    destruct s as [ | c s]; [cbn; eauto | ].
    cbn [is_empty]. unfold push_if.
    destruct (Z.eqb_spec (str_len (String c s)) 5) as [Heq | Hne];
      destruct (Z.ltb_spec (str_len (String c s)) 5) as [Hlt | Hge];
      destruct (Z.ltb_spec 5 (str_len (String c s))) as [Hgt | Hle];
      cbn; try lia; eauto.
  - reflexivity.
  - reflexivity.
  - cbn. eauto.
Qed.

End AndroidClient.

(** X20. The validator of the Android client lets a parameter map through
    exactly when it has a [zip] that is not [null] and that, if it is a
    [String], has five characters: a [zip] that is a number or any other
    object is not checked at all.  [execute] then goes on to the request;
    for every other map, and for [execute()], it throws a
    [ValidationException] with one message whatever the network would
    do. *)
Theorem android_zip_validation {rt : Android.Runtime}
    (this : Android.ZIPDemographicsAPIClient) (parameters : option Android.Parameters) :
  let value := Android.Map_get (match parameters with Some p => p | None => [] end) "zip" in
  is_normal (Android.validateParams parameters) = zip_passes value
  /\ (if zip_passes value
      then forall connect,
             Android.execute this connect parameters
             = Android.executeGet this connect parameters
      else exists message,
             forall connect,
               Android.execute this connect parameters
               = Throw (Android.ValidationException [message])).
Proof.
  intros value. pose proof (android_zip_errors parameters) as H.
  cbv zeta in H. fold value in H.
  unfold Android.execute. destruct (zip_passes value).
  - rewrite H. split; reflexivity.
  - destruct H as [message H]. rewrite H.
    split; [reflexivity | ]. exists message. reflexivity.
Qed.

Lemma append_entries_null {rt : Android.Runtime} (entries : Android.Parameters)
    (key : string) :
  In (key, None) entries ->
  forall queryString first,
    Android.append_entries entries queryString first
    = Throw Android.NullPointerException_getMessage.
Proof.
  induction entries as [ | [k [v | ]] entries IH]; intros Hin queryString first.
  - destruct Hin.
  - cbn [Android.append_entries]. apply IH.
    destruct Hin as [Heq | Hin]; [discriminate Heq | exact Hin].
  - reflexivity.
Qed.

(** X21. Whatever fails after the validation reaches the caller of the
    Android client as an [APIException] that [executeGet] makes of a
    message and a cause, not of a status code, and whose message starts
    with [Network error: ].  That holds for the exception [handleResponse]
    throws for a status other than 200 too: it becomes the cause, and its
    message is kept behind the prefix.  A parameter whose value is [null]
    fails the call before the network is used. *)
Theorem android_failures_are_network_errors {rt : Android.Runtime}
    (this : Android.ZIPDemographicsAPIClient)
    (connect : Android.Request -> Android.HttpURLConnection)
    (parameters : option Android.Parameters) :
  (forall e,
     Android.executeGet this connect parameters = Throw e ->
     exists message,
       e = Android.OtherAPIException
             {| Android.getMessage := "Network error: " ++ message;
                Android.getStatusCode := None |})
  /\ (forall url status text,
        Android.urlString this parameters = Normal url ->
        Android.getResponseCode (connect (android_request this url)) = Normal status ->
        status <> 200 ->
        Android.getErrorStream (connect (android_request this url)) = Some text ->
        Android.handleResponse (connect (android_request this url))
        = Throw {| Android.getMessage := "HTTP error " ++ string_of_Z status ++ ": "
                                           ++ Android.read_lines text;
                   Android.getStatusCode := Some status |}
        /\ Android.executeGet this connect parameters
           = Throw (Android.OtherAPIException
                      {| Android.getMessage := "Network error: HTTP error "
                                                 ++ string_of_Z status ++ ": "
                                                 ++ Android.read_lines text;
                         Android.getStatusCode := None |}))
  /\ (forall entries key,
        parameters = Some entries ->
        In (key, None) entries ->
        Android.executeGet this connect parameters
        = Throw (Android.OtherAPIException
                   {| Android.getMessage := "Network error: "
                                              ++ Android.NullPointerException_getMessage;
                      Android.getStatusCode := None |})).
Proof.
  split; [ | split].
  - intros e. unfold Android.executeGet.
    destruct (Android.urlString this parameters) as [url | message].
    + destruct (Android.handleResponse _) as [response | e']; [discriminate | ].
      intros H. injection H as <-. eexists. reflexivity.
    + intros H. injection H as <-. eexists. reflexivity.
  - intros url status text Hurl Hcode Hstatus Hstream.
    assert (Hhandled :
              Android.handleResponse (connect (android_request this url))
              = Throw {| Android.getMessage := "HTTP error " ++ string_of_Z status ++ ": "
                                                 ++ Android.read_lines text;
                         Android.getStatusCode := Some status |}).
    { unfold Android.handleResponse. rewrite Hcode.
      destruct (Z.eqb_spec status 200) as [ | _]; [contradiction | ].
      rewrite Hstream. reflexivity. }
    split; [exact Hhandled | ].
    unfold Android.executeGet. rewrite Hurl.
    change {| Android.URL := url; Android.getRequestMethod := "GET";
              Android.getRequestProperties := [("x-api-key", Android.apiKey this);
                                               ("auth-mode", "android-package")] |}
      with (android_request this url).
    rewrite Hhandled. reflexivity.
  - intros entries key -> Hin. unfold Android.executeGet, Android.urlString.
    destruct entries as [ | entry entries]; [destruct Hin | ].
    cbv beta iota.
    now rewrite (@append_entries_null rt (entry :: entries) key Hin "?" true).
Qed.

Lemma android_failures_are_network_errors_witness :
  Android.execute (rt := java_rt_any) android_sample (android_answering 404 "{}")
    (Some [("zip", Some (Android.JString "00000"))])
  = Throw (Android.OtherAPIException
             {| Android.getMessage := "Network error: HTTP error 404: {}";
                Android.getStatusCode := None |})
  /\ Android.execute (rt := java_rt_any) android_sample (android_answering 200 "{}")
       (Some [("zip", Some (Android.JString "00000")); ("page", None)])
     = Throw (Android.OtherAPIException
                {| Android.getMessage := "Network error: null";
                   Android.getStatusCode := None |}).
Proof.
  split.
  - destruct (@android_failures_are_network_errors java_rt_any android_sample
                (android_answering 404 "{}")
                (Some [("zip", Some (Android.JString "00000"))]))
      as (_ & Hstatus & _).
    destruct (Hstatus "https://api.apiverve.com/v1/zipdemographics?zip=00000" 404 "{}")
      as [_ Hrun]; [reflexivity | reflexivity | lia | reflexivity | ].
    exact Hrun.
  - destruct (@android_failures_are_network_errors java_rt_any android_sample
                (android_answering 200 "{}")
                (Some [("zip", Some (Android.JString "00000")); ("page", None)]))
      as (_ & _ & Hnull).
    apply (Hnull [("zip", Some (Android.JString "00000")); ("page", None)] "page");
      [reflexivity | right; left; reflexivity].
Defined.

Lemma android_constructor_fields (key : option string)
    (this : Android.ZIPDemographicsAPIClient) :
  Android.constructor key = Normal this ->
  Android.baseURL this = "https://api.apiverve.com/v1/zipdemographics".
Proof.
  unfold Android.constructor. intros H.
  repeat match type of H with
         | (if ?b then _ else _) = _ => destruct b; try discriminate H
         | match ?x with _ => _ end = _ => destruct x; try discriminate H
         end.
  injection H as <-. reflexivity.
Qed.

Lemma encoders_agree (s : string) :
  str_forall (fun c => negb (existsb (fun x => is_char x c)
                               [" "; "!"; "~"; "'"; "("; ")"]%char)) s = true ->
  Android.URLEncoder_encode s = Js.encode_string s.
Proof.
  induction s as [ | c s IH]; [reflexivity | ].
  cbn [str_forall]. intros H. apply andb_true_iff in H as [Hc Hs].
  cbn [Android.URLEncoder_encode Js.encode_string]. rewrite (IH Hs). f_equal.
  revert Hc. ascii_cases c; intros Hc; try reflexivity; discriminate Hc.
Qed.

(** X22. For a [zip] of code units below 256 that holds no space and none
    of [!], [~], ['], [(] and [)], the Android client asks for the URL the
    npm client asks for.
    ([URLEncoder] writes a space as [+] and escapes the other five;
    [encodeURIComponent] escapes the space and leaves the five.) *)
Theorem android_url_agrees_with_npm {jsrt : Js.Runtime} {rt : Android.Runtime}
    (options : Js.value) (npm : Npm.zipdemographicsWrapper)
    (key : option string) (this : Android.ZIPDemographicsAPIClient) (zip : string) :
  Npm.constructor options = Normal npm ->
  Android.constructor key = Normal this ->
  str_forall (fun c => negb (existsb (fun x => is_char x c)
                               [" "; "!"; "~"; "'"; "("; ")"]%char)) zip = true ->
  Android.urlString this (Some [("zip", Some (Android.JString zip))])
  = Normal (Npm.constructURL npm (zip_query zip)).
Proof.
  intros Hnpm Hthis Hzip.
  apply npm_constructor_fields in Hnpm as [Hbase _].
  apply android_constructor_fields in Hthis.
  unfold Npm.constructURL, Android.urlString. rewrite Hbase, Hthis.
  cbn [Android.append_entries negb Android.Object_toString].
  rewrite (encoders_agree zip Hzip). reflexivity.
Qed.

Lemma android_url_agrees_with_npm_witness :
  Android.urlString (rt := java_rt_any) android_sample
    (Some [("zip", Some (Android.JString "90210-1234"))])
  = Normal (Npm.constructURL (rt := rt_any) sample_this (zip_query "90210-1234"))
  /\ Android.urlString (rt := java_rt_any) android_sample
       (Some [("zip", Some (Android.JString "9 0"))])
     = Normal "https://api.apiverve.com/v1/zipdemographics?zip=9+0"
  /\ Npm.constructURL (rt := rt_any) sample_this (zip_query "9 0")
     = "https://api.apiverve.com/v1/zipdemographics?zip=9%200".
Proof.
  split; [ | split; reflexivity].
  apply (@android_url_agrees_with_npm rt_any java_rt_any
           (Js.Object [("api_key", Js.Str hex32)]) sample_this (Some hex32) android_sample
           "90210-1234" sample_this_constructed); reflexivity.
Defined.

Ltac not_android_enum_message :=
  cbn [app push_if In]; intros H;
  repeat match type of H with
         | _ \/ _ => destruct H as [H | H]
         end;
  first [ exact H | discriminate H | apply message_inv in H; discriminate H ].

(** X23. In the Android client nothing stops the enum check of a value
    that is there: also a value that failed its type check (a number that
    does not parse) is compared with the allowed values, so such a value
    gets two messages. *)
Theorem android_enum_check_always_applies {rt : Android.Runtime} (paramName : string)
    (rule : Android.ValidationRule) (allowed : list string) (value : Android.Object) :
  Android.getEnumValues rule = Some allowed ->
  allowed <> [] ->
  Android.isRequired rule
    && match value with Android.JString s => is_empty s | _ => false end = false ->
  (In (android_enum_violation paramName allowed)
      (Android.check_param paramName rule (Some value))
   <-> existsb (String.eqb (Android.Object_toString value)) allowed = false).
Proof.
  intros He Hne Hreq.
  assert (Hlen : (0 <? List.length allowed)%nat = true)
    by (destruct allowed; [contradiction | reflexivity]).
  unfold Android.check_param. rewrite He, Hreq, Hlen. cbn [negb].
  fold (android_enum_violation paramName allowed).
  rewrite in_app_single; [apply negb_true_iff | ].
  unfold android_enum_violation.
  destruct (String.eqb (Android.getType rule) "integer"
            || String.eqb (Android.getType rule) "number").
  - match goal with
    | |- context [match ?parsed with Some _ => _ | None => _ end] =>
        destruct parsed as [numValue | ]
    end; [ | not_android_enum_message].
    destruct (Android.getMin rule) as [lo | ], (Android.getMax rule) as [hi | ];
      try destruct (PrimFloat.ltb numValue lo);
      try destruct (PrimFloat.ltb hi numValue);
      not_android_enum_message.
  - destruct (String.eqb (Android.getType rule) "string"), value as [s | d text | text];
      try (intros []).
    destruct (Android.getMinLength rule) as [lo | ], (Android.getMaxLength rule) as [hi | ],
      (Android.getFormat rule) as [f | ];
      try destruct (str_len s <? lo);
      try destruct (hi <? str_len s);
      try destruct (assoc f Android.FORMAT_PATTERNS) as [pattern | ];
      try destruct (negb (matches pattern s));
      not_android_enum_message.
Qed.

Lemma android_enum_check_always_applies_witness :
  Android.check_param (rt := java_rt_any) "level" android_level_rule
    (Some (Android.JString "high"))
  = ["Parameter [level] must be a valid number"; "Parameter [level] must be one of: 1, 2"]
  /\ In (android_enum_violation "level" ["1"; "2"])
       (Android.check_param (rt := java_rt_any) "level" android_level_rule
          (Some (Android.JString "high"))).
Proof.
  split; [reflexivity | ].
  apply (@android_enum_check_always_applies java_rt_any "level" android_level_rule
           ["1"; "2"] (Android.JString "high")); [reflexivity | discriminate | reflexivity | ].
  reflexivity.
Defined.

(** X25. The Android client returns a response only for a parameter map
    that passed the validator and a server that answered with the status
    200 exactly (201 or 204 are errors to it); the body it returns is the
    text of the response with its line breaks removed. *)
Theorem android_success_means_200 {rt : Android.Runtime}
    (this : Android.ZIPDemographicsAPIClient)
    (connect : Android.Request -> Android.HttpURLConnection)
    (parameters : option Android.Parameters) (response : Android.APIResponse) :
  Android.execute this connect parameters = Normal response ->
  exists url text,
    Android.validateParams parameters = Normal tt
    /\ Android.urlString this parameters = Normal url
    /\ Android.getResponseCode (connect (android_request this url)) = Normal 200
    /\ Android.getInputStream (connect (android_request this url)) = Normal text
    /\ Android.getBody response = Android.read_lines text.
Proof.
  unfold Android.execute, Android.executeGet.
  destruct (Android.validateParams parameters) as [[] | e] eqn:Hv; [ | discriminate].
  destruct (Android.urlString this parameters) as [url | message] eqn:Hurl; [ | discriminate].
  change {| Android.URL := url; Android.getRequestMethod := "GET";
            Android.getRequestProperties := [("x-api-key", Android.apiKey this);
                                             ("auth-mode", "android-package")] |}
    with (android_request this url).
  unfold Android.handleResponse.
  destruct (Android.getResponseCode (connect (android_request this url)))
    as [status | message] eqn:Hcode; [ | discriminate].
  destruct (Z.eqb_spec status 200) as [-> | Hne].
  - destruct (Android.getInputStream (connect (android_request this url)))
      as [text | message] eqn:Hstream; [ | discriminate].
    cbn [negb]. intros H. injection H as <-.
    exists url, text. repeat split; [exact Hcode | exact Hstream].
  - destruct (Android.getErrorStream (connect (android_request this url)));
      cbn [negb]; discriminate.
Qed.

Lemma android_success_means_200_witness :
  exists url text,
    Android.urlString (rt := java_rt_any) android_sample
      (Some [("zip", Some (Android.JString "90210"))]) = Normal url
    /\ Android.getInputStream
         (android_answering 200 (String "{" (String "010" "}")) (android_request android_sample url))
       = Normal text
    /\ Android.read_lines text = "{}".
Proof.
  destruct (@android_success_means_200 java_rt_any android_sample
              (android_answering 200 (String "{" (String "010" "}")))
              (Some [("zip", Some (Android.JString "90210"))])
              {| Android.getBody := "{}" |})
    as (url & text & _ & Hurl & _ & Hstream & Hbody); [reflexivity | ].
  exists url, text. split; [exact Hurl | ]. split; [exact Hstream | ].
  symmetry. exact Hbody.
Defined.

(* ================================================================== *)
(** * The [secure] switch *)

Lemma loop_ignores_isSecure {rt : Nuget.Runtime} (c : Nuget.Client) (isSecure : bool)
    (net : Nuget.Network) (options : option Nuget.QueryOptions) (fuel : nat) :
  forall attempt lastException,
    Nuget.ExecuteAsync_loop (Nuget.SetIsSecure c isSecure) net options fuel attempt lastException
    = Nuget.ExecuteAsync_loop c net options fuel attempt lastException.
Proof.
  induction fuel as [ | fuel IH]; intros attempt lastException; [reflexivity | ].
  rewrite !loop_unfold.
  change (cs_tried (Nuget.SetIsSecure c isSecure) net options attempt)
    with (cs_tried c net options attempt).
  change (Nuget._maxRetries (Nuget.SetIsSecure c isSecure)) with (Nuget._maxRetries c).
  destruct (attempt <=? Nuget._maxRetries c); [ | reflexivity].
  destruct (cs_tried c net options attempt) as [t [response | ex]]; [reflexivity | ].
  rewrite IH. reflexivity.
Qed.

Lemma legacy_loop_ignores_isSecure {rt : Nuget.Runtime} (c : Nuget.Client) (isSecure : bool)
    (net : Nuget.Network) (options : option Nuget.QueryOptions) (fuel : nat) :
  forall attempt lastException,
    Nuget.ExecuteWithWebRequest_loop (Nuget.SetIsSecure c isSecure) net options fuel
      attempt lastException
    = Nuget.ExecuteWithWebRequest_loop c net options fuel attempt lastException.
Proof.
  induction fuel as [ | fuel IH]; intros attempt lastException; [reflexivity | ].
  rewrite !legacy_unfold.
  change (legacy_tried (Nuget.SetIsSecure c isSecure) net options attempt)
    with (legacy_tried c net options attempt).
  change (Nuget._maxRetries (Nuget.SetIsSecure c isSecure)) with (Nuget._maxRetries c).
  destruct (attempt <=? Nuget._maxRetries c); [ | reflexivity].
  destruct (legacy_tried c net options attempt) as [t [response | ex]]; [reflexivity | ].
  rewrite IH. reflexivity.
Qed.

(** X24. The switch for HTTPS switches nothing.  In the C# client
    [SetIsSecure] changes no request, no sleep, no log line and no result
    of [ExecuteAsync], [Execute] or the legacy loop; in the npm client
    every URL starts with the [https] endpoint whatever [secure] was given
    to the constructor. *)
Theorem secure_switch_is_ignored {csrt : Nuget.Runtime} {jsrt : Js.Runtime} :
  (forall c isSecure net options,
     Nuget.ExecuteAsync (Nuget.SetIsSecure c isSecure) net options
     = Nuget.ExecuteAsync c net options
     /\ Nuget.Execute (Nuget.SetIsSecure c isSecure) net options
        = Nuget.Execute c net options
     /\ Nuget.ExecuteWithWebRequest (Nuget.SetIsSecure c isSecure) net options
        = Nuget.ExecuteWithWebRequest c net options)
  /\ (forall apiKey secure query,
        match Npm.constructor (Js.Object [("api_key", apiKey); ("secure", secure)]) with
        | Normal this =>
            exists rest,
              Npm.constructURL this query
              = "https://api.apiverve.com/v1/zipdemographics" ++ rest
        | Throw _ => True
        end).
Proof.
  split.
  - intros c isSecure net options.
    assert (Hasync : Nuget.ExecuteAsync (Nuget.SetIsSecure c isSecure) net options
                     = Nuget.ExecuteAsync c net options).
    { unfold Nuget.ExecuteAsync.
      change (Nuget._maxRetries (Nuget.SetIsSecure c isSecure)) with (Nuget._maxRetries c).
      apply (@loop_ignores_isSecure csrt c isSecure net options). }
    split; [exact Hasync | ]. split.
    + unfold Nuget.Execute. now rewrite Hasync.
    + unfold Nuget.ExecuteWithWebRequest.
      change (Nuget._maxRetries (Nuget.SetIsSecure c isSecure)) with (Nuget._maxRetries c).
      apply (@legacy_loop_ignores_isSecure csrt c isSecure net options).
  - intros apiKey secure query.
    destruct (Npm.constructor (Js.Object [("api_key", apiKey); ("secure", secure)]))
      as [this | e] eqn:Hthis; [ | exact I].
    apply npm_constructor_fields in Hthis as [Hbase _].
    unfold Npm.constructURL. rewrite Hbase.
    destruct (Js.truthy query && String.eqb (Js.typeof query) "object");
      [destruct (0 <? List.length (Js.keys query))%nat | ].
    + eexists. reflexivity.
    + exists "". reflexivity.
    + exists "". reflexivity.
Qed.
